(** * Verification of the AIBINGWA trading agent core

    Shallow embedding of the risk guard ([TradingLimits], security.ts),
    the execution safety wrapper ([ExecutionSafetyManager],
    execution-safety.ts), the trade journal (memory.ts) and the
    autonomous trader's scan / monitor / bet-sizing paths (autonomous.ts).

    JavaScript numbers are modelled as rationals [Q]; where the code divides
    by a value that can be zero, the quotient is the extended number [Num]
    below, so that [Infinity] and [NaN] stay visible.  Time ([Date.now()],
    [new Date().toDateString()]) is an explicit input of every operation
    that reads it. *)

From Stdlib Require Import ZArith QArith Qround List String Ascii Bool Lia.
From Stdlib Require Import Sorting.Permutation Sorting.Sorted.
From Stdlib Require Import DecimalString DecimalN.
From Stdlib Require Floats.SpecFloat.
Import ListNotations.
Open Scope string_scope.
Set Warnings "-register-all".

(** ** JavaScript numbers *)
Module JS.

(** [x < y] on finite numbers. *)
Definition Qlt_bool (x y : Q) : bool := negb (Qle_bool y x).

(** The result of a JavaScript division: finite, +/-Infinity or NaN. *)
Inductive Num := Fin (q : Q) | PInf | NInf | NaN.

(** [x / y] on doubles. *)
Definition div (x y : Q) : Num :=
  if Qeq_bool y 0 then
    if Qeq_bool x 0 then NaN
    else if Qlt_bool 0 x then PInf else NInf
  else Fin (x / y).

(** [n * k] with a finite positive [k]. *)
Definition mul_pos (n : Num) (k : Q) : Num :=
  match n with Fin q => Fin (q * k) | m => m end.

(** [n >= q] and [n > q]; every comparison with NaN is false. *)
Definition ge (n : Num) (q : Q) : bool :=
  match n with Fin x => Qle_bool q x | PInf => true | _ => false end.
Definition gt (n : Num) (q : Q) : bool :=
  match n with Fin x => Qlt_bool q x | PInf => true | _ => false end.

(** [Math.max(a, b)] and [Math.min(a, b)]. *)
Definition max (a b : Q) : Q := if Qlt_bool a b then b else a.
Definition min (a b : Q) : Q := if Qlt_bool b a then b else a.

(** [Math.abs(x)]. *)
Definition abs (x : Q) : Q := if Qlt_bool x 0 then - x else x.

(** Arithmetic and comparison on JavaScript numbers (zero is unsigned). *)
Definition neg (a : Num) : Num :=
  match a with Fin x => Fin (- x) | PInf => NInf | NInf => PInf | NaN => NaN end.

Definition add (a b : Num) : Num :=
  match a, b with
  | NaN, _ | _, NaN => NaN
  | Fin x, Fin y => Fin (x + y)
  | PInf, NInf | NInf, PInf => NaN
  | PInf, _ | _, PInf => PInf
  | NInf, _ | _, NInf => NInf
  end.

Definition sub (a b : Num) : Num := add a (neg b).

(** An infinity multiplied by a finite non-zero number of sign [x]. *)
Definition scale_inf (i : Num) (x : Q) : Num :=
  if Qeq_bool x 0 then NaN else if Qlt_bool x 0 then neg i else i.

Definition mul (a b : Num) : Num :=
  match a, b with
  | NaN, _ | _, NaN => NaN
  | Fin x, Fin y => Fin (x * y)
  | Fin x, i | i, Fin x => scale_inf i x
  | PInf, PInf | NInf, NInf => PInf
  | _, _ => NInf
  end.

Definition ndiv (a b : Num) : Num :=
  match a, b with
  | NaN, _ | _, NaN => NaN
  | Fin x, Fin y => div x y
  | Fin _, _ => Fin 0
  | i, Fin y => if Qeq_bool y 0 then i else scale_inf i y
  | _, _ => NaN
  end.

Definition cmp (a b : Num) : option comparison :=
  match a, b with
  | NaN, _ | _, NaN => None
  | Fin x, Fin y => Some (Qcompare x y)
  | PInf, PInf | NInf, NInf => Some Eq
  | PInf, _ | _, NInf => Some Gt
  | _, _ => Some Lt
  end.

(** [a >= b], [a <= b], [a > b], [a === b]. *)
Definition nge (a b : Num) : bool :=
  match cmp a b with Some Gt | Some Eq => true | _ => false end.
Definition nle (a b : Num) : bool :=
  match cmp a b with Some Lt | Some Eq => true | _ => false end.
Definition ngt (a b : Num) : bool :=
  match cmp a b with Some Gt => true | _ => false end.
Definition neqb (a b : Num) : bool :=
  match cmp a b with Some Eq => true | _ => false end.

End JS.

(** ** IEEE-754 binary64 arithmetic

    The operations of JavaScript numbers on doubles, over the Standard
    Library's executable specification of binary floating point
    ([SpecFloat], round to nearest, ties to even).  [of_num] rounds an
    exact value to the nearest double, as [parseFloat] and numeric
    literals do; [to_num] reads a double back as its exact value. *)
Module F64.
Import SpecFloat.

Definition t : Type := spec_float.

Definition prec : Z := 53.
Definition emax : Z := 1024.

Definition add (x y : spec_float) : spec_float := SFadd prec emax x y.
Definition sub (x y : spec_float) : spec_float := SFsub prec emax x y.
Definition mul (x y : spec_float) : spec_float := SFmul prec emax x y.
Definition div (x y : spec_float) : spec_float := SFdiv prec emax x y.

(** The double nearest to a rational: the correctly rounded quotient of
    its numerator by its denominator. *)
Definition of_Q (q : Q) : spec_float :=
  match Qnum q with
  | Z0 => S754_zero false
  | Zpos p => div (S754_finite false p 0) (S754_finite false (Qden q) 0)
  | Zneg p => div (S754_finite true p 0) (S754_finite false (Qden q) 0)
  end.

Definition of_Z (z : Z) : spec_float := of_Q (inject_Z z).

Definition of_num (n : JS.Num) : spec_float :=
  match n with
  | JS.Fin q => of_Q q
  | JS.PInf => S754_infinity false
  | JS.NInf => S754_infinity true
  | JS.NaN => S754_nan
  end.

Definition pow2 (e : Z) : Q :=
  match e with
  | Zpos p => inject_Z (Z.pow 2 (Zpos p))
  | Z0 => 1
  | Zneg p => 1 # Pos.pow 2 p
  end.

(** The exact value of a double (both zeros read as 0). *)
Definition to_num (x : spec_float) : JS.Num :=
  match x with
  | S754_zero _ => JS.Fin 0
  | S754_infinity s => if s then JS.NInf else JS.PInf
  | S754_nan => JS.NaN
  | S754_finite s m e =>
      let v := (inject_Z (Zpos m) * pow2 e)%Q in JS.Fin (if s then (- v)%Q else v)
  end.

Definition is_zero (x : spec_float) : bool :=
  match x with S754_zero _ => true | _ => false end.

(** [a > b] and [a < b]; false when either is NaN. *)
Definition gt (a b : spec_float) : bool :=
  match SFcompare a b with Some Gt => true | _ => false end.
Definition lt (a b : spec_float) : bool :=
  match SFcompare a b with Some Lt => true | _ => false end.

(** [Math.max(a, b)] and [Math.min(a, b)]: NaN if either is NaN, and
    +0 above -0. *)
Definition max (a b : spec_float) : spec_float :=
  match a, b with
  | S754_nan, _ | _, S754_nan => S754_nan
  | _, _ =>
      match SFcompare a b with
      | Some Lt => b
      | Some Gt => a
      | _ => match a with S754_zero true => b | _ => a end
      end
  end.
Definition min (a b : spec_float) : spec_float :=
  match a, b with
  | S754_nan, _ | _, S754_nan => S754_nan
  | _, _ =>
      match SFcompare a b with
      | Some Lt => a
      | Some Gt => b
      | _ => match a with S754_zero false => b | _ => a end
      end
  end.

(** [Math.floor(x)]: a finite double with a negative exponent is
    rounded down to an integer, which is again a double. *)
Definition floor (x : spec_float) : spec_float :=
  match x with
  | S754_finite s m (Zneg k) =>
      let d := Z.pow 2 (Zpos k) in
      if s then binary_normalize prec emax (- ((Zpos m + d - 1) / d)) 0 true
      else binary_normalize prec emax (Zpos m / d) 0 false
  | _ => x
  end.

End F64.

(** ** Risk guard: [TradingLimits] (security.ts) *)
Module RiskGuard.
Import JS.

Record SecurityConfig := {
  maxTradesPerDay : Q;
  maxDailyLossUsd : Q;
  maxOpenPositions : Q;
  cooldownMinutesAfterLossStreak : Q;
  maxPositionSizePct : Q;
  drawdownKillSwitchPct : Q
}.

Definition DEFAULT_SECURITY_CONFIG : SecurityConfig := {|
  maxTradesPerDay := 100;
  maxDailyLossUsd := 1000;
  maxOpenPositions := 10;
  cooldownMinutesAfterLossStreak := 5;
  maxPositionSizePct := 10;
  drawdownKillSwitchPct := 50
|}.

(** The private fields of a [TradingLimits] instance. *)
Record TradingLimits := {
  config : SecurityConfig;
  dailyTrades : Q;
  dailyLoss : Q;
  lastResetDate : string;
  consecutiveLosses : Q;
  lastLossTime : Q;
  totalDrawdown : Q;
  autoTradeKilled : bool
}.

(** [new TradingLimits(config)] on the day [today]. *)
Definition create (cfg : SecurityConfig) (today : string) : TradingLimits := {|
  config := cfg; dailyTrades := 0; dailyLoss := 0; lastResetDate := today;
  consecutiveLosses := 0; lastLossTime := 0; totalDrawdown := 0;
  autoTradeKilled := false |}.

Definition set_daily (s : TradingLimits) (trades loss : Q) (date : string) :=
  {| config := config s; dailyTrades := trades; dailyLoss := loss;
     lastResetDate := date; consecutiveLosses := consecutiveLosses s;
     lastLossTime := lastLossTime s; totalDrawdown := totalDrawdown s;
     autoTradeKilled := autoTradeKilled s |}.

(** [resetIfNewDay()]; [today] is [new Date().toDateString()]. *)
Definition resetIfNewDay (s : TradingLimits) (today : string) : TradingLimits :=
  if negb (String.eqb today (lastResetDate s)) then set_daily s 0 0 today
  else s.

(** The reason strings of [canTrade]; each constructor is one template
    literal of the source, carrying its interpolated values. *)
Inductive Reason :=
| KilledByDrawdown      (* "Auto-trade disabled due to excessive drawdown. Manual reset required." *)
| DailyLimitReached (max : Q)            (* `Daily trade limit reached (${max})` *)
| PositionTooLarge (pct : Num) (max : Q)  (* `Position size ${pct}% exceeds limit of ${max}%` *)
| CooldownActive (minutes : Z).           (* `Cooldown active after loss streak. ${m} minutes remaining.` *)

Definition reason_text (r : Reason) : option string :=
  match r with
  | KilledByDrawdown =>
      Some "Auto-trade disabled due to excessive drawdown. Manual reset required."
  | _ => None
  end.

Record CanTradeResult := { allowed : bool; reason : option Reason }.

(** [canTrade(positionSizeUsd, currentPortfolioValue)] at wall-clock
    [now] (ms) on day [today]. *)
Definition canTrade (s0 : TradingLimits) (today : string) (now : Q)
    (positionSizeUsd currentPortfolioValue : Q) : TradingLimits * CanTradeResult :=
  let s := resetIfNewDay s0 today in
  if autoTradeKilled s then
    (s, {| allowed := false; reason := Some KilledByDrawdown |})
  else if Qle_bool (maxTradesPerDay (config s)) (dailyTrades s) then
    (s, {| allowed := false;
           reason := Some (DailyLimitReached (maxTradesPerDay (config s))) |})
  else
    let positionSizePct := mul_pos (div positionSizeUsd currentPortfolioValue) 100 in
    if gt positionSizePct (maxPositionSizePct (config s)) then
      (s, {| allowed := false;
             reason := Some (PositionTooLarge positionSizePct (maxPositionSizePct (config s))) |})
    else
      let window := cooldownMinutesAfterLossStreak (config s) * 60 * 1000 in
      if Qle_bool 3 (consecutiveLosses s) && Qlt_bool (now - lastLossTime s) window then
        (s, {| allowed := false;
               reason := Some (CooldownActive
                 (Qceiling ((window - (now - lastLossTime s)) / 60000))) |})
      else (s, {| allowed := true; reason := None |}).

(** [recordTrade(pnlUsd, portfolioValue)] at wall-clock [now]. *)
Definition recordTrade (s0 : TradingLimits) (today : string) (now : Q)
    (pnlUsd portfolioValue : Q) : TradingLimits :=
  let s := resetIfNewDay s0 today in
  let trades := dailyTrades s + 1 in
  if Qlt_bool pnlUsd 0 then
    let dd := totalDrawdown s + abs pnlUsd in
    let drawdownPct := mul_pos (div dd portfolioValue) 100 in
    {| config := config s; dailyTrades := trades;
       dailyLoss := dailyLoss s + abs pnlUsd; lastResetDate := lastResetDate s;
       consecutiveLosses := consecutiveLosses s + 1; lastLossTime := now;
       totalDrawdown := dd;
       autoTradeKilled :=
         if ge drawdownPct (drawdownKillSwitchPct (config s)) then true
         else autoTradeKilled s |}
  else
    {| config := config s; dailyTrades := trades; dailyLoss := dailyLoss s;
       lastResetDate := lastResetDate s; consecutiveLosses := 0;
       lastLossTime := lastLossTime s;
       totalDrawdown := max 0 (totalDrawdown s - pnlUsd * (1 # 2));
       autoTradeKilled := autoTradeKilled s |}.

(** [isDailyLossExceeded()]. *)
Definition isDailyLossExceeded (s0 : TradingLimits) (today : string)
    : TradingLimits * bool :=
  let s := resetIfNewDay s0 today in
  (s, Qle_bool (maxDailyLossUsd (config s)) (dailyLoss s)).

(** [resetKillSwitch()]. *)
Definition resetKillSwitch (s : TradingLimits) : TradingLimits :=
  {| config := config s; dailyTrades := dailyTrades s; dailyLoss := dailyLoss s;
     lastResetDate := lastResetDate s; consecutiveLosses := 0;
     lastLossTime := lastLossTime s; totalDrawdown := 0;
     autoTradeKilled := false |}.

(** The public methods that change or read the guard, as calls. *)
Inductive Call :=
| CanTrade (today : string) (now positionSizeUsd portfolioValue : Q)
| RecordTrade (today : string) (now pnlUsd portfolioValue : Q)
| IsDailyLossExceeded (today : string)
| GetStatus (today : string)
| ResetKillSwitch.

Inductive Output := OCanTrade (r : CanTradeResult) | OBool (b : bool) | ONone.

Definition step (s : TradingLimits) (c : Call) : TradingLimits * Output :=
  match c with
  | CanTrade d n p v => let '(s', r) := canTrade s d n p v in (s', OCanTrade r)
  | RecordTrade d n p v => (recordTrade s d n p v, ONone)
  | IsDailyLossExceeded d => let '(s', b) := isDailyLossExceeded s d in (s', OBool b)
  | GetStatus d => (resetIfNewDay s d, ONone)
  | ResetKillSwitch => (resetKillSwitch s, ONone)
  end.

(** Run a sequence of calls on one instance, collecting the outputs. *)
Fixpoint run (s : TradingLimits) (cs : list Call) : TradingLimits * list Output :=
  match cs with
  | [] => (s, [])
  | c :: cs' =>
      let '(s1, o) := step s c in
      let '(s2, os) := run s1 cs' in (s2, o :: os)
  end.

Definition is_reset (c : Call) : bool :=
  match c with ResetKillSwitch => true | _ => false end.

Definition killed_output (o : Output) : Prop :=
  match o with
  | OCanTrade r => r = {| allowed := false; reason := Some KilledByDrawdown |}
  | _ => True
  end.

End RiskGuard.

(** ** JavaScript strings *)
Module JSString.
Local Open Scope Z_scope.

(** [s.includes(sub)]. *)
Fixpoint includes (s sub : string) : bool :=
  prefix sub s || match s with EmptyString => false | String _ s' => includes s' sub end.

(** [String(n)] / [n.toString()] for a non-negative integer. *)
Definition of_N (n : N) : string := NilEmpty.string_of_uint (N.to_uint n).

(** [String(z)] for an integer. *)
Definition of_Z (z : Z) : string :=
  match z with
  | Zneg p => "-" ++ of_N (Npos p)
  | _ => of_N (Z.to_N z)
  end.

Definition is_char (c : ascii) (n : nat) : bool := Nat.eqb (nat_of_ascii c) n.

(** White space of [String.prototype.trim] and [parseFloat] (ASCII and
    no-break space). *)
Definition is_ws (c : ascii) : bool :=
  let n := nat_of_ascii c in
  Nat.eqb n 32 || (Nat.leb 9 n && Nat.leb n 13) || Nat.eqb n 160.

Definition is_digit (c : ascii) : bool :=
  let n := nat_of_ascii c in Nat.leb 48 n && Nat.leb n 57.

Definition is_hex (c : ascii) : bool :=
  let n := nat_of_ascii c in
  is_digit c || (Nat.leb 65 n && Nat.leb n 70) || (Nat.leb 97 n && Nat.leb n 102).

Definition digit_value (c : ascii) : Z :=
  let n := nat_of_ascii c in
  if Nat.leb n 57 then Z.of_nat n - 48
  else if Nat.leb n 70 then Z.of_nat n - 55 else Z.of_nat n - 87.

Fixpoint trim_start (s : string) : string :=
  match s with
  | EmptyString => EmptyString
  | String c s' => if is_ws c then trim_start s' else s
  end.

Definition rev_string (s : string) : string :=
  string_of_list_ascii (rev (list_ascii_of_string s)).

(** [s.trim()]. *)
Definition trim (s : string) : string := rev_string (trim_start (rev_string (trim_start s))).

Fixpoint take_while (p : ascii -> bool) (s : string) : string * string :=
  match s with
  | EmptyString => (EmptyString, EmptyString)
  | String c s' =>
      if p c then let '(d, r) := take_while p s' in (String c d, r)
      else (EmptyString, s)
  end.

(** The value of a digit string in [radix]. *)
Fixpoint digits_value_acc (radix : Z) (acc : Z) (d : string) : Z :=
  match d with
  | EmptyString => acc
  | String c d' => digits_value_acc radix (acc * radix + digit_value c) d'
  end.

(** An optional leading sign: [true] for "-". *)
Definition take_sign (s : string) : bool * string :=
  match s with
  | String c r => if is_char c 45 then (true, r) else if is_char c 43 then (false, r) else (false, s)
  | EmptyString => (false, s)
  end.

(** [parseFloat(s)]: the longest decimal-literal prefix after white
    space, its exact value (no rounding to a double). *)
Definition parseFloat (s0 : string) : JS.Num :=
  let '(neg, s1) := take_sign (trim_start s0) in
  if prefix "Infinity" s1 then (if neg then JS.NInf else JS.PInf) else
  let '(ip, r1) := take_while is_digit s1 in
  let '(fp, r2) := match r1 with
                   | String c r => if is_char c 46 then take_while is_digit r
                                   else (EmptyString, r1)
                   | EmptyString => (EmptyString, r1)
                   end in
  if String.eqb ip EmptyString && String.eqb fp EmptyString then JS.NaN else
  let e := match r2 with
           | String c r =>
               if is_char c 101 || is_char c 69 then
                 let '(eneg, r') := take_sign r in
                 let '(ed, _) := take_while is_digit r' in
                 if String.eqb ed EmptyString then 0
                 else if eneg then - digits_value_acc 10 0 ed else digits_value_acc 10 0 ed
               else 0
           | EmptyString => 0
           end in
  let mant := (inject_Z (digits_value_acc 10 0 ip) +
               inject_Z (digits_value_acc 10 0 fp) /
               inject_Z (10 ^ Z.of_nat (String.length fp)))%Q in
  let v := (mant * Qpower 10 e)%Q in
  JS.Fin (if neg then (- v)%Q else v).

(** [parseInt(s)] without radix ("0x" selects base 16); [None] is NaN. *)
Definition parseInt (s0 : string) : option Z :=
  let '(neg, s1) := take_sign (trim_start s0) in
  let '(radix, s2) := match s1 with
                      | String z (String x r) =>
                          if is_char z 48 && (is_char x 120 || is_char x 88) then (16, r)
                          else (10, s1)
                      | _ => (10, s1)
                      end in
  let '(d, _) := take_while (if Z.eqb radix 16 then is_hex else is_digit) s2 in
  if String.eqb d EmptyString then None
  else let v := digits_value_acc radix 0 d in Some (if neg then - v else v).

(** [s.split(sep)] for a one-character separator. *)
Fixpoint split_on (sep : ascii) (s : string) : list string :=
  match s with
  | EmptyString => [EmptyString]
  | String c s' =>
      let rest := split_on sep s' in
      if Ascii.eqb c sep then EmptyString :: rest
      else match rest with
           | h :: t => String c h :: t
           | [] => [String c EmptyString]
           end
  end.

(** [s.toLowerCase()] on ASCII letters. *)
Fixpoint to_lower (s : string) : string :=
  match s with
  | EmptyString => EmptyString
  | String c s' =>
      let n := nat_of_ascii c in
      String (if Nat.leb 65 n && Nat.leb n 90 then ascii_of_nat (n + 32) else c) (to_lower s')
  end.

(** [s.replace(/[$,k]/gi, "")]. *)
Fixpoint strip_cap_chars (s : string) : string :=
  match s with
  | EmptyString => EmptyString
  | String c s' =>
      if is_char c 36 || is_char c 44 || is_char c 107 || is_char c 75
      then strip_cap_chars s' else String c (strip_cap_chars s')
  end.

Definition pad3 (d : string) : string :=
  match String.length d with
  | 1%nat => "00" ++ d
  | 2%nat => "0" ++ d
  | _ => d
  end.

(** [x.toFixed(2)]: the integer [n] nearest to [100 x] (the larger
    magnitude on a tie), written with two decimals. *)
Definition toFixed2 (x : JS.Num) : string :=
  match x with
  | JS.NaN => "NaN"
  | JS.PInf => "Infinity"
  | JS.NInf => "-Infinity"
  | JS.Fin q =>
      let neg := JS.Qlt_bool q 0 in
      let a := if neg then (- q)%Q else q in
      let y := (a * 100)%Q in
      let n := Qfloor y in
      let n := if Qle_bool (1 # 2) (y - inject_Z n) then n + 1 else n in
      let d := pad3 (of_Z n) in
      let k := String.length d in
      (if neg then "-" else EmptyString) ++ substring 0 (k - 2) d ++ "." ++ substring (k - 2) 2 d
  end.

(** Fraction digits of [0 <= f < 1], at most [fuel] of them. *)
Fixpoint frac_digits (fuel : nat) (f : Q) : string :=
  match fuel with
  | O => EmptyString
  | S k =>
      if Qeq_bool f 0 then EmptyString
      else let y := (f * 10)%Q in
           let d := Qfloor y in
           of_Z d ++ frac_digits k (y - inject_Z d)%Q
  end.

(** [x.toString()] in plain decimal notation, exact for the finite
    decimals [parseFloat] yields (up to 20 fraction digits). *)
Definition num_to_string (x : JS.Num) : string :=
  match x with
  | JS.NaN => "NaN"
  | JS.PInf => "Infinity"
  | JS.NInf => "-Infinity"
  | JS.Fin q =>
      let neg := JS.Qlt_bool q 0 in
      let a := if neg then (- q)%Q else q in
      let i := Qfloor a in
      let f := frac_digits 20 (a - inject_Z i)%Q in
      (if neg then "-" else EmptyString) ++ of_Z i ++
      (if String.eqb f EmptyString then EmptyString else "." ++ f)
  end.

End JSString.

(** ** Execution safety wrapper: [ExecutionSafetyManager] (execution-safety.ts) *)
Module Safety.
Import JSString.
Local Open Scope Z_scope.

Inductive RequestType := Trade | ScanT | Research | PolymarketBet.

Definition type_name (t : RequestType) : string :=
  match t with
  | Trade => "trade" | ScanT => "scan" | Research => "research"
  | PolymarketBet => "polymarket_bet"
  end.

(** [ExecutionRequest]; [params] plays no part in [safeExecute]. *)
Record ExecutionRequest := {
  id : string; type : RequestType; userId : string;
  timestamp : Z; retryCount : nat
}.

Inductive ErrorType :=
| network | insufficient_balance | market_closed | rate_limit | invalid_params | system.

Record ClassifiedError := {
  etype : ErrorType; message : string; retryable : bool; backoffMs : Z
}.

(** [ExecutionResult]; the operation's value is an opaque string. *)
Record ExecutionResult := {
  success : bool; data : option string; error : option ClassifiedError;
  latency : Z; cached : bool
}.

(** A thrown value: an [Error] with its [name], [message] and an optional
    [status] property. *)
Record JSError := { errName : string; errMessage : string; errStatus : option Z }.

(** [error?.message || error?.toString() || "Unknown error"]; an
    [Error]'s [toString()] is its [name] when the message is empty. *)
Definition error_text (e : JSError) : string :=
  if String.eqb (errMessage e) "" then
    if String.eqb (errName e) "" then "Unknown error" else errName e
  else errMessage e.

Definition status_is (e : JSError) (n : Z) : bool :=
  match errStatus e with Some s => Z.eqb s n | None => false end.

(** [classifyError(error)]. *)
Definition classifyError (e : JSError) : ClassifiedError :=
  let msg := error_text e in
  if includes msg "ECONNRESET" || includes msg "ETIMEDOUT" || includes msg "fetch failed" then
    {| etype := network; message := "Network connection error";
       retryable := true; backoffMs := 2000 |}
  else if includes msg "rate limit" || includes msg "429" || status_is e 429 then
    {| etype := rate_limit; message := "API rate limit exceeded";
       retryable := true; backoffMs := 60000 |}
  else if includes msg "insufficient" || includes msg "balance" || includes msg "funds" then
    {| etype := insufficient_balance; message := "Insufficient balance for trade";
       retryable := false; backoffMs := 0 |}
  else if includes msg "market closed" || includes msg "trading halted"
          || includes msg "market not found" then
    {| etype := market_closed; message := "Market is closed or unavailable";
       retryable := false; backoffMs := 0 |}
  else if includes msg "invalid" || includes msg "validation" || status_is e 400 then
    {| etype := invalid_params; message := "Invalid request parameters";
       retryable := false; backoffMs := 0 |}
  else
    {| etype := system; message := substring 0 200 msg;
       retryable := true; backoffMs := 5000 |}.

Record RateLimitState := { requests : list Z; windowStart : Z }.

(** The manager's three private maps, as association lists (a [Set] of
    pending ids as a list without duplicates). *)
Record Mgr := {
  executionHistory : list (string * ExecutionResult);
  rateLimits : list (string * RateLimitState);
  pendingExecutions : list string
}.

Definition empty_mgr : Mgr :=
  {| executionHistory := []; rateLimits := []; pendingExecutions := [] |}.

Fixpoint lookup {A} (k : string) (l : list (string * A)) : option A :=
  match l with
  | [] => None
  | (k', v) :: l' => if String.eqb k k' then Some v else lookup k l'
  end.

(** [Map.prototype.set]: replace in place or append. *)
Fixpoint map_set {A} (k : string) (v : A) (l : list (string * A)) : list (string * A) :=
  match l with
  | [] => [(k, v)]
  | (k', v') :: l' => if String.eqb k k' then (k, v) :: l' else (k', v') :: map_set k v l'
  end.

Definition set_add (x : string) (l : list string) : list string :=
  if existsb (String.eqb x) l then l else l ++ [x].
Definition set_delete (x : string) (l : list string) : list string :=
  filter (fun y => negb (String.eqb x y)) l.
Definition set_has (x : string) (l : list string) : bool := existsb (String.eqb x) l.

Definition with_pending (m : Mgr) (p : list string) : Mgr :=
  {| executionHistory := executionHistory m; rateLimits := rateLimits m;
     pendingExecutions := p |}.
Definition with_rates (m : Mgr) (r : list (string * RateLimitState)) : Mgr :=
  {| executionHistory := executionHistory m; rateLimits := r;
     pendingExecutions := pendingExecutions m |}.
Definition with_history (m : Mgr) (h : list (string * ExecutionResult)) : Mgr :=
  {| executionHistory := h; rateLimits := rateLimits m;
     pendingExecutions := pendingExecutions m |}.

(** [RATE_LIMITS]: (requests, windowMs) per request type. *)
Definition RATE_LIMITS (t : RequestType) : Z * Z :=
  match t with
  | Trade => (10, 60000) | ScanT => (60, 60000)
  | Research => (30, 60000) | PolymarketBet => (5, 60000)
  end.

Definition rate_key (t : RequestType) (userId : string) : string :=
  type_name t ++ ":" ++ userId.

Definition list_min (l : list Z) : Z :=
  match l with [] => 0 | x :: l' => fold_left Z.min l' x end.

(** [checkRateLimit(type, userId)]: creates the state when missing and
    stores the filtered request list back (both are mutations). *)
Definition checkRateLimit (m : Mgr) (t : RequestType) (userId : string) (now : Z)
    : Mgr * (bool * Z) :=
  let key := rate_key t userId in
  let '(limit, windowMs) := RATE_LIMITS t in
  let st := match lookup key (rateLimits m) with
            | Some st => st
            | None => {| requests := []; windowStart := now |} end in
  let reqs := filter (fun ts => Z.ltb (now - ts) windowMs) (requests st) in
  let m' := with_rates m (map_set key {| requests := reqs; windowStart := windowStart st |}
                                  (rateLimits m)) in
  if Z.leb limit (Z.of_nat (List.length reqs)) then
    let retryAfterMs := windowMs - (now - list_min reqs) in
    (m', (false, Z.max retryAfterMs 0))
  else (m', (true, 0)).

(** [updateRateLimit(type, userId)]. *)
Definition updateRateLimit (m : Mgr) (t : RequestType) (userId : string) (now : Z) : Mgr :=
  let key := rate_key t userId in
  let st := match lookup key (rateLimits m) with
            | Some st => st
            | None => {| requests := []; windowStart := now |} end in
  with_rates m (map_set key {| requests := requests st ++ [now];
                               windowStart := windowStart st |} (rateLimits m)).

(** [cacheResult(id, result, ttl)]: the entry is set now; the [setTimeout]
    that deletes it after [ttl] is the separate event [expire]. *)
Definition cacheResult (m : Mgr) (requestId : string) (r : ExecutionResult) : Mgr :=
  with_history m (map_set requestId r (executionHistory m)).

Definition expire (m : Mgr) (requestId : string) : Mgr :=
  with_history m (filter (fun kv => negb (String.eqb (fst kv) requestId))
                         (executionHistory m)).

(** What one invocation of the asynchronous operation does: how long it
    takes (ms) and whether it resolves or throws. *)
Inductive Outcome := Resolve (v : string) | Throw (e : JSError).

(** The operation passed to [safeExecute]: its [k]-th invocation. *)
Definition Executor := nat -> Z * Outcome.

(** Points where [executeWithRetry] suspends (awaits), with the manager
    state other callers then see, and what it reports to the logger. *)
Inductive Event :=
| AwaitExecutor (m : Mgr)
| AwaitSleep (m : Mgr) (ms : Z)
| LogDecision (ok : bool)
| LogRetry (attempt : nat).

Record Run := {
  r_mgr : Mgr; r_result : ExecutionResult; r_trace : list Event;
  r_calls : nat; r_now : Z
}.

Definition bump_retry (req : ExecutionRequest) : ExecutionRequest :=
  {| id := id req; type := type req; userId := userId req;
     timestamp := timestamp req; retryCount := S (retryCount req) |}.

(** [executeWithRetry(request, executor)], run to completion from clock
    [now] with [calls] invocations of [exec] made so far.  The recursion
    is bounded by [retryCount < 3]; [fuel] only makes it structural, and
    [S (3 - retryCount)] of it always suffices (lemma [ewr_fuel]). *)
Fixpoint executeWithRetry (fuel : nat) (m : Mgr) (req : ExecutionRequest)
    (exec : Executor) (calls : nat) (now : Z) : Run :=
  match fuel with
  | O => {| r_mgr := m; r_result := {| success := false; data := None; error := None;
                                        latency := 0; cached := false |};
            r_trace := []; r_calls := calls; r_now := now |}
  | S fuel' =>
      let startTime := now in
      let m1 := with_pending m (set_add (id req) (pendingExecutions m)) in
      let m2 := updateRateLimit m1 (type req) (userId req) now in
      let '(dur, out) := exec calls in
      let now1 := now + dur in
      let latency0 := now1 - startTime in
      match out with
      | Resolve v =>
          let r := {| success := true; data := Some v; error := None;
                      latency := latency0; cached := false |} in
          let m3 := cacheResult m2 (id req) r in
          {| r_mgr := with_pending m3 (set_delete (id req) (pendingExecutions m3));
             r_result := r; r_trace := [AwaitExecutor m2; LogDecision true];
             r_calls := S calls; r_now := now1 |}
      | Throw e =>
          let ce := classifyError e in
          if retryable ce && Nat.ltb (retryCount req) 3 then
            let sub := executeWithRetry fuel' m2 (bump_retry req) exec (S calls)
                         (now1 + backoffMs ce) in
            {| r_mgr := with_pending (r_mgr sub)
                          (set_delete (id req) (pendingExecutions (r_mgr sub)));
               r_result := r_result sub;
               r_trace := [AwaitExecutor m2; LogDecision false;
                           LogRetry (S (retryCount req)); AwaitSleep m2 (backoffMs ce)]
                          ++ r_trace sub;
               r_calls := r_calls sub; r_now := r_now sub |}
          else
            let r := {| success := false; data := None; error := Some ce;
                        latency := latency0; cached := false |} in
            let m3 := cacheResult m2 (id req) r in
            {| r_mgr := with_pending m3 (set_delete (id req) (pendingExecutions m3));
               r_result := r; r_trace := [AwaitExecutor m2; LogDecision false];
               r_calls := S calls; r_now := now1 |}
      end
  end.

Definition duplicate_result : ExecutionResult :=
  {| success := false;
     error := Some {| etype := system; message := "Duplicate execution prevented";
                      retryable := false; backoffMs := 0 |};
     data := None; latency := 0; cached := false |}.

Definition mark_cached (r : ExecutionResult) : ExecutionResult :=
  {| success := success r; data := data r; error := error r;
     latency := latency r; cached := true |}.

(** The request as [safeExecute] receives it: without timestamp and
    retry count. *)
Record Request := { rq_id : string; rq_type : RequestType; rq_userId : string }.

(** [safeExecute(request, executor)] from clock [now]. *)
Definition safeExecute (m : Mgr) (rq : Request) (exec : Executor) (now : Z) : Run :=
  let fullRequest := {| id := rq_id rq; type := rq_type rq; userId := rq_userId rq;
                        timestamp := now; retryCount := 0 |} in
  let stop m' r := {| r_mgr := m'; r_result := r; r_trace := []; r_calls := 0;
                       r_now := now |} in
  if set_has (rq_id rq) (pendingExecutions m) then stop m duplicate_result
  else
    let '(m1, (ok, retryAfterMs)) := checkRateLimit m (rq_type rq) (rq_userId rq) now in
    if negb ok then
      stop m1 {| success := false;
                 error := Some {| etype := rate_limit;
                                  message := "Rate limit exceeded. Try again in "
                                             ++ of_Z (Z.div (retryAfterMs + 999) 1000) ++ "s";
                                  retryable := true; backoffMs := retryAfterMs |};
                 data := None; latency := 0; cached := false |}
    else
      match lookup (rq_id rq) (executionHistory m1) with
      | Some c => stop m1 (mark_cached c)
      | None => executeWithRetry 4 m1 fullRequest exec 0 now
      end.

End Safety.

(** ** [ExecutionSafetyManager.generateRequestId] (execution-safety.ts) *)
Module RequestId.
Import JSString.
Local Open Scope Z_scope.

(** JSON values a parameter record can hold (numbers: integers). *)
Inductive Json :=
| JNull | JBool (b : bool) | JNum (z : Z) | JStr (s : string)
| JArr (l : list Json) | JObj (fields : list (string * Json)).

Definition ch (n : nat) : string := String (ascii_of_nat n) EmptyString.
Definition dquote : string := ch 34.
Definition bslash : string := ch 92.

Definition hex_digit (n : nat) : string :=
  if Nat.ltb n 10 then ch (48 + n) else ch (87 + n).

(** The character escapes of JSON.stringify's QuoteJSONString. *)
Definition escape_char (c : ascii) : string :=
  let n := nat_of_ascii c in
  if Nat.eqb n 34 then bslash ++ dquote
  else if Nat.eqb n 92 then bslash ++ bslash
  else if Nat.eqb n 8 then bslash ++ "b"
  else if Nat.eqb n 12 then bslash ++ "f"
  else if Nat.eqb n 10 then bslash ++ "n"
  else if Nat.eqb n 13 then bslash ++ "r"
  else if Nat.eqb n 9 then bslash ++ "t"
  else if Nat.ltb n 32 then bslash ++ "u00" ++ hex_digit (n / 16) ++ hex_digit (n mod 16)
  else String c EmptyString.

Fixpoint quote_body (s : string) : string :=
  match s with
  | EmptyString => EmptyString
  | String c s' => escape_char c ++ quote_body s'
  end.

Definition quote (s : string) : string := dquote ++ quote_body s ++ dquote.

(** [JSON.stringify(v, K)] with an array replacer [K]: every object,
    nested ones included, shows only the keys of [K], in [K]'s order. *)
Fixpoint stringify (K : list string) (v : Json) : string :=
  match v with
  | JNull => "null"
  | JBool true => "true"
  | JBool false => "false"
  | JNum z => of_Z z
  | JStr s => quote s
  | JArr l =>
      "[" ++ String.concat "," ((fix go (l : list Json) : list string :=
                                   match l with
                                   | [] => []
                                   | x :: l' => stringify K x :: go l'
                                   end) l) ++ "]"
  | JObj fs =>
      let sf := (fix go (fs : list (string * Json)) : list (string * string) :=
                   match fs with
                   | [] => []
                   | (k, x) :: fs' => (k, stringify K x) :: go fs'
                   end) fs in
      "{" ++ String.concat ","
               (flat_map (fun k => match Safety.lookup k sf with
                                   | Some s => [quote k ++ ":" ++ s]
                                   | None => []
                                   end) K) ++ "}"
  end.

(** [Array.prototype.sort()] on strings: code-unit order (stable). *)
Fixpoint insert_sorted (x : string) (l : list string) : list string :=
  match l with
  | [] => [x]
  | y :: l' => if String.leb y x then y :: insert_sorted x l' else x :: l
  end.
Definition sort_strings (l : list string) : list string :=
  fold_right insert_sorted [] l.

(** [ToInt32]. *)
Definition toInt32 (x : Z) : Z :=
  let y := x mod 2 ^ 32 in if 2 ^ 31 <=? y then y - 2 ^ 32 else y.

(** One round of [simpleHash]: [hash = ((hash << 5) - hash) + char;
    hash = hash & hash]. *)
Definition hash_step (h : Z) (c : ascii) : Z :=
  toInt32 (toInt32 (h * 2 ^ 5) - h + Z.of_nat (nat_of_ascii c)).

Fixpoint hash_loop (h : Z) (s : string) : Z :=
  match s with
  | EmptyString => h
  | String c s' => hash_loop (hash_step h c) s'
  end.

Definition digit36 (d : Z) : string :=
  let n := Z.to_nat d in if Nat.ltb n 10 then ch (48 + n) else ch (87 + n).

(** [n.toString(36)] for [n >= 0]; [fuel] bounds the number of digits. *)
Fixpoint base36 (fuel : nat) (n : Z) (acc : string) : string :=
  match fuel with
  | O => acc
  | S f =>
      let acc' := digit36 (n mod 36) ++ acc in
      if n <? 36 then acc' else base36 f (n / 36) acc'
  end.

Definition toString36 (n : Z) : string :=
  base36 (S (Z.to_nat (Z.log2 n))) n EmptyString.

(** [simpleHash(str)]. *)
Definition simpleHash (s : string) : string :=
  toString36 (Z.abs (hash_loop 0 s)).

(** [generateRequestId(type, params)] at [Date.now() = now]. *)
Definition generateRequestId (type : string) (params : list (string * Json)) (now : N)
    : string :=
  let paramHash := stringify (sort_strings (map fst params)) (JObj params) in
  let hash := simpleHash paramHash in
  type ++ "_" ++ of_N now ++ "_" ++ hash.

End RequestId.

(** ** The trade journal (memory.ts) *)

Module Journal.
Import JSString.
Local Open Scope Z_scope.

Inductive Action := Buy | Sell.
Inductive Status := Open | Closed | Failed.

Definition status_eqb (a b : Status) : bool :=
  match a, b with
  | Open, Open | Closed, Closed | Failed, Failed => true
  | _, _ => false
  end.

(** [TradeEntry]; an optional field absent is [None]. *)
Record TradeEntry := {
  id : string;
  token : string;
  symbol : string;
  action : Action;
  amount : string;
  price : option string;
  marketCap : option string;
  timestamp : Z;
  reason : string;
  bankrResponse : option string;
  pnl : option string;
  status : Status;
  exitPrice : option string;
  exitTimestamp : option Z
}.

(** [TokenMemory] (fields prefixed [tm_]; the address, sentiment and tags
    are never read by the code modelled here). *)
Record TokenMemory := {
  tm_symbol : string;
  tm_lastResearched : Z;
  tm_researchSummary : string;
  tm_score : Z;
  tm_marketCap : option string;
  tm_volume24h : option string;
  tm_timesTraded : Z;
  tm_totalPnl : JS.Num;
  tm_lastPrice : option string
}.

(** The fields of a [Partial<TokenMemory>] written by the scanner. *)
Record TokenPatch := {
  p_lastResearched : option Z;
  p_researchSummary : option string;
  p_score : option Z;
  p_marketCap : option string;
  p_volume24h : option string;
  p_lastPrice : option string
}.

(** The two templates of [memory.learnings] pushed by [closeTrade]
    (symbol, pnl string, reason). *)
Inductive Learning :=
| LearnedWin (sym pnl why : string)
| LearnedLoss (sym pnl why : string).

Record Settings := {
  maxMarketCap : Z;
  maxBuyAmount : string;
  takeProfitPct : JS.Num;
  stopLossPct : JS.Num;
  scanIntervalMin : Z;
  autoTradeEnabled : bool;
  maxOpenPositions : Z
}.

Inductive PMResult := PMWin | PMLoss | PMPending.

(** A [PolymarketTrade]; only its result is read by the bet sizing. *)
Record PolymarketTrade := { pm_id : string; pm_result : option PMResult }.

Record PolymarketStats := { totalBets : Z; wins : Z; losses : Z }.

Record AgentMemory := {
  tokens : list (string * TokenMemory);
  trades : list TradeEntry;
  polymarketTrades : list PolymarketTrade;
  learnings : list Learning;
  lastScanTime : Z;
  totalTrades : Z;
  winRate : Q;
  totalPnl : JS.Num;
  polymarketStats : PolymarketStats;
  settings : Settings
}.

(** [DEFAULT_MEMORY] with no environment overrides. *)
Definition DEFAULT_SETTINGS : Settings := {|
  maxMarketCap := 40000; maxBuyAmount := "5";
  takeProfitPct := JS.Fin 100; stopLossPct := JS.Fin 30;
  scanIntervalMin := 30; autoTradeEnabled := false; maxOpenPositions := 5 |}.

Definition DEFAULT_MEMORY : AgentMemory := {|
  tokens := []; trades := []; polymarketTrades := []; learnings := [];
  lastScanTime := 0; totalTrades := 0; winRate := 0; totalPnl := JS.Fin 0;
  polymarketStats := {| totalBets := 0; wins := 0; losses := 0 |};
  settings := DEFAULT_SETTINGS |}.

Definition set_tokens (m : AgentMemory) (tk : list (string * TokenMemory)) : AgentMemory :=
  {| tokens := tk; trades := trades m; polymarketTrades := polymarketTrades m;
     learnings := learnings m; lastScanTime := lastScanTime m; totalTrades := totalTrades m;
     winRate := winRate m; totalPnl := totalPnl m; polymarketStats := polymarketStats m;
     settings := settings m |}.

Definition set_lastScanTime (m : AgentMemory) (t : Z) : AgentMemory :=
  {| tokens := tokens m; trades := trades m; polymarketTrades := polymarketTrades m;
     learnings := learnings m; lastScanTime := t; totalTrades := totalTrades m;
     winRate := winRate m; totalPnl := totalPnl m; polymarketStats := polymarketStats m;
     settings := settings m |}.

(** The entry [updateTokenMemory] and [logTrade] create for a new symbol. *)
Definition new_token (sym : string) : TokenMemory := {|
  tm_symbol := sym; tm_lastResearched := 0; tm_researchSummary := EmptyString;
  tm_score := 50; tm_marketCap := None; tm_volume24h := None;
  tm_timesTraded := 0; tm_totalPnl := JS.Fin 0; tm_lastPrice := None |}.

Definition token_or_new (m : AgentMemory) (sym : string) : TokenMemory :=
  match Safety.lookup sym (tokens m) with Some tm => tm | None => new_token sym end.

Definition pick {A} (o : option A) (d : A) : A := match o with Some x => x | None => d end.
Definition pick_opt {A} (o : option A) (d : option A) : option A :=
  match o with Some x => Some x | None => d end.

(** [Object.assign(tm, data)]. *)
Definition assign (tm : TokenMemory) (p : TokenPatch) : TokenMemory := {|
  tm_symbol := tm_symbol tm;
  tm_lastResearched := pick (p_lastResearched p) (tm_lastResearched tm);
  tm_researchSummary := pick (p_researchSummary p) (tm_researchSummary tm);
  tm_score := pick (p_score p) (tm_score tm);
  tm_marketCap := pick_opt (p_marketCap p) (tm_marketCap tm);
  tm_volume24h := pick_opt (p_volume24h p) (tm_volume24h tm);
  tm_timesTraded := tm_timesTraded tm;
  tm_totalPnl := tm_totalPnl tm;
  tm_lastPrice := pick_opt (p_lastPrice p) (tm_lastPrice tm) |}.

Definition updateTokenMemory (m : AgentMemory) (sym : string) (p : TokenPatch) : AgentMemory :=
  set_tokens m (Safety.map_set sym (assign (token_or_new m sym) p) (tokens m)).

Definition bump_traded (tm : TokenMemory) : TokenMemory := {|
  tm_symbol := tm_symbol tm; tm_lastResearched := tm_lastResearched tm;
  tm_researchSummary := tm_researchSummary tm; tm_score := tm_score tm;
  tm_marketCap := tm_marketCap tm; tm_volume24h := tm_volume24h tm;
  tm_timesTraded := tm_timesTraded tm + 1; tm_totalPnl := tm_totalPnl tm;
  tm_lastPrice := tm_lastPrice tm |}.

Definition add_token_pnl (tm : TokenMemory) (x : JS.Num) : TokenMemory := {|
  tm_symbol := tm_symbol tm; tm_lastResearched := tm_lastResearched tm;
  tm_researchSummary := tm_researchSummary tm; tm_score := tm_score tm;
  tm_marketCap := tm_marketCap tm; tm_volume24h := tm_volume24h tm;
  tm_timesTraded := tm_timesTraded tm; tm_totalPnl := JS.add (tm_totalPnl tm) x;
  tm_lastPrice := tm_lastPrice tm |}.

(** [logTrade]: push the trade, count it, and count it for its token. *)
Definition logTrade (m : AgentMemory) (t : TradeEntry) : AgentMemory :=
  {| tokens := Safety.map_set (symbol t) (bump_traded (token_or_new m (symbol t))) (tokens m);
     trades := (trades m ++ [t])%list;
     polymarketTrades := polymarketTrades m; learnings := learnings m;
     lastScanTime := lastScanTime m; totalTrades := totalTrades m + 1;
     winRate := winRate m; totalPnl := totalPnl m;
     polymarketStats := polymarketStats m; settings := settings m |}.

(** [memory.trades.find(t => t.id === tradeId)]. *)
Definition find_trade (tradeId : string) (l : list TradeEntry) : option TradeEntry :=
  find (fun t => String.eqb (id t) tradeId) l.

(** The object [find] returned is mutated in place: the first entry with
    the id is replaced. *)
Fixpoint update_first (tradeId : string) (t' : TradeEntry) (l : list TradeEntry) : list TradeEntry :=
  match l with
  | [] => []
  | t :: l' => if String.eqb (id t) tradeId then t' :: l' else t :: update_first tradeId t' l'
  end.

Definition close_entry (t : TradeEntry) (ep : string) (now : Z) (p : string) : TradeEntry := {|
  id := id t; token := token t; symbol := symbol t; action := action t; amount := amount t;
  price := price t; marketCap := marketCap t; timestamp := timestamp t; reason := reason t;
  bankrResponse := bankrResponse t;
  pnl := Some p; status := Closed; exitPrice := Some ep; exitTimestamp := Some now |}.

(** [t.pnl || "0"]: absent or empty gives "0". *)
Definition pnl_or_zero (t : TradeEntry) : string :=
  match pnl t with
  | Some s => if String.eqb s EmptyString then "0" else s
  | None => "0"
  end.

Definition is_closed (t : TradeEntry) : bool := status_eqb (status t) Closed.
Definition is_open (t : TradeEntry) : bool := status_eqb (status t) Open.

Definition closed_trades (l : list TradeEntry) : list TradeEntry := filter is_closed l.
Definition winning_trades (l : list TradeEntry) : list TradeEntry :=
  filter (fun t => JS.gt (parseFloat (pnl_or_zero t)) 0) (closed_trades l).

(** [closedTrades.length > 0 ? (wins.length / closedTrades.length) * 100 : 0]. *)
Definition win_rate_of (l : list TradeEntry) : Q :=
  let c := List.length (closed_trades l) in
  if Nat.ltb 0 c
  then (inject_Z (Z.of_nat (List.length (winning_trades l))) / inject_Z (Z.of_nat c) * 100)%Q
  else 0%Q.

(** [learnings.slice(-100)] once there are more than 100. *)
Definition keep_last_100 {A} (l : list A) : list A :=
  if Nat.ltb 100 (List.length l) then skipn (List.length l - 100) l else l.

(** [closeTrade(memory, tradeId, exitPrice, pnl)] at time [now]. *)
Definition closeTrade (m : AgentMemory) (tradeId ep p : string) (now : Z) : AgentMemory :=
  match find_trade tradeId (trades m) with
  | None => m
  | Some t =>
      let trs := update_first tradeId (close_entry t ep now p) (trades m) in
      let pnlNum := parseFloat p in
      let tks := match Safety.lookup (symbol t) (tokens m) with
                 | Some tm => Safety.map_set (symbol t) (add_token_pnl tm pnlNum) (tokens m)
                 | None => tokens m
                 end in
      let l := (learnings m ++ [if JS.gt pnlNum 0 then LearnedWin (symbol t) p (reason t)
                                else LearnedLoss (symbol t) p (reason t)])%list in
      {| tokens := tks; trades := trs; polymarketTrades := polymarketTrades m;
         learnings := keep_last_100 l; lastScanTime := lastScanTime m;
         totalTrades := totalTrades m; winRate := win_rate_of trs;
         totalPnl := JS.add (totalPnl m) pnlNum;
         polymarketStats := polymarketStats m; settings := settings m |}
  end.

(** [getOpenPositions]. *)
Definition getOpenPositions (m : AgentMemory) : list TradeEntry := filter is_open (trades m).


(** [status == "closed"] exactly when the three exit fields are set. *)
Definition exit_consistent (t : TradeEntry) : Prop :=
  status t = Closed <-> (pnl t <> None /\ exitPrice t <> None /\ exitTimestamp t <> None).

Definition trades_exit_consistent (m : AgentMemory) : Prop := Forall exit_consistent (trades m).

End Journal.

(** ** The autonomous trader (autonomous.ts) *)

Module Trader.
Import JSString Journal.
Local Open Scope Z_scope.

(** What [bankrPrompt] resolves to. *)
Record BankrResult := {
  success : bool;
  response : option string;
  error : option string
}.

(** The outside world: the answer to the [k]-th prompt, the clock
    ([Date.now()] after [k] prompts) and the six characters taken from
    [Math.random().toString(36)] after [k] prompts. *)
Record Env := {
  bankr : nat -> string -> BankrResult;
  clock : nat -> Z;
  rand6 : nat -> string
}.

(** [TokenCandidate] (fields prefixed [c_]). *)
Record Candidate := {
  c_name : string;
  c_symbol : string;
  c_price : string;
  c_marketCap : JS.Num;
  c_volume24h : string;
  c_change24h : string;
  c_score : Z;
  c_reason : string
}.

Inductive BuyMsg := Bought (amt sym : string) (score : Z) | BuyFailed (sym : string) (err : option string).

(** The notifications sent through [notify]. *)
Inductive Note :=
| ScanReport (found viable : nat) (buys : list BuyMsg)
| TakeProfitHit (sym : string) (pnlPct : JS.Num)
| StopLossTriggered (sym : string) (pnlPct : JS.Num).

Inductive TEvent := Prompt (p : string) | Notify (n : Note) | Sleep (ms : Z).

Record TState := {
  mem : AgentMemory;
  isScanning : bool;
  isMonitoring : bool;
  ncalls : nat;
  log : list TEvent
}.

Definition set_mem (st : TState) (m : AgentMemory) : TState :=
  {| mem := m; isScanning := isScanning st; isMonitoring := isMonitoring st;
     ncalls := ncalls st; log := log st |}.
Definition set_scanning (st : TState) (b : bool) : TState :=
  {| mem := mem st; isScanning := b; isMonitoring := isMonitoring st;
     ncalls := ncalls st; log := log st |}.
Definition set_monitoring (st : TState) (b : bool) : TState :=
  {| mem := mem st; isScanning := isScanning st; isMonitoring := b;
     ncalls := ncalls st; log := log st |}.
Definition emit (st : TState) (ev : TEvent) : TState :=
  {| mem := mem st; isScanning := isScanning st; isMonitoring := isMonitoring st;
     ncalls := ncalls st; log := (log st ++ [ev])%list |}.

(** [await this.bankrPrompt(p)]. *)
Definition prompt (e : Env) (st : TState) (p : string) : TState * BankrResult :=
  let r := bankr e (ncalls st) p in
  ({| mem := mem st; isScanning := isScanning st; isMonitoring := isMonitoring st;
      ncalls := S (ncalls st); log := (log st ++ [Prompt p])%list |}, r).

Definition now (e : Env) (st : TState) : Z := clock e (ncalls st).

Definition nl : ascii := ascii_of_nat 10.
Definition nls : string := String nl EmptyString.

Definition scan_prompt (maxCap : Z) : string :=
  "Find me new and trending tokens on Base with a market cap under $" ++ of_Z maxCap ++ ". " ++
  "For each token, provide: name, symbol/ticker, current price, market cap, 24h volume, and 24h price change. " ++
  "Focus on tokens with real volume (>$500 24h), not dead tokens. " ++
  "List up to 10 tokens, sorted by volume. Format as a numbered list.".

Definition research_prompt (scanResponse : string) : string :=
  "Based on this token list, score each token from 0-100 on investment potential. " ++
  "Consider: volume relative to market cap, price momentum, holder distribution, liquidity depth, and risk. " ++
  "For each token, respond in this exact format (one per line):" ++ nls ++
  "SCORE|symbol|price|marketcap_number|volume24h|change24h|reason" ++ nls ++ nls ++
  "Token list:" ++ nls ++ scanResponse ++ nls ++ nls ++
  "Rules:" ++ nls ++
  "- Score 80+: Strong buy signal (high volume, good momentum, decent liquidity)" ++ nls ++
  "- Score 60-79: Moderate opportunity (some positive signals)" ++ nls ++
  "- Score 40-59: Risky (low liquidity or mixed signals)" ++ nls ++
  "- Score <40: Avoid (rug risk, dead volume, or declining)" ++ nls ++
  "- Be conservative. Most tokens should score below 60.".

Definition field (parts : list string) (i : nat) : string := nth i parts EmptyString.

(** One line of the research answer: its trimmed fields and score, when
    there are at least seven fields and [parseInt(parts[0])] is a number. *)
Definition parse_line (line : string) : option (list string * Z) :=
  let parts := map trim (split_on "|"%char line) in
  if Nat.leb 7 (List.length parts) then
    match parseInt (field parts 0) with
    | Some score => Some (parts, score)
    | None => None
    end
  else None.

(** [parts[3].toLowerCase().includes("k") ? mcap * 1000 : mcap]. *)
Definition market_cap (raw : string) : JS.Num :=
  let mcap := parseFloat (strip_cap_chars raw) in
  if includes (to_lower raw) "k" then JS.mul mcap (JS.Fin 1000) else mcap.

Definition candidate_of (parts : list string) (score : Z) : Candidate := {|
  c_name := field parts 1; c_symbol := field parts 1; c_price := field parts 2;
  c_marketCap := market_cap (field parts 3); c_volume24h := field parts 4;
  c_change24h := field parts 5; c_score := score; c_reason := field parts 6 |}.

Definition patch_of (t : Z) (parts : list string) (score : Z) : TokenPatch := {|
  p_lastResearched := Some t; p_researchSummary := Some (field parts 6);
  p_score := Some score; p_marketCap := Some (field parts 3);
  p_volume24h := Some (field parts 4); p_lastPrice := Some (field parts 2) |}.

(** [candidates.sort((a, b) => b.score - a.score)]: a stable sort, by
    insertion after every element of score at least as high. *)
Fixpoint insert_desc (c : Candidate) (l : list Candidate) : list Candidate :=
  match l with
  | [] => [c]
  | d :: l' => if c_score d <? c_score c then c :: l else d :: insert_desc c l'
  end.

Definition sort_desc (l : list Candidate) : list Candidate :=
  fold_left (fun acc c => insert_desc c acc) l [].

Definition research_line (e : Env) (acc : TState * list Candidate) (line : string)
  : TState * list Candidate :=
  let '(st, cs) := acc in
  match parse_line line with
  | Some (parts, score) =>
      (set_mem st (updateTokenMemory (mem st) (field parts 1) (patch_of (now e st) parts score)),
       (cs ++ [candidate_of parts score])%list)
  | None => (st, cs)
  end.

(** [researchCandidates(scanResponse)]. *)
Definition researchCandidates (e : Env) (st : TState) (scanResponse : string)
  : TState * list Candidate :=
  let '(st, r) := prompt e st (research_prompt scanResponse) in
  if negb (success r) then (st, []) else
  let lines := split_on nl (Journal.pick (response r) EmptyString) in
  let '(st, cs) := fold_left (research_line e) lines (st, []) in
  (st, sort_desc cs).

Definition buy_prompt (amt sym : string) : string := "Buy $" ++ amt ++ " of " ++ sym ++ " on Base".

(** [executeBuy(token)]. *)
Definition executeBuy (e : Env) (st : TState) (c : Candidate) : TState * BuyMsg :=
  let amt := maxBuyAmount (settings (mem st)) in
  let '(st, r) := prompt e st (buy_prompt amt (c_symbol c)) in
  let t := now e st in
  let trade := {|
    id := "trade_" ++ of_Z t ++ "_" ++ rand6 e (ncalls st);
    token := c_name c; symbol := c_symbol c; action := Buy;
    amount := "$" ++ amt; price := Some (c_price c);
    marketCap := Some (num_to_string (c_marketCap c)); timestamp := t;
    reason := "Score " ++ of_Z (c_score c) ++ "/100: " ++ c_reason c;
    bankrResponse := response r; pnl := None;
    status := if success r then Open else Failed;
    exitPrice := None; exitTimestamp := None |} in
  let st := set_mem st (logTrade (mem st) trade) in
  (st, if success r then Bought amt (c_symbol c) (c_score c) else BuyFailed (c_symbol c) (error r)).

Fixpoint buy_all (e : Env) (st : TState) (cs : list Candidate) : TState * list BuyMsg :=
  match cs with
  | [] => (st, [])
  | c :: cs' =>
      let '(st, b) := executeBuy e st c in
      let '(st, bs) := buy_all e st cs' in
      (st, b :: bs)
  end.

(** [x.toFixed(0)]. *)
Definition toFixed0 (x : Q) : string :=
  let neg := JS.Qlt_bool x 0 in
  let a := if neg then (- x)%Q else x in
  let n := Qfloor a in
  let n := if Qle_bool (1 # 2) (a - inject_Z n) then n + 1 else n in
  (if neg then "-" else EmptyString) ++ of_Z n.

Inductive ScanOutcome :=
| AlreadyScanning
| ScanFailed (msg : string)
| NoCandidates (msg : string)
| Scanned (candidates viable : list Candidate) (buys : list BuyMsg).

Definition is_viable (c : Candidate) : bool := 60 <=? c_score c.

(** [scanMarket()]. *)
Definition scanMarket (e : Env) (st0 : TState) : TState * ScanOutcome :=
  if isScanning st0 then (st0, AlreadyScanning) else
  let st := set_scanning st0 true in
  let maxCap := maxMarketCap (settings (mem st)) in
  let capStr := toFixed0 (inject_Z maxCap / 1000) in
  let '(st, r) := prompt e st (scan_prompt maxCap) in
  if negb (success r) then
    (set_scanning st false, ScanFailed ("Scan failed: " ++ Journal.pick (error r) "undefined"))
  else
  let scanResponse := Journal.pick (response r) EmptyString in
  let st := set_mem st (set_lastScanTime (mem st) (now e st)) in
  let '(st, candidates) := researchCandidates e st scanResponse in
  match candidates with
  | [] => (set_scanning st false,
           NoCandidates ("No viable candidates found under $" ++ capStr ++ "k mcap"))
  | _ =>
    let viable := filter is_viable candidates in
    let '(st, buys) :=
      if autoTradeEnabled (settings (mem st)) && negb (Nat.eqb (List.length viable) 0) then
        let slots := maxOpenPositions (settings (mem st)) -
                     Z.of_nat (List.length (getOpenPositions (mem st))) in
        if 0 <? slots then buy_all e st (firstn (Z.to_nat slots) viable) else (st, [])
      else (st, []) in
    let st := emit st (Notify (ScanReport (List.length candidates) (List.length viable) buys)) in
    (set_scanning st false, Scanned candidates viable buys)
  end.

Definition is_num_char (c : ascii) : bool := is_digit c || is_char c 46.

(** The group of the first match of [/\$?([\d.]+)/]. *)
Fixpoint price_match (s : string) : option string :=
  match s with
  | EmptyString => None
  | String c s' =>
      let with_dollar := if is_char c 36 then fst (take_while is_num_char s') else EmptyString in
      let plain := fst (take_while is_num_char s) in
      if negb (String.eqb with_dollar EmptyString) then Some with_dollar
      else if negb (String.eqb plain EmptyString) then Some plain
      else price_match s'
  end.

Definition price_prompt (sym : string) : string :=
  "What is the current price of " ++ sym ++ " on Base? Just give me the price number.".
Definition tp_prompt (sym : string) : string := "Sell 50% of my " ++ sym ++ " position on Base".
Definition sl_prompt (sym : string) : string := "Sell all of my " ++ sym ++ " on Base".

(** [trade.price || "0"]. *)
Definition price_or_zero (t : TradeEntry) : string :=
  match price t with
  | Some s => if String.eqb s EmptyString then "0" else s
  | None => "0"
  end.

(** [((current - entryPrice) / entryPrice) * 100] on the doubles that
    [parseFloat] returns, read back as its exact value. *)
Definition pnl_pct (current entry : JS.Num) : JS.Num :=
  F64.to_num (F64.mul (F64.div (F64.sub (F64.of_num current) (F64.of_num entry))
                               (F64.of_num entry))
                      (F64.of_Z 100)).

(** A sell request, and the close and notification when it succeeds. *)
Definition sell (e : Env) (st : TState) (t : TradeEntry) (p : string)
    (current pnlPct : JS.Num) (note : Note) : TState :=
  let '(st, r) := prompt e st p in
  if success r then
    let st := set_mem st (closeTrade (mem st) (id t) (num_to_string current)
                                      (toFixed2 pnlPct) (now e st)) in
    emit st (Notify note)
  else st.

(** The body of the loop of [monitorPositions] for one open trade,
    without the 3 s pause that follows it. *)
Definition monitor_one (e : Env) (st : TState) (t : TradeEntry) : TState :=
  let '(st, r) := prompt e st (price_prompt (symbol t)) in
  if negb (success r) then st else
  let currentPrice := Journal.pick (response r) EmptyString in
  let entryPrice := parseFloat (price_or_zero t) in
  let current := match price_match currentPrice with
                 | Some g => parseFloat g
                 | None => JS.Fin 0
                 end in
  if F64.is_zero (F64.of_num entryPrice) || F64.is_zero (F64.of_num current) then st else
  let pnlPct := pnl_pct current entryPrice in
  let st := if JS.nge pnlPct (takeProfitPct (settings (mem st)))
            then sell e st t (tp_prompt (symbol t)) current pnlPct (TakeProfitHit (symbol t) pnlPct)
            else st in
  if JS.nle pnlPct (JS.neg (stopLossPct (settings (mem st))))
  then sell e st t (sl_prompt (symbol t)) current pnlPct (StopLossTriggered (symbol t) pnlPct)
  else st.

(** [monitorPositions()]: the open positions are read once, then each is
    checked in turn. *)
Definition monitorPositions (e : Env) (st0 : TState) : TState :=
  if isMonitoring st0 then st0 else
  match getOpenPositions (mem st0) with
  | [] => st0
  | ops =>
      let st := set_monitoring st0 true in
      let st := fold_left (fun st t => emit (monitor_one e st t) (Sleep 3000)) ops st in
      set_monitoring st false
  end.

(** A small regular-expression matcher for the survival patterns:
    literal characters (case-insensitive), an optional character, and
    one or more white-space characters or digits. *)
Inductive Tok := Lit (c : ascii) | Opt (c : ascii) | Plus (p : ascii -> bool).

Definition lower_char (c : ascii) : ascii :=
  let n := nat_of_ascii c in
  if Nat.leb 65 n && Nat.leb n 90 then ascii_of_nat (n + 32) else c.

Definition ieq (a b : ascii) : bool := Ascii.eqb (lower_char a) (lower_char b).

Fixpoint match_prefix (ts : list Tok) : string -> bool :=
  match ts with
  | [] => fun _ => true
  | Lit c :: ts' => fun s =>
      match s with String d s' => ieq c d && match_prefix ts' s' | EmptyString => false end
  | Opt c :: ts' => fun s =>
      match_prefix ts' s ||
      match s with String d s' => ieq c d && match_prefix ts' s' | EmptyString => false end
  | Plus p :: ts' => fun s =>
      match s with
      | String d s' =>
          p d &&
          (fix more (s : string) : bool :=
             match_prefix ts' s ||
             match s with String d s'' => p d && more s'' | EmptyString => false end) s'
      | EmptyString => false
      end
  end.

Definition lits (s : string) : list Tok := map Lit (list_ascii_of_string s).

(** [/life\s+depends|last\s+\$|can'?t\s+lose|protect\s+capital|survive|last\s+\d+/i]. *)
Definition survival_alternatives : list (list Tok) := [
  (lits "life" ++ [Plus is_ws] ++ lits "depends")%list;
  (lits "last" ++ [Plus is_ws] ++ lits "$")%list;
  (lits "can" ++ [Opt "'"%char] ++ lits "t" ++ [Plus is_ws] ++ lits "lose")%list;
  (lits "protect" ++ [Plus is_ws] ++ lits "capital")%list;
  lits "survive";
  (lits "last" ++ [Plus is_ws; Plus is_digit])%list ].

(** [re.test(s)]: some alternative matches at some position. *)
Fixpoint regex_test (alts : list (list Tok)) (s : string) : bool :=
  existsb (fun ts => match_prefix ts s) alts ||
  match s with String _ s' => regex_test alts s' | EmptyString => false end.

Definition isSurvivalMode (strategy : string) : bool := regex_test survival_alternatives strategy.

(** [stats.totalBets > 0 ? stats.wins / stats.totalBets : 0.5]. *)
Definition poly_winRate (s : PolymarketStats) : Q :=
  if 0 <? totalBets s then (inject_Z (wins s) / inject_Z (totalBets s))%Q else (1 # 2)%Q.

Definition riskFactor (survival : bool) (winRate : Q) (bets : Z) : Q :=
  if survival then (1 # 2)%Q
  else if JS.Qlt_bool (6 # 10) winRate && (5 <=? bets) then (3 # 2)%Q
  else if JS.Qlt_bool winRate (4 # 10) && (5 <=? bets) then (6 # 10)%Q
  else 1%Q.

(** [perTradeAmount] of [scanPolymarket] for a balance and a strategy. *)
Definition perTradeAmount (s : PolymarketStats) (balance : Q) (strategy : string) : Q :=
  let wr := poly_winRate s in
  let rf := riskFactor (isSurvivalMode strategy) wr (totalBets s) in
  let edge := JS.max (1 # 10) (wr - (1 # 2)) in
  let p := inject_Z (Qfloor (balance * edge * rf)) in
  JS.max 1 (JS.min p (balance * (5 # 100))).

(** [countConsecutiveLosses()]. *)
Fixpoint losses_at_end_rev (l : list PolymarketTrade) : nat :=
  match l with
  | t :: l' => match pm_result t with Some PMLoss => S (losses_at_end_rev l') | _ => O end
  | [] => O
  end.
Definition countConsecutiveLosses (m : AgentMemory) : nat :=
  losses_at_end_rev (rev (polymarketTrades m)).

(** The amount [scanPolymarket] bets ([adjustedAmount]), or [None] when it
    skips the scan after four losses in a row. *)
Definition polymarketBet (m : AgentMemory) (balance : Q) (strategy : string) : option Q :=
  let p := perTradeAmount (polymarketStats m) balance strategy in
  let cl := countConsecutiveLosses m in
  if Nat.leb 4 cl then None
  else if Nat.leb 2 cl then Some (JS.max 1 (inject_Z (Qfloor (p / 2))))
  else Some p.

(** The same sizing on the doubles [scanPolymarket] computes with: the
    counters of [polymarketStats] and the balance [parseFloat] returns,
    every operation rounded to the nearest double. *)
Definition poly_winRate64 (s : PolymarketStats) : F64.t :=
  if 0 <? totalBets s then F64.div (F64.of_Z (wins s)) (F64.of_Z (totalBets s))
  else F64.of_Q (1 # 2).

Definition riskFactor64 (survival : bool) (winRate : F64.t) (bets : Z) : F64.t :=
  if survival then F64.of_Q (1 # 2)
  else if F64.gt winRate (F64.of_Q (6 # 10)) && (5 <=? bets) then F64.of_Q (3 # 2)
  else if F64.lt winRate (F64.of_Q (4 # 10)) && (5 <=? bets) then F64.of_Q (6 # 10)
  else F64.of_Z 1.

(** [Math.floor(polygonBalance * edge * riskFactor)], the first value of
    [perTradeAmount]. *)
Definition rawPerTradeAmount64 (s : PolymarketStats) (balance : F64.t) (strategy : string) : F64.t :=
  let wr := poly_winRate64 s in
  let rf := riskFactor64 (isSurvivalMode strategy) wr (totalBets s) in
  let edge := F64.max (F64.of_Q (1 # 10)) (F64.sub wr (F64.of_Q (1 # 2))) in
  F64.floor (F64.mul (F64.mul balance edge) rf).

Definition perTradeAmount64 (s : PolymarketStats) (balance : F64.t) (strategy : string) : F64.t :=
  let p := rawPerTradeAmount64 s balance strategy in
  F64.max (F64.of_Z 1) (F64.min p (F64.mul balance (F64.of_Q (5 # 100)))).

Definition polymarketBet64 (m : AgentMemory) (balance : F64.t) (strategy : string) : option F64.t :=
  let p := perTradeAmount64 (polymarketStats m) balance strategy in
  let cl := countConsecutiveLosses m in
  if Nat.leb 4 cl then None
  else if Nat.leb 2 cl then Some (F64.max (F64.of_Z 1) (F64.floor (F64.div p (F64.of_Z 2))))
  else Some p.

(** The candidates the response lines yield, in the order of the lines. *)
Definition parsed_of_lines (lines : list string) : list Candidate :=
  flat_map (fun line => match parse_line line with
                        | Some (parts, score) => [candidate_of parts score]
                        | None => []
                        end) lines.

Definition parsed_candidates (resp : string) : list Candidate := parsed_of_lines (split_on nl resp).

(** The timers of [start()]: each firing runs one scan or one
    monitoring pass, taken here to complete before the next one starts. *)
Inductive TOp := DoScan | DoMonitor.

Fixpoint run_trader (e : Env) (st : TState) (ops : list TOp) : TState :=
  match ops with
  | [] => st
  | DoScan :: ops' => run_trader e (fst (scanMarket e st)) ops'
  | DoMonitor :: ops' => run_trader e (monitorPositions e st) ops'
  end.

(** The notifications that follow a [closeTrade] in [monitorPositions]. *)
Definition is_close_note (ev : TEvent) : bool :=
  match ev with
  | Notify (TakeProfitHit _ _) | Notify (StopLossTriggered _ _) => true
  | _ => false
  end.

Definition closes (l : list TEvent) : nat := List.length (filter is_close_note l).

(** The bet size as the specification states it, on doubles:
    [clamp(floor(balance * edge * riskFactor), min=1, max=balance * 0.05)],
    the minimum of 1 applied last. *)
Definition spec_winRate64 (wins totalBets : Z) : F64.t :=
  if Z.eqb totalBets 0 then F64.of_Q (1 # 2) else F64.div (F64.of_Z wins) (F64.of_Z totalBets).

Definition spec_riskFactor64 (survival : bool) (winRate : F64.t) (totalBets : Z) : F64.t :=
  if survival then F64.of_Q (1 # 2)
  else if F64.gt winRate (F64.of_Q (6 # 10)) && (5 <=? totalBets) then F64.of_Q (3 # 2)
  else if F64.lt winRate (F64.of_Q (4 # 10)) && (5 <=? totalBets) then F64.of_Q (6 # 10)
  else F64.of_Z 1.

Definition clamp64 (lo hi x : F64.t) : F64.t := F64.max lo (F64.min x hi).

Definition spec_bet64 (wins totalBets : Z) (survival : bool) (balance : F64.t) : F64.t :=
  let winRate := spec_winRate64 wins totalBets in
  let edge := F64.max (F64.of_Q (1 # 10)) (F64.sub winRate (F64.of_Q (1 # 2))) in
  clamp64 (F64.of_Z 1) (F64.mul balance (F64.of_Q (5 # 100)))
    (F64.floor (F64.mul (F64.mul balance edge) (spec_riskFactor64 survival winRate totalBets))).

(** The order [candidates.sort] establishes: descending by score. *)
Definition score_ge (a b : Candidate) : Prop := c_score b <= c_score a.

End Trader.

(** ** Fixed inputs used by the examples *)

Module Scenarios.
Import JSString Journal Trader.
Local Open Scope Z_scope.

(** An open position bought at price "1". *)
Definition open_x : TradeEntry := {|
  id := "t1"; token := "X"; symbol := "X"; action := Buy; amount := "$5";
  price := Some "1"; marketCap := None; timestamp := 0; reason := "test";
  bankrResponse := None; pnl := None; status := Open; exitPrice := None;
  exitTimestamp := None |}.

Definition with_settings (m : AgentMemory) (s : Settings) : AgentMemory := {|
  tokens := tokens m; trades := trades m; polymarketTrades := polymarketTrades m;
  learnings := learnings m; lastScanTime := lastScanTime m; totalTrades := totalTrades m;
  winRate := winRate m; totalPnl := totalPnl m; polymarketStats := polymarketStats m;
  settings := s |}.

Definition settings_of (tp sl : Q) (auto : bool) (maxOpen : Z) : Settings := {|
  maxMarketCap := 40000; maxBuyAmount := "5"; takeProfitPct := JS.Fin tp;
  stopLossPct := JS.Fin sl; scanIntervalMin := 30; autoTradeEnabled := auto;
  maxOpenPositions := maxOpen |}.

Definition state_of (m : AgentMemory) : TState :=
  {| mem := m; isScanning := false; isMonitoring := false; ncalls := 0; log := [] |}.

Definition ok (r : string) : BankrResult := {| success := true; response := Some r; error := None |}.

(** Every request succeeds and is answered with [r]. *)
Definition answer_all (r : string) : Env :=
  {| bankr := fun _ _ => ok r; clock := fun k => 1000 + Z.of_nat k; rand6 := fun _ => "abcdef" |}.

Definition pepe_line : string := "72|PEPE2|$0.001|$35k|$1200|+15%|strong momentum".
Definition dead_line : string := "40|DEAD|$0.0001|$5k|$50|-80%|dying".
Definition research_answer : string := pepe_line ++ nls ++ dead_line.

(** The scan is answered with a token list, the scoring with the two lines
    above, and every later request succeeds. *)
Definition scan_env : Env := {|
  bankr := fun k _ => match k with
                      | O => ok "1. PEPE2 ... 2. DEAD ..."
                      | 1%nat => ok research_answer
                      | _ => ok "done"
                      end;
  clock := fun k => 1000 + Z.of_nat k; rand6 := fun _ => "abcdef" |}.

Definition pepe2 : Candidate := {|
  c_name := "PEPE2"; c_symbol := "PEPE2"; c_price := "$0.001"; c_marketCap := JS.Fin 35000;
  c_volume24h := "$1200"; c_change24h := "+15%"; c_score := 72; c_reason := "strong momentum" |}.

Definition dead : Candidate := {|
  c_name := "DEAD"; c_symbol := "DEAD"; c_price := "$0.0001"; c_marketCap := JS.Fin 5000;
  c_volume24h := "$50"; c_change24h := "-80%"; c_score := 40; c_reason := "dying" |}.

End Scenarios.

(** ** System health report ([calculateHealthScore],
    [generateHealthRecommendations], [getStats]; execution-safety.ts) *)

Module Health.
Import JS.
Local Open Scope Z_scope.

(** The fields of [logger.getPerformanceMetrics()] the two functions read. *)
Record Metrics := { winRate : Q; currentDrawdown : Q }.

(** The object [getStats()] returns. *)
Record ExecStats := {
  totalExecutions : Z; successRate : Q; avgLatency : Q;
  rateLimitHits : Z; retryCount : Z
}.

(** [executionSafety.getStats()]: the number of cached results, and four
    placeholder constants. *)
Definition getStats (m : Safety.Mgr) : ExecStats := {|
  totalExecutions := Z.of_nat (List.length (Safety.executionHistory m));
  successRate := 95 # 100; avgLatency := 1500; rateLimitHits := 0; retryCount := 0 |}.

(** [calculateHealthScore(metrics, alerts, executionStats)]; only
    [alerts.length] is read. *)
Definition calculateHealthScore {A} (metrics : Metrics) (alerts : list A) (es : ExecStats) : Z :=
  let score := 100 in
  let score := if Qlt_bool (winRate metrics) 40 then score - 20
               else if Qlt_bool (winRate metrics) 50 then score - 10 else score in
  let score := if Qlt_bool 20 (currentDrawdown metrics) then score - 30
               else if Qlt_bool 10 (currentDrawdown metrics) then score - 15 else score in
  let score := score - Z.of_nat (List.length alerts) * 15 in
  let score := if Qlt_bool (successRate es) (8 # 10) then score - 20
               else if Qlt_bool (successRate es) (9 # 10) then score - 10 else score in
  let score := if Qlt_bool 5000 (avgLatency es) then score - 15
               else if Qlt_bool 2000 (avgLatency es) then score - 5 else score in
  Z.max 0 score.

Definition REVIEW_STRATEGY : string := "• Review and optimize trading strategy".
Definition REDUCE_SIZES : string := "• Reduce position sizes to limit drawdown".
Definition ADDRESS_ALERTS : string := "• Address critical system alerts".
Definition INVESTIGATE_FAILURES : string := "• Investigate execution failures".
Definition OPTIMIZE_LATENCY : string := "• Optimize API calls to reduce latency".
Definition PERFORMING_WELL : string := "• System is performing well - continue monitoring".

(** The lines [generateHealthRecommendations] pushes, in order. *)
Definition recommendations {A} (metrics : Metrics) (alerts : list A) (es : ExecStats)
    : list string :=
  let r : list string := [] in
  let r := if Qlt_bool (winRate metrics) 50 then (r ++ [REVIEW_STRATEGY])%list else r in
  let r := if Qlt_bool 15 (currentDrawdown metrics) then (r ++ [REDUCE_SIZES])%list else r in
  let r := if Nat.ltb 0 (List.length alerts) then (r ++ [ADDRESS_ALERTS])%list else r in
  let r := if Qlt_bool (successRate es) (9 # 10) then (r ++ [INVESTIGATE_FAILURES])%list else r in
  let r := if Qlt_bool 2000 (avgLatency es) then (r ++ [OPTIMIZE_LATENCY])%list else r in
  let r := if Nat.eqb (List.length r) 0 then (r ++ [PERFORMING_WELL])%list else r in
  r.

Definition nl_str : string := String (ascii_of_nat 10) EmptyString.

(** [recommendations.join("\n")]. *)
Definition generateHealthRecommendations {A} (metrics : Metrics) (alerts : list A)
    (es : ExecStats) : string :=
  concat nl_str (recommendations metrics alerts es).

End Health.

Module RateView.
Import Safety.

(** The timestamps [rateLimits.get(`${type}:${userId}`)] holds, [[]]
    when the key is missing. *)
Definition reqs_of (m : Mgr) (t : RequestType) (u : string) : list Z :=
  match lookup (rate_key t u) (rateLimits m) with
  | Some s => requests s
  | None => []
  end.

End RateView.

Module RiskView.
Import RiskGuard.




(** A guard differing only in [dailyLoss], [maxDailyLossUsd] and
    [maxOpenPositions]. *)
Definition with_loss_fields (s : TradingLimits) (loss maxLoss maxOpen : Q) : TradingLimits :=
  let c := config s in
  {| config := {| maxTradesPerDay := maxTradesPerDay c; maxDailyLossUsd := maxLoss;
                  maxOpenPositions := maxOpen;
                  cooldownMinutesAfterLossStreak := cooldownMinutesAfterLossStreak c;
                  maxPositionSizePct := maxPositionSizePct c;
                  drawdownKillSwitchPct := drawdownKillSwitchPct c |};
     dailyTrades := dailyTrades s; dailyLoss := loss; lastResetDate := lastResetDate s;
     consecutiveLosses := consecutiveLosses s; lastLossTime := lastLossTime s;
     totalDrawdown := totalDrawdown s; autoTradeKilled := autoTradeKilled s |}.

End RiskView.

Module JournalView.
Import JSString Journal.
Local Open Scope Z_scope.

(** [Array.prototype.slice(start)] for an integer [start]: a negative
    start counts from the end. *)
Definition js_slice_from {A} (l : list A) (start : Z) : list A :=
  let n := Z.of_nat (List.length l) in
  let k := if start <? 0 then Z.max (n + start) 0 else Z.min start n in
  skipn (Z.to_nat k) l.

(** [getTradeHistory(memory, limit)]: [memory.trades.slice(-limit)]. *)
Definition getTradeHistory (m : AgentMemory) (limit : Z) : list TradeEntry :=
  js_slice_from (trades m) (- limit).

(** The limit the [get_trade_history] skill passes: [params.limit || 10]. *)
Definition history_limit (param : option Z) : Z :=
  match param with
  | Some x => if Z.eqb x 0 then 10 else x
  | None => 10
  end.

(** The counts [getPerformanceSummary] reports. *)
Definition losing_trades (l : list TradeEntry) : list TradeEntry :=
  filter (fun t => JS.nle (parseFloat (pnl_or_zero t)) (JS.Fin 0)) (closed_trades l).

Record SummaryCounts := {
  sc_total : Z; sc_open : nat; sc_closed : nat; sc_wins : nat; sc_losses : nat
}.

Definition summary_counts (m : AgentMemory) : SummaryCounts := {|
  sc_total := totalTrades m;
  sc_open := List.length (getOpenPositions m);
  sc_closed := List.length (closed_trades (trades m));
  sc_wins := List.length (winning_trades (trades m));
  sc_losses := List.length (losing_trades (trades m)) |}.

(** A closed trade whose [pnl || "0"] does not parse to a number. *)
Definition pnl_is_nan (t : TradeEntry) : bool :=
  match parseFloat (pnl_or_zero t) with JS.NaN => true | _ => false end.

(** The journal's trade counter agrees with its trade list, and the
    learnings are capped. *)
Definition journal_consistent (m : AgentMemory) : Prop :=
  totalTrades m = Z.of_nat (List.length (trades m)) /\
  (List.length (learnings m) <= 100)%nat.

End JournalView.

Module TraderView.
Import JSString Journal Trader.
Local Open Scope Z_scope.

Definition buy_symbol (b : BuyMsg) : string :=
  match b with Bought _ sym _ => sym | BuyFailed sym _ => sym end.
Definition buy_ok (b : BuyMsg) : bool :=
  match b with Bought _ _ _ => true | BuyFailed _ _ => false end.

Definition set_autoTrade (s : Settings) (b : bool) : Settings := {|
  maxMarketCap := maxMarketCap s; maxBuyAmount := maxBuyAmount s;
  takeProfitPct := takeProfitPct s; stopLossPct := stopLossPct s;
  scanIntervalMin := scanIntervalMin s; autoTradeEnabled := b;
  maxOpenPositions := maxOpenPositions s |}.

(** [toggleAutoTrade(enabled)]: the new memory and the message. *)
Definition toggleAutoTrade (m : AgentMemory) (enabled : bool) : AgentMemory * string :=
  ({| tokens := tokens m; trades := trades m; polymarketTrades := polymarketTrades m;
      learnings := learnings m; lastScanTime := lastScanTime m; totalTrades := totalTrades m;
      winRate := winRate m; totalPnl := totalPnl m; polymarketStats := polymarketStats m;
      settings := set_autoTrade (settings m) enabled |},
   if enabled
   then "🟢 Auto-trade ENABLED. I'll buy tokens that score 60+ automatically."
   else "🔴 Auto-trade DISABLED. I'll still scan and alert you, but won't buy.").

(** The bet [scanPolymarket] logs once Bankr has placed it: the trade
    is pushed with [result: "pending"] and [totalBets] is incremented. *)
Definition logPolymarketBet (m : AgentMemory) (tid : string) : AgentMemory := {|
  tokens := tokens m; trades := trades m;
  polymarketTrades := (polymarketTrades m ++ [{| pm_id := tid; pm_result := Some PMPending |}])%list;
  learnings := learnings m; lastScanTime := lastScanTime m; totalTrades := totalTrades m;
  winRate := winRate m; totalPnl := totalPnl m;
  polymarketStats := {| totalBets := totalBets (polymarketStats m) + 1;
                        wins := wins (polymarketStats m); losses := losses (polymarketStats m) |};
  settings := settings m |}.

End TraderView.

(* ================================================================== *)
(** * Properties *)
(* ================================================================== *)

From Stdlib Require Import Lqa.

Module RiskGuardFacts.
Import JS RiskGuard.

Lemma Qlt_bool_iff (x y : Q) : Qlt_bool x y = true <-> x < y.
Proof.
  unfold Qlt_bool. rewrite negb_true_iff.
  split; intro H.
  - apply Qnot_le_lt. intro H'. apply Qle_bool_iff in H'. congruence.
  - destruct (Qle_bool y x) eqn:E; [|reflexivity].
    apply Qle_bool_iff in E. exfalso. apply (Qlt_not_le _ _ H E).
Qed.

Lemma Qlt_bool_false (x y : Q) : Qlt_bool x y = false <-> y <= x.
Proof.
  unfold Qlt_bool. rewrite negb_false_iff. apply Qle_bool_iff.
Qed.

Lemma max_spec_ge0 (a b : Q) : a <= max a b /\ b <= max a b.
Proof.
  unfold max. destruct (Qlt_bool a b) eqn:E.
  - apply Qlt_bool_iff in E. lra.
  - apply Qlt_bool_false in E. lra.
Qed.

Lemma abs_nonneg (x : Q) : 0 <= abs x.
Proof.
  unfold abs. destruct (Qlt_bool x 0) eqn:E.
  - apply Qlt_bool_iff in E. lra.
  - apply Qlt_bool_false in E. lra.
Qed.

Lemma resetIfNewDay_killed s d : autoTradeKilled (resetIfNewDay s d) = autoTradeKilled s.
Proof. unfold resetIfNewDay. destruct (negb _); reflexivity. Qed.

Lemma resetIfNewDay_drawdown s d : totalDrawdown (resetIfNewDay s d) = totalDrawdown s.
Proof. unfold resetIfNewDay. destruct (negb _); reflexivity. Qed.

Lemma resetIfNewDay_config s d : config (resetIfNewDay s d) = config s.
Proof. unfold resetIfNewDay. destruct (negb _); reflexivity. Qed.

(** Every call other than [resetKillSwitch] keeps a latched kill switch. *)
Lemma step_keeps_killed s c :
  is_reset c = false -> autoTradeKilled s = true ->
  autoTradeKilled (fst (step s c)) = true /\ killed_output (snd (step s c)).
Proof.
  intros Hc Hk. destruct c; simpl in *; try discriminate.
  - unfold canTrade. rewrite resetIfNewDay_killed, Hk. simpl.
    split; [rewrite resetIfNewDay_killed; exact Hk | reflexivity].
  - split; [|exact I]. unfold recordTrade.
    destruct (Qlt_bool _ 0); simpl.
    + destruct (ge _ _); [reflexivity|]. rewrite resetIfNewDay_killed. exact Hk.
    + rewrite resetIfNewDay_killed. exact Hk.
  - split; [|exact I]. simpl. rewrite resetIfNewDay_killed. exact Hk.
  - split; [|exact I]. rewrite resetIfNewDay_killed. exact Hk.
Qed.

Lemma run_keeps_killed s cs :
  forallb (fun c => negb (is_reset c)) cs = true -> autoTradeKilled s = true ->
  autoTradeKilled (fst (run s cs)) = true /\ Forall killed_output (snd (run s cs)).
Proof.
  revert s. induction cs as [|c cs IH]; intros s Hcs Hk; simpl.
  - split; [exact Hk | constructor].
  - simpl in Hcs. apply andb_true_iff in Hcs as [Hc Hcs].
    apply negb_true_iff in Hc.
    destruct (step_keeps_killed s c Hc Hk) as [Hk1 Ho].
    destruct (step s c) as [s1 o] eqn:Es. simpl in *.
    specialize (IH s1 Hcs Hk1).
    destruct (run s1 cs) as [s2 os]. simpl in *.
    destruct IH as [IH1 IH2]. split; [exact IH1 | constructor; assumption].
Qed.

(** Total drawdown is never negative on a reachable guard. *)
Lemma step_drawdown_nonneg s c :
  0 <= totalDrawdown s -> 0 <= totalDrawdown (fst (step s c)).
Proof.
  intros H. destruct c; simpl.
  - unfold canTrade. destruct (autoTradeKilled _); simpl;
      [rewrite resetIfNewDay_drawdown; exact H|].
    destruct (Qle_bool _ _); simpl; [rewrite resetIfNewDay_drawdown; exact H|].
    destruct (gt _ _); simpl; [rewrite resetIfNewDay_drawdown; exact H|].
    destruct (_ && _); simpl; rewrite resetIfNewDay_drawdown; exact H.
  - unfold recordTrade. rewrite resetIfNewDay_drawdown.
    destruct (Qlt_bool _ 0); simpl.
    + pose proof (abs_nonneg pnlUsd). lra.
    + apply max_spec_ge0.
  - rewrite resetIfNewDay_drawdown. exact H.
  - rewrite resetIfNewDay_drawdown. exact H.
  - apply Qle_refl.
Qed.

Lemma run_drawdown_nonneg s cs :
  0 <= totalDrawdown s -> 0 <= totalDrawdown (fst (run s cs)).
Proof.
  revert s. induction cs as [|c cs IH]; intros s H; simpl; [exact H|].
  pose proof (step_drawdown_nonneg s c H) as H1.
  destruct (step s c) as [s1 o]. simpl in H1.
  specialize (IH s1 H1). destruct (run s1 cs). exact IH.
Qed.

Lemma loss_60_of_100_kills s d n :
  drawdownKillSwitchPct (config s) == 50 -> 0 <= totalDrawdown s ->
  autoTradeKilled (recordTrade s d n (-60) 100) = true.
Proof.
  intros Hc Hd. unfold recordTrade.
  change (Qlt_bool (-60) 0) with true. cbv iota zeta.
  change (abs (-60)) with (60 : Q).
  rewrite resetIfNewDay_drawdown, resetIfNewDay_config.
  assert (Hge : ge (mul_pos (div (totalDrawdown s + 60) 100) 100)
                  (drawdownKillSwitchPct (config s)) = true).
  { unfold div. change (Qeq_bool 100 0) with false. cbv iota. simpl.
    apply Qle_bool_iff. rewrite Hc.
    setoid_replace ((totalDrawdown s + 60) / 100 * 100) with (totalDrawdown s + 60)
      by (field; discriminate).
    lra. }
  rewrite Hge. reflexivity.
Qed.

Lemma step_config s c : config (fst (step s c)) = config s.
Proof.
  destruct c; simpl.
  - unfold canTrade. destruct (autoTradeKilled _); simpl; [apply resetIfNewDay_config|].
    destruct (Qle_bool _ _); simpl; [apply resetIfNewDay_config|].
    destruct (gt _ _); simpl; [apply resetIfNewDay_config|].
    destruct (_ && _); simpl; apply resetIfNewDay_config.
  - unfold recordTrade. destruct (Qlt_bool _ 0); simpl; apply resetIfNewDay_config.
  - apply resetIfNewDay_config.
  - apply resetIfNewDay_config.
  - reflexivity.
Qed.

Lemma run_config s cs : config (fst (run s cs)) = config s.
Proof.
  revert s. induction cs as [|c cs IH]; intros s; simpl; [reflexivity|].
  pose proof (step_config s c) as H1.
  destruct (step s c) as [s1 o]. simpl in H1.
  specialize (IH s1). destruct (run s1 cs). simpl in *. congruence.
Qed.

(** C1: a $60 loss on a $100 portfolio with [drawdownKillSwitchPct = 50]
    latches [autoTradeKilled], whatever happened before on the guard;
    afterwards every [canTrade] answers [allowed = false] with the
    "Manual reset required" reason and the flag stays set through any
    calls (wins included) except [resetKillSwitch], which clears it. *)
Theorem kill_switch_latches_until_reset (cfg : SecurityConfig) (d0 : string)
    (pre : list Call) (d : string) (n : Q) (post : list Call) :
  drawdownKillSwitchPct cfg == 50 ->
  forallb (fun c => negb (is_reset c)) post = true ->
  let s := recordTrade (fst (run (create cfg d0) pre)) d n (-60) 100 in
  autoTradeKilled s = true /\
  Forall killed_output (snd (run s post)) /\
  autoTradeKilled (fst (run s post)) = true /\
  autoTradeKilled (resetKillSwitch (fst (run s post))) = false.
Proof.
  intros Hc Hpost s.
  assert (Hk : autoTradeKilled s = true).
  { apply loss_60_of_100_kills.
    - rewrite run_config. exact Hc.
    - apply run_drawdown_nonneg. apply Qle_refl. }
  destruct (run_keeps_killed s post Hpost Hk) as [H1 H2].
  repeat split; try assumption.
Qed.

Lemma kill_switch_latches_until_reset_witness :
  drawdownKillSwitchPct DEFAULT_SECURITY_CONFIG == 50 /\
  forallb (fun c => negb (is_reset c))
    [RecordTrade "Mon" 1 30 100; CanTrade "Tue" 2 1 100] = true /\
  (let s := recordTrade (fst (run (create DEFAULT_SECURITY_CONFIG "Mon") []))
              "Mon" 0 (-60) 100 in
   autoTradeKilled s = true /\
   Forall killed_output
     (snd (run s [RecordTrade "Mon" 1 30 100; CanTrade "Tue" 2 1 100])) /\
   autoTradeKilled
     (fst (run s [RecordTrade "Mon" 1 30 100; CanTrade "Tue" 2 1 100])) = true /\
   autoTradeKilled (resetKillSwitch
     (fst (run s [RecordTrade "Mon" 1 30 100; CanTrade "Tue" 2 1 100]))) = false).
Proof.
  assert (Hc : drawdownKillSwitchPct DEFAULT_SECURITY_CONFIG == 50)
    by (vm_compute; reflexivity).
  assert (Hp : forallb (fun c => negb (is_reset c))
    [RecordTrade "Mon" 1 30 100; CanTrade "Tue" 2 1 100] = true) by reflexivity.
  split; [exact Hc|]. split; [exact Hp|].
  exact (kill_switch_latches_until_reset DEFAULT_SECURITY_CONFIG "Mon" [] "Mon" 0
           [RecordTrade "Mon" 1 30 100; CanTrade "Tue" 2 1 100] Hc Hp).
Defined.

(** C7 (as stated, refuted): a win of at least twice the accumulated
    drawdown brings [totalDrawdown] from a positive value back to 0. *)
Lemma win_erases_drawdown_counterexample :
  let s1 := recordTrade (create DEFAULT_SECURITY_CONFIG "Mon") "Mon" 0 (-10) 1000 in
  0 < totalDrawdown s1 /\
  totalDrawdown (recordTrade s1 "Mon" 1 20 1000) == 0 /\
  ~ (0 < totalDrawdown (recordTrade s1 "Mon" 1 20 1000)).
Proof.
  vm_compute. split; [reflexivity|]. split; [reflexivity|]. intro H; discriminate H.
Qed.

(** C7 (amended): recording a non-negative pnl resets [consecutiveLosses]
    to 0 and sets [totalDrawdown] to [max(0, totalDrawdown - pnl/2)]; the
    drawdown stays strictly positive exactly when the pnl is smaller than
    twice the drawdown before, and is otherwise floored at 0. *)
Theorem win_heals_half_of_pnl (s : TradingLimits) (d : string) (n pnl v : Q) :
  0 <= pnl ->
  let s' := recordTrade s d n pnl v in
  consecutiveLosses s' = 0 /\
  totalDrawdown s' = max 0 (totalDrawdown s - pnl * (1 # 2)) /\
  0 <= totalDrawdown s' /\
  (0 < totalDrawdown s' <-> pnl < 2 * totalDrawdown s).
Proof.
  intros Hp s'. unfold s', recordTrade.
  assert (E : Qlt_bool pnl 0 = false) by (apply Qlt_bool_false; exact Hp).
  rewrite E. simpl. rewrite resetIfNewDay_drawdown.
  split; [reflexivity|]. split; [reflexivity|].
  unfold max. destruct (Qlt_bool 0 (totalDrawdown s - pnl * (1 # 2))) eqn:F.
  - apply Qlt_bool_iff in F. split; [lra|]. split; intro; lra.
  - apply Qlt_bool_false in F. split; [lra|]. split; intro H; lra.
Qed.

Lemma win_heals_half_of_pnl_witness :
  0 <= 20 /\
  (let s1 := recordTrade (create DEFAULT_SECURITY_CONFIG "Mon") "Mon" 0 (-30) 1000 in
   let s' := recordTrade s1 "Mon" 1 20 1000 in
   consecutiveLosses s' = 0 /\
   totalDrawdown s' = max 0 (totalDrawdown s1 - 20 * (1 # 2)) /\
   0 <= totalDrawdown s' /\
   (0 < totalDrawdown s' <-> 20 < 2 * totalDrawdown s1)).
Proof.
  assert (H : 0 <= 20) by (vm_compute; discriminate).
  split; [exact H|].
  exact (win_heals_half_of_pnl _ "Mon" 1 20 1000 H).
Defined.

End RiskGuardFacts.

Module SafetyFacts.
Import JSString Safety.
Local Open Scope Z_scope.

Lemma set_has_add x l : set_has x (set_add x l) = true.
Proof.
  unfold set_has, set_add. destruct (existsb (String.eqb x) l) eqn:E; [exact E|].
  apply existsb_exists. exists x. split; [apply in_or_app; right; left; reflexivity|].
  apply String.eqb_refl.
Qed.

Lemma pending_updateRateLimit m t u now :
  pendingExecutions (updateRateLimit m t u now) = pendingExecutions m.
Proof. reflexivity. Qed.

(** The manager state at a suspension point of a run. *)
Definition suspended (ev : Event) : option Mgr :=
  match ev with
  | AwaitExecutor m | AwaitSleep m _ => Some m
  | _ => None
  end.

(** While [executeWithRetry] is suspended (awaiting the operation or a
    back-off sleep), the request id is in [pendingExecutions]. *)
Lemma ewr_inflight_pending fuel m req exec calls now ev m' :
  In ev (r_trace (executeWithRetry fuel m req exec calls now)) ->
  suspended ev = Some m' -> set_has (id req) (pendingExecutions m') = true.
Proof.
  revert m req calls now.
  induction fuel as [|fuel IH]; intros m req calls now Hin Hs; simpl in Hin; [contradiction|].
  destruct (exec calls) as [dur out].
  destruct out as [v|e].
  - simpl in Hin. destruct Hin as [<-|[<-|[]]]; simpl in Hs; inversion Hs; subst.
    simpl. apply set_has_add.
  - destruct (retryable (classifyError e) && Nat.ltb (retryCount req) 3).
    + simpl in Hin.
      destruct Hin as [<-|[<-|[<-|[<-|Hin]]]]; simpl in Hs; try discriminate;
        try (inversion Hs; subst; simpl; apply set_has_add).
      exact (IH _ _ _ _ Hin Hs).
    + simpl in Hin. destruct Hin as [<-|[<-|[]]]; simpl in Hs; inversion Hs; subst.
      simpl. apply set_has_add.
Qed.

Lemma safeExecute_duplicate m rq exec now :
  set_has (rq_id rq) (pendingExecutions m) = true ->
  safeExecute m rq exec now =
    {| r_mgr := m; r_result := duplicate_result; r_trace := []; r_calls := 0; r_now := now |}.
Proof. intros H. unfold safeExecute. rewrite H. reflexivity. Qed.

(** C2: while a [safeExecute] call for a request id is in flight (at any
    point where it awaits the operation or a retry back-off), a second
    [safeExecute] with the same id returns the failure
    "Duplicate execution prevented", leaves the manager unchanged and
    never invokes its operation. *)
Theorem duplicate_in_flight_prevented (m : Mgr) (rq : Request) (exec : Executor) (now : Z)
    (ev : Event) (m' : Mgr) (rq2 : Request) (exec2 : Executor) (now2 : Z) :
  In ev (r_trace (safeExecute m rq exec now)) ->
  suspended ev = Some m' ->
  rq_id rq2 = rq_id rq ->
  let r2 := safeExecute m' rq2 exec2 now2 in
  success (r_result r2) = false /\
  option_map message (error (r_result r2)) = Some "Duplicate execution prevented" /\
  r_calls r2 = 0%nat /\ r_mgr r2 = m'.
Proof.
  intros Hin Hs Hid r2.
  assert (Hp : set_has (rq_id rq2) (pendingExecutions m') = true).
  { rewrite Hid. unfold safeExecute in Hin.
    destruct (set_has (rq_id rq) (pendingExecutions m)); [contradiction|].
    destruct (checkRateLimit m (rq_type rq) (rq_userId rq) now) as [m1 [ok ra]].
    destruct (negb ok); [contradiction|].
    destruct (lookup (rq_id rq) (executionHistory m1)); [contradiction|].
    exact (ewr_inflight_pending _ _ _ _ _ _ _ _ Hin Hs). }
  unfold r2. rewrite (safeExecute_duplicate m' rq2 exec2 now2 Hp).
  repeat split.
Qed.

Definition econnreset : JSError :=
  {| errName := "Error"; errMessage := "read ECONNRESET"; errStatus := None |}.

Definition flaky_twice : Executor := fun k =>
  match k with
  | O | S O => (10, Throw econnreset)
  | _ => (10, Resolve "ok")
  end.

Definition req1 : Request := {| rq_id := "trade_1"; rq_type := Trade; rq_userId := "u" |}.

Lemma duplicate_in_flight_prevented_witness :
  In (AwaitExecutor (updateRateLimit
        (with_pending (fst (checkRateLimit empty_mgr Trade "u" 0)) ["trade_1"]) Trade "u" 0))
     (r_trace (safeExecute empty_mgr req1 flaky_twice 0)) /\
  (let r2 := safeExecute
        (updateRateLimit
           (with_pending (fst (checkRateLimit empty_mgr Trade "u" 0)) ["trade_1"]) Trade "u" 0)
        req1 flaky_twice 5 in
   success (r_result r2) = false /\
   option_map message (error (r_result r2)) = Some "Duplicate execution prevented" /\
   r_calls r2 = 0%nat /\
   r_mgr r2 = updateRateLimit
           (with_pending (fst (checkRateLimit empty_mgr Trade "u" 0)) ["trade_1"]) Trade "u" 0).
Proof.
  assert (Hin : In (AwaitExecutor (updateRateLimit
        (with_pending (fst (checkRateLimit empty_mgr Trade "u" 0)) ["trade_1"]) Trade "u" 0))
     (r_trace (safeExecute empty_mgr req1 flaky_twice 0))) by (vm_compute; left; reflexivity).
  split; [exact Hin|].
  exact (duplicate_in_flight_prevented empty_mgr req1 flaky_twice 0 _ _ req1 flaky_twice 5
           Hin eq_refl eq_refl).
Defined.

(** Classification: the three retryable kinds and their back-offs, the
    three terminal kinds. *)
Lemma classify_retry_backoff e :
  let c := classifyError e in
  (etype c = network /\ retryable c = true /\ backoffMs c = 2000) \/
  (etype c = rate_limit /\ retryable c = true /\ backoffMs c = 60000) \/
  (etype c = system /\ retryable c = true /\ backoffMs c = 5000) \/
  ((etype c = insufficient_balance \/ etype c = market_closed \/ etype c = invalid_params)
     /\ retryable c = false /\ backoffMs c = 0).
Proof.
  unfold classifyError.
  repeat match goal with |- context [if ?b then _ else _] => destruct b end;
    simpl; tauto.
Qed.

Lemma classify_econnreset e :
  includes (error_text e) "ECONNRESET" = true ->
  classifyError e = {| etype := network; message := "Network connection error";
                       retryable := true; backoffMs := 2000 |}.
Proof. intros H. unfold classifyError. rewrite H. reflexivity. Qed.

(** The fuel of [executeWithRetry] never runs out: any amount above
    [3 - retryCount] gives the same run. *)
Lemma ewr_fuel f1 f2 m req exec calls now :
  (3 - retryCount req < f1)%nat -> (3 - retryCount req < f2)%nat ->
  executeWithRetry f1 m req exec calls now = executeWithRetry f2 m req exec calls now.
Proof.
  revert f2 m req calls now.
  induction f1 as [|f1 IH]; intros f2 m req calls now H1 H2; [inversion H1|].
  destruct f2 as [|f2]; [inversion H2|]. simpl.
  destruct (exec calls) as [dur out]. destruct out as [v|e]; [reflexivity|].
  destruct (retryable (classifyError e) && Nat.ltb (retryCount req) 3) eqn:E;
    [|reflexivity].
  apply andb_true_iff in E as [_ E]. apply Nat.ltb_lt in E.
  rewrite (IH f2); [reflexivity| |]; cbn [retryCount bump_retry]; lia.
Qed.

(** At most [3 - retryCount] retries: at most that many plus one calls. *)
Lemma ewr_calls_bound fuel m req exec calls now :
  (r_calls (executeWithRetry fuel m req exec calls now) <= calls + S (3 - retryCount req))%nat.
Proof.
  revert m req calls now.
  induction fuel as [|fuel IH]; intros m req calls now; [cbn -[Nat.sub]; lia|].
  cbn [executeWithRetry].
  destruct (exec calls) as [dur out]. destruct out as [v|e]; [cbn -[Nat.sub]; lia|].
  destruct (retryable (classifyError e) && Nat.ltb (retryCount req) 3) eqn:E;
    cbn -[Nat.sub]; [|lia].
  apply andb_true_iff in E as [_ E]. apply Nat.ltb_lt in E.
  specialize (IH (updateRateLimit (with_pending m (set_add (id req) (pendingExecutions m)))
                (type req) (userId req) now) (bump_retry req) (S calls) (now + dur + backoffMs (classifyError e))).
  cbn [retryCount bump_retry] in IH. lia.
Qed.

(** A terminal (non-retryable) error ends the run at once, reported as is. *)
Lemma ewr_terminal fuel m req exec calls now dur e :
  exec calls = (dur, Throw e) -> retryable (classifyError e) = false ->
  let r := executeWithRetry (S fuel) m req exec calls now in
  r_calls r = S calls /\ success (r_result r) = false /\
  error (r_result r) = Some (classifyError e).
Proof. intros He Hr. simpl. rewrite He, Hr. simpl. auto. Qed.

(** Every back-off sleep is the back-off of a retryable classified error. *)
Lemma ewr_sleeps fuel m req exec calls now m' ms :
  In (AwaitSleep m' ms) (r_trace (executeWithRetry fuel m req exec calls now)) ->
  exists e, retryable (classifyError e) = true /\ ms = backoffMs (classifyError e).
Proof.
  revert m req calls now.
  induction fuel as [|fuel IH]; intros m req calls now Hin; simpl in Hin; [contradiction|].
  destruct (exec calls) as [dur out]. destruct out as [v|e].
  - simpl in Hin. destruct Hin as [H|[H|[]]]; discriminate.
  - destruct (retryable (classifyError e) && Nat.ltb (retryCount req) 3) eqn:E.
    + apply andb_true_iff in E as [E _]. simpl in Hin.
      destruct Hin as [H|[H|[H|[H|Hin]]]]; try discriminate.
      * inversion H; subst. eauto.
      * exact (IH _ _ _ _ Hin).
    + simpl in Hin. destruct Hin as [H|[H|[]]]; discriminate.
Qed.

Definition retries_logged (tr : list Event) : list nat :=
  flat_map (fun ev => match ev with LogRetry n => [n] | _ => [] end) tr.
Definition sleeps (tr : list Event) : list Z :=
  flat_map (fun ev => match ev with AwaitSleep _ ms => [ms] | _ => [] end) tr.

Lemma checkRateLimit_history m t u now :
  executionHistory (fst (checkRateLimit m t u now)) = executionHistory m.
Proof.
  unfold checkRateLimit. destruct (RATE_LIMITS t).
  destruct (Z.leb _ _); reflexivity.
Qed.

Definition fail_twice (e1 e2 : JSError) (d1 d2 d3 : Z) (v : string) : Executor :=
  fun k => match k with
           | O => (d1, Throw e1)
           | S O => (d2, Throw e2)
           | _ => (d3, Resolve v)
           end.

(** Once an invocation throws a terminal error, the operation is never
    invoked again in that run. *)
Lemma ewr_no_call_after_terminal fuel m req exec calls now k dur e :
  (calls <= k)%nat -> exec k = (dur, Throw e) -> retryable (classifyError e) = false ->
  (r_calls (executeWithRetry fuel m req exec calls now) <= S k)%nat.
Proof.
  revert m req calls now.
  induction fuel as [|fuel IH]; intros m req calls now Hle Hk Hr; [simpl; lia|].
  cbn [executeWithRetry].
  destruct (Nat.eq_dec calls k) as [->|Hne].
  - rewrite Hk, Hr. simpl. lia.
  - destruct (exec calls) as [dur' out]. destruct out as [v|e']; [simpl; lia|].
    destruct (retryable (classifyError e') && Nat.ltb (retryCount req) 3); simpl; [|lia].
    apply IH; [lia | exact Hk | exact Hr].
Qed.

Lemma safeExecute_calls_bound m rq exec now :
  (r_calls (safeExecute m rq exec now) <= 4)%nat.
Proof.
  unfold safeExecute.
  destruct (set_has _ _); [simpl; lia|].
  destruct (checkRateLimit m (rq_type rq) (rq_userId rq) now) as [m1 [ok ra]].
  destruct (negb ok); [simpl; lia|].
  destruct (lookup _ _); [simpl; lia|].
  pose proof (ewr_calls_bound 4 m1
    {| id := rq_id rq; type := rq_type rq; userId := rq_userId rq;
       timestamp := now; retryCount := 0 |} exec 0 now) as H.
  cbn -[executeWithRetry] in H. lia.
Qed.

(** C3: classification decides retries — network (2 s), rate_limit (60 s)
    and system (5 s) are retried, insufficient_balance, market_closed and
    invalid_params never; a [safeExecute] run invokes the operation at
    most 4 times (at most 3 retries), sleeps only retryable back-offs, and
    never invokes it again after a terminal error.  An operation throwing
    "ECONNRESET" errors on its first two invocations and resolving on the
    third ends in success after exactly 3 invocations, with the retries
    reported as attempts 1 and 2, two 2000 ms back-offs and at least
    4000 ms elapsed. *)
Theorem retry_policy_and_econnreset_recovery
    (m : Mgr) (rq : Request) (now : Z) (e1 e2 : JSError) (d1 d2 d3 : Z) (v : string) :
  set_has (rq_id rq) (pendingExecutions m) = false ->
  fst (snd (checkRateLimit m (rq_type rq) (rq_userId rq) now)) = true ->
  lookup (rq_id rq) (executionHistory m) = None ->
  includes (error_text e1) "ECONNRESET" = true ->
  includes (error_text e2) "ECONNRESET" = true ->
  0 <= d1 -> 0 <= d2 -> 0 <= d3 ->
  (forall e, let c := classifyError e in
     (etype c = network /\ retryable c = true /\ backoffMs c = 2000) \/
     (etype c = rate_limit /\ retryable c = true /\ backoffMs c = 60000) \/
     (etype c = system /\ retryable c = true /\ backoffMs c = 5000) \/
     ((etype c = insufficient_balance \/ etype c = market_closed \/ etype c = invalid_params)
        /\ retryable c = false /\ backoffMs c = 0)) /\
  (forall m0 rq0 exec now0, (r_calls (safeExecute m0 rq0 exec now0) <= 4)%nat) /\
  (forall m0 rq0 exec now0 m' ms,
     In (AwaitSleep m' ms) (r_trace (safeExecute m0 rq0 exec now0)) ->
     exists e, retryable (classifyError e) = true /\ ms = backoffMs (classifyError e)) /\
  (forall m0 rq0 exec now0 k dur e,
     exec k = (dur, Throw e) -> retryable (classifyError e) = false ->
     (r_calls (safeExecute m0 rq0 exec now0) <= S k)%nat) /\
  (let r := safeExecute m rq (fail_twice e1 e2 d1 d2 d3 v) now in
   success (r_result r) = true /\ data (r_result r) = Some v /\
   r_calls r = 3%nat /\ retries_logged (r_trace r) = [1%nat; 2%nat] /\
   sleeps (r_trace r) = [2000; 2000] /\ r_now r - now >= 2 * 2000).
Proof.
  intros Hp Hrl Hc He1 He2 Hd1 Hd2 Hd3.
  split; [exact classify_retry_backoff|].
  split; [exact safeExecute_calls_bound|].
  split.
  { intros m0 rq0 exec now0 m' ms. unfold safeExecute.
    destruct (set_has (rq_id rq0) (pendingExecutions m0)); [simpl; tauto|].
    destruct (checkRateLimit m0 (rq_type rq0) (rq_userId rq0) now0) as [m1 [ok ra]].
    destruct (negb ok); [simpl; tauto|].
    destruct (lookup (rq_id rq0) (executionHistory m1)); [simpl; tauto|]. intro Hin.
    exact (ewr_sleeps _ _ _ _ _ _ _ _ Hin). }
  split.
  { intros m0 rq0 exec now0 k dur e Hk Hr. unfold safeExecute.
    destruct (set_has (rq_id rq0) (pendingExecutions m0)); [simpl; lia|].
    destruct (checkRateLimit m0 (rq_type rq0) (rq_userId rq0) now0) as [m1 [ok ra]].
    destruct (negb ok); [simpl; lia|].
    destruct (lookup (rq_id rq0) (executionHistory m1)); [simpl; lia|].
    eapply ewr_no_call_after_terminal; [lia | exact Hk | exact Hr]. }
  unfold safeExecute. rewrite Hp.
  pose proof (checkRateLimit_history m (rq_type rq) (rq_userId rq) now) as Hh.
  destruct (checkRateLimit m (rq_type rq) (rq_userId rq) now) as [m1 [ok ra]].
  simpl in Hrl, Hh. subst ok. cbn [negb]. rewrite Hh, Hc.
  cbn [executeWithRetry fail_twice].
  rewrite (classify_econnreset e1 He1), (classify_econnreset e2 He2).
  cbn. repeat split; lia.
Qed.

Lemma retry_policy_and_econnreset_recovery_witness :
  set_has (rq_id req1) (pendingExecutions empty_mgr) = false /\
  fst (snd (checkRateLimit empty_mgr (rq_type req1) (rq_userId req1) 0)) = true /\
  lookup (rq_id req1) (executionHistory empty_mgr) = None /\
  includes (error_text econnreset) "ECONNRESET" = true /\
  (let r := safeExecute empty_mgr req1 (fail_twice econnreset econnreset 10 10 10 "ok") 0 in
   success (r_result r) = true /\ data (r_result r) = Some "ok" /\
   r_calls r = 3%nat /\ retries_logged (r_trace r) = [1%nat; 2%nat] /\
   sleeps (r_trace r) = [2000; 2000] /\ r_now r - 0 >= 2 * 2000).
Proof.
  assert (H1 : set_has (rq_id req1) (pendingExecutions empty_mgr) = false) by reflexivity.
  assert (H2 : fst (snd (checkRateLimit empty_mgr (rq_type req1) (rq_userId req1) 0)) = true)
    by reflexivity.
  assert (H3 : lookup (rq_id req1) (executionHistory empty_mgr) = None) by reflexivity.
  assert (H4 : includes (error_text econnreset) "ECONNRESET" = true) by reflexivity.
  assert (H5 : 0 <= 10) by lia.
  do 4 (split; [assumption|]).
  exact (proj2 (proj2 (proj2 (proj2
    (retry_policy_and_econnreset_recovery empty_mgr req1 0 econnreset econnreset 10 10 10 "ok"
       H1 H2 H3 H4 H4 H5 H5 H5))))).
Defined.

End SafetyFacts.

Module RequestIdFacts.
Import JSString RequestId.

Lemma append_inv_l (s a b : string) : s ++ a = s ++ b -> a = b.
Proof.
  induction s as [|c s IH]; simpl; [auto|]. intros H. inversion H. auto.
Qed.

Lemma list_ascii_of_string_append (a b : string) :
  list_ascii_of_string (a ++ b) = (list_ascii_of_string a ++ list_ascii_of_string b)%list.
Proof. induction a as [|c a IH]; simpl; [reflexivity|]. rewrite IH. reflexivity. Qed.

Lemma append_inv_r (a b s : string) : a ++ s = b ++ s -> a = b.
Proof.
  intros H. apply (f_equal list_ascii_of_string) in H.
  rewrite !list_ascii_of_string_append in H. apply app_inv_tail in H.
  rewrite <- (string_of_list_ascii_of_string a), <- (string_of_list_ascii_of_string b).
  rewrite H. reflexivity.
Qed.

Lemma of_N_inj (n1 n2 : N) : of_N n1 = of_N n2 -> n1 = n2.
Proof.
  unfold of_N. intros H.
  apply (f_equal NilEmpty.uint_of_string) in H. rewrite !NilEmpty.usu in H.
  inversion H as [H'].
  rewrite <- (DecimalN.Unsigned.of_to n1), <- (DecimalN.Unsigned.of_to n2), H'.
  reflexivity.
Qed.

(** C10 (as stated, refuted): the same type and the same parameters give
    different ids one millisecond apart, since [Date.now()] is part of
    the id. *)
Lemma request_id_not_deterministic :
  generateRequestId "trade" [("symbol", JStr "PEPE"); ("amount", JNum 5)] 1700000000000
  <> generateRequestId "trade" [("symbol", JStr "PEPE"); ("amount", JNum 5)] 1700000000001 /\
  ~ (forall t p n1 n2, generateRequestId t p n1 = generateRequestId t p n2).
Proof.
  assert (H : generateRequestId "trade" [("symbol", JStr "PEPE"); ("amount", JNum 5)]
                1700000000000
              <> generateRequestId "trade" [("symbol", JStr "PEPE"); ("amount", JNum 5)]
                1700000000001) by (vm_compute; discriminate).
  split; [exact H|]. intros Hall. apply H, Hall.
Qed.

(** C10 (amended): the id is [type ++ "_" ++ Date.now() ++ "_" ++ hash]
    of the key-sorted JSON of the parameters; for the same type and
    parameters two calls yield the same id exactly when they read the
    same millisecond timestamp. *)
Theorem request_id_same_iff_same_millisecond (t : string) (p : list (string * Json))
    (n1 n2 : N) :
  generateRequestId t p n1 =
    t ++ "_" ++ of_N n1 ++ "_" ++ simpleHash (stringify (sort_strings (map fst p)) (JObj p)) /\
  (generateRequestId t p n1 = generateRequestId t p n2 <-> n1 = n2).
Proof.
  split; [reflexivity|].
  split; [|intros ->; reflexivity].
  unfold generateRequestId. intros H.
  apply append_inv_l in H. apply append_inv_l in H.
  apply append_inv_r in H. apply of_N_inj, H.
Qed.

End RequestIdFacts.

Module TraderFacts.
Import JSString Journal Trader.
Local Open Scope Z_scope.

(** The calls the trader makes on its journal. *)
Section Preservation.
Variable P : AgentMemory -> Prop.
Hypothesis P_close : forall m tid ep p t, P m -> P (closeTrade m tid ep p t).
Hypothesis P_log : forall m t, status t <> Closed -> pnl t = None -> exitPrice t = None ->
  exitTimestamp t = None -> P m -> P (logTrade m t).
Hypothesis P_token : forall m s p, P m -> P (updateTokenMemory m s p).
Hypothesis P_scan_time : forall m t, P m -> P (set_lastScanTime m t).

Lemma research_fold_preserves e lines st cs :
  P (mem st) -> P (mem (fst (fold_left (research_line e) lines (st, cs)))).
Proof.
  revert st cs; induction lines as [|l lines IH]; intros st cs H; [exact H|].
  cbn [fold_left]. unfold research_line at 2.
  destruct (parse_line l) as [[parts score]|]; apply IH; cbn; auto.
Qed.

Lemma researchCandidates_preserves e st s :
  P (mem st) -> P (mem (fst (researchCandidates e st s))).
Proof.
  intros H. unfold researchCandidates, prompt. cbn -[fold_left research_line].
  destruct (success _); cbn -[fold_left research_line]; [|exact H].
  destruct (fold_left _ _ _) as [st' cs] eqn:E. cbn.
  change st' with (fst (st', cs)). rewrite <- E. apply research_fold_preserves. exact H.
Qed.

Lemma executeBuy_preserves e st c : P (mem st) -> P (mem (fst (executeBuy e st c))).
Proof.
  intros H. unfold executeBuy, prompt. cbn.
  apply P_log; cbn; auto. destruct (success _); discriminate.
Qed.

Lemma buy_all_preserves e cs st : P (mem st) -> P (mem (fst (buy_all e st cs))).
Proof.
  revert st; induction cs as [|c cs IH]; intros st H; [exact H|].
  cbn [buy_all]. destruct (executeBuy e st c) as [st1 b] eqn:E1.
  destruct (buy_all e st1 cs) as [st2 bs] eqn:E2. cbn.
  change st2 with (fst (st2, bs)). rewrite <- E2. apply IH.
  change st1 with (fst (st1, b)). rewrite <- E1. apply executeBuy_preserves, H.
Qed.

Lemma scanMarket_preserves e st : P (mem st) -> P (mem (fst (scanMarket e st))).
Proof.
  intros H. unfold scanMarket.
  destruct (isScanning st); [exact H|].
  unfold prompt at 1. cbn -[researchCandidates buy_all toFixed0 scan_prompt getOpenPositions].
  destruct (success _); cbn -[researchCandidates buy_all toFixed0 scan_prompt getOpenPositions];
    [|exact H].
  match goal with |- context [researchCandidates e ?s ?r] =>
    pose proof (researchCandidates_preserves e s r) as HR;
    destruct (researchCandidates e s r) as [st1 cs] end.
  cbn in HR. specialize (HR (P_scan_time _ _ H)).
  destruct cs as [|c cs]; [exact HR|].
  match goal with |- context [if ?b then _ else _] => destruct b end;
  [|exact HR].
  match goal with |- context [if ?b then _ else _] => destruct b end;
  [|exact HR].
  match goal with |- context [buy_all e st1 ?l] =>
    pose proof (buy_all_preserves e l st1 HR) as HB; destruct (buy_all e st1 l) end.
  exact HB.
Qed.

Lemma sell_preserves e st t p cur pc n : P (mem st) -> P (mem (sell e st t p cur pc n)).
Proof.
  intros H. unfold sell, prompt. cbn. destruct (success _); cbn; auto.
Qed.

Lemma monitor_one_preserves e st t : P (mem st) -> P (mem (monitor_one e st t)).
Proof.
  intros H. unfold monitor_one, prompt at 1. cbn -[sell].
  destruct (success _); cbn -[sell]; [|exact H].
  destruct (_ || _); [exact H|].
  set (st1 := if JS.nge _ _ then _ else _).
  assert (H1 : P (mem st1)) by (unfold st1; destruct (JS.nge _ _); [apply sell_preserves|]; exact H).
  destruct (JS.nle _ _); [apply sell_preserves|]; exact H1.
Qed.

Lemma monitorPositions_preserves e st : P (mem st) -> P (mem (monitorPositions e st)).
Proof.
  intros H. unfold monitorPositions.
  destruct (isMonitoring st); [exact H|].
  destruct (getOpenPositions (mem st)) as [|t0 ts]; [exact H|].
  cbn [mem set_monitoring].
  assert (Hf : forall l s, P (mem s) ->
    P (mem (fold_left (fun st t => emit (monitor_one e st t) (Sleep 3000)) l s))).
  { induction l as [|x l IH]; intros s Hs; [exact Hs|]. cbn [fold_left]. apply IH.
    apply monitor_one_preserves, Hs. }
  apply Hf. exact H.
Qed.

End Preservation.

Lemma run_trader_preserves (P : AgentMemory -> Prop)
  (P_close : forall m tid ep p t, P m -> P (closeTrade m tid ep p t))
  (P_log : forall m t, status t <> Closed -> pnl t = None -> exitPrice t = None ->
     exitTimestamp t = None -> P m -> P (logTrade m t))
  (P_token : forall m s p, P m -> P (updateTokenMemory m s p))
  (P_scan_time : forall m t, P m -> P (set_lastScanTime m t))
  e ops st : P (mem st) -> P (mem (run_trader e st ops)).
Proof.
  revert st; induction ops as [|o ops IH]; intros st H; [exact H|].
  destruct o; cbn [run_trader]; apply IH.
  - apply scanMarket_preserves; assumption.
  - apply monitorPositions_preserves; assumption.
Qed.

Lemma find_trade_split tid l t :
  find_trade tid l = Some t ->
  String.eqb (id t) tid = true /\
  exists pre post, l = (pre ++ t :: post)%list /\
    forall t', update_first tid t' l = (pre ++ t' :: post)%list.
Proof.
  unfold find_trade. induction l as [|x l IH]; cbn; [discriminate|].
  destruct (String.eqb (id x) tid) eqn:E.
  - intros [= <-]. split; [exact E|]. exists [], l. split; [reflexivity|].
    intros t'. reflexivity.
  - intros H. destruct (IH H) as [Ht [pre [post [-> Hu]]]]. split; [exact Ht|].
    exists (x :: pre), post. split; [reflexivity|]. intros t'. rewrite Hu. reflexivity.
Qed.

Lemma closeTrade_found m tid ep p now t :
  find_trade tid (trades m) = Some t ->
  exists pre post, trades m = (pre ++ t :: post)%list /\
    trades (closeTrade m tid ep p now) = (pre ++ close_entry t ep now p :: post)%list /\
    winRate (closeTrade m tid ep p now) = win_rate_of (trades (closeTrade m tid ep p now)).
Proof.
  intros H. destruct (find_trade_split _ _ _ H) as [_ [pre [post [Hl Hu]]]].
  exists pre, post. split; [exact Hl|].
  unfold closeTrade. rewrite H. cbn [trades winRate]. rewrite Hu. split; reflexivity.
Qed.

Lemma closeTrade_not_found m tid ep p now :
  find_trade tid (trades m) = None -> closeTrade m tid ep p now = m.
Proof. intros H. unfold closeTrade. rewrite H. reflexivity. Qed.









Lemma trades_exit_consistent_run e ops st :
  trades_exit_consistent (mem st) -> trades_exit_consistent (mem (run_trader e st ops)).
Proof.
  apply run_trader_preserves; unfold trades_exit_consistent.
  - intros m tid ep p t H. destruct (find_trade tid (trades m)) as [x|] eqn:E.
    + destruct (closeTrade_found m tid ep p t x E) as [pre [post [Hl [-> _]]]].
      rewrite Hl in H. apply Forall_app in H as [H1 H2]. inversion H2; subst.
      apply Forall_app; split; [exact H1|]. constructor; [|assumption].
      unfold exit_consistent; cbn. split; [intros _; repeat split; discriminate|reflexivity].
    + rewrite closeTrade_not_found by exact E. exact H.
  - intros m t Hs Hp He Ht H. cbn. apply Forall_app; split; [exact H|].
    constructor; [|constructor]. unfold exit_consistent.
    rewrite Hp. split; [intro; contradiction|]. intros [Hn _]. contradiction.
  - intros m s p H. exact H.
  - intros m t H. exact H.
Qed.

Lemma executeBuy_shape e st c :
  exists t, trades (mem (fst (executeBuy e st c))) = (trades (mem st) ++ [t])%list /\
    (status t = Open \/ status t = Failed) /\
    pnl t = None /\ exitPrice t = None /\ exitTimestamp t = None.
Proof.
  unfold executeBuy, prompt. cbn.
  eexists. split; [reflexivity|]. cbn.
  split; [destruct (success _); [left|right]; reflexivity|]. repeat split.
Qed.




(** C9: along any run of scans and monitoring passes from a journal whose
    trades all satisfy it, every trade has [status = closed] exactly when
    [pnl], [exitPrice] and [exitTimestamp] are all set; the trade a buy
    logs is "open" or "failed" with none of the three set; and [closeTrade]
    sets the three together with the status "closed" on the trade it finds,
    leaving the other trades as they were. *)
Theorem trade_closed_iff_exit_fields e st ops
  (Hinv : trades_exit_consistent (mem st)) :
  trades_exit_consistent (mem (run_trader e st ops)) /\
  (forall c, exists t, trades (mem (fst (executeBuy e st c))) = (trades (mem st) ++ [t])%list /\
     (status t = Open \/ status t = Failed) /\
     pnl t = None /\ exitPrice t = None /\ exitTimestamp t = None) /\
  (forall m tid ep p now t, find_trade tid (trades m) = Some t ->
     exists pre post, trades m = (pre ++ t :: post)%list /\
       trades (closeTrade m tid ep p now) = (pre ++ close_entry t ep now p :: post)%list /\
       status (close_entry t ep now p) = Closed /\ pnl (close_entry t ep now p) = Some p /\
       exitPrice (close_entry t ep now p) = Some ep /\
       exitTimestamp (close_entry t ep now p) = Some now).
Proof.
  split; [apply trades_exit_consistent_run; exact Hinv|].
  split; [intros c; apply executeBuy_shape|].
  intros m tid ep p now t H.
  destruct (closeTrade_found m tid ep p now t H) as [pre [post [H1 [H2 _]]]].
  exists pre, post. repeat split; assumption.
Qed.

Lemma trade_closed_iff_exit_fields_witness :
  trades_exit_consistent (mem (Scenarios.state_of DEFAULT_MEMORY)) /\
  trades_exit_consistent (mem (run_trader Scenarios.scan_env
     (Scenarios.state_of (Scenarios.with_settings DEFAULT_MEMORY (Scenarios.settings_of 100 30 true 1)))
     [DoScan; DoMonitor])).
Proof.
  assert (H0 : trades_exit_consistent (mem (Scenarios.state_of
     (Scenarios.with_settings DEFAULT_MEMORY (Scenarios.settings_of 100 30 true 1))))) by constructor.
  split; [constructor|].
  exact (proj1 (trade_closed_iff_exit_fields Scenarios.scan_env _ [DoScan; DoMonitor] H0)).
Defined.

Lemma closes_app l l' : closes (l ++ l') = (closes l + closes l')%nat.
Proof. unfold closes. rewrite filter_app, length_app. reflexivity. Qed.

Lemma settings_run_closeTrade m tid ep p now :
  settings (closeTrade m tid ep p now) = settings m.
Proof. unfold closeTrade. destruct (find_trade _ _); reflexivity. Qed.

Lemma sell_facts e st t p cur pc n :
  is_close_note (Notify n) = true ->
  settings (mem (sell e st t p cur pc n)) = settings (mem st) /\
  ncalls (sell e st t p cur pc n) = S (ncalls st) /\
  (closes (log (sell e st t p cur pc n)) <= S (closes (log st)))%nat.
Proof.
  intros Hn. unfold sell, prompt. cbn.
  assert (P0 : closes [Prompt p] = 0%nat) by reflexivity.
  assert (N1 : closes [Notify n] = 1%nat) by (unfold closes; cbn [filter]; rewrite Hn; reflexivity).
  destruct (success _); cbn [mem log ncalls set_mem emit];
    rewrite ?settings_run_closeTrade, !closes_app, P0, ?N1; repeat split; lia.
Qed.

(** The two triggers exclude each other when [takeProfitPct > -stopLossPct]. *)
Lemma triggers_exclusive a b x :
  (- b < a)%Q -> JS.nge x (JS.Fin a) = true -> JS.nle x (JS.neg (JS.Fin b)) = true -> False.
Proof.
  intros Hab H1 H2. destruct x as [q| | |]; cbn in *; try discriminate.
  destruct (Qcompare_spec q a) as [E|E|E]; try discriminate;
  destruct (Qcompare_spec q (- b)) as [F|F|F]; try discriminate;
  first [rewrite E in F | idtac]; lra.
Qed.

Lemma prompt_facts e st p :
  mem (fst (prompt e st p)) = mem st /\ ncalls (fst (prompt e st p)) = S (ncalls st) /\
  closes (log (fst (prompt e st p))) = closes (log st).
Proof.
  unfold prompt. cbn [fst mem ncalls log]. rewrite closes_app. cbn. repeat split. lia.
Qed.

Lemma monitor_one_facts e st t a b
  (Htp : takeProfitPct (settings (mem st)) = JS.Fin a)
  (Hsl : stopLossPct (settings (mem st)) = JS.Fin b)
  (Hab : (- b < a)%Q) :
  settings (mem (monitor_one e st t)) = settings (mem st) /\
  (ncalls (monitor_one e st t) <= S (S (ncalls st)))%nat /\
  (closes (log (monitor_one e st t)) <= S (closes (log st)))%nat.
Proof.
  unfold monitor_one.
  pose proof (prompt_facts e st (price_prompt (symbol t))) as PF.
  destruct (prompt e st (price_prompt (symbol t))) as [st1 r].
  cbn [fst] in PF. destruct PF as [M1 [N1 C1]].
  cbv beta iota zeta.
  destruct (negb (success r)); [rewrite M1, N1, C1; repeat split; lia|].
  match goal with |- context [if ?c then st1 else _] => destruct c end;
    [rewrite M1, N1, C1; repeat split; lia|].
  set (x := pnl_pct _ _).
  rewrite M1, Htp.
  destruct (JS.nge x (JS.Fin a)) eqn:Hge.
  - match goal with |- context [sell e st1 t ?p ?c x ?n] =>
      destruct (sell_facts e st1 t p c x n eq_refl) as [S1 [N2 K1]] end.
    rewrite S1, M1, Hsl.
    destruct (JS.nle x (JS.neg (JS.Fin b))) eqn:Hle.
    + exfalso. exact (triggers_exclusive a b x Hab Hge Hle).
    + rewrite S1, M1. repeat split; lia.
  - rewrite M1, Hsl.
    destruct (JS.nle x (JS.neg (JS.Fin b))) eqn:Hle.
    + match goal with |- context [sell e st1 t ?p ?c x ?n] =>
        destruct (sell_facts e st1 t p c x n eq_refl) as [S1 [N2 K1]] end.
      rewrite S1, M1. repeat split; lia.
    + rewrite M1, N1, C1. repeat split; lia.
Qed.

(** C6 (counterexample): with [takeProfitPct = -50] and [stopLossPct = 10]
    (both reachable through the environment or [update_settings]), a
    position bought at 1 and priced at 0.8 has [pnlPct] a little above -20
    (the double -19.999999999999996): it is both [>= -50] and [<= -10], so
    the 50% sell and the full sell are both requested, and [closeTrade]
    runs twice, adding the pnl (-20.00) twice to [totalPnl]. *)
Lemma both_triggers_fire_counterexample :
  let st := Scenarios.state_of (Scenarios.with_settings (logTrade DEFAULT_MEMORY Scenarios.open_x)
                                 (Scenarios.settings_of (-50) 10 true 5)) in
  let st' := monitorPositions (Scenarios.answer_all "$0.8") st in
  (exists q, log st' = [Prompt (price_prompt "X"); Prompt (tp_prompt "X");
                         Notify (TakeProfitHit "X" (JS.Fin q));
                         Prompt (sl_prompt "X"); Notify (StopLossTriggered "X" (JS.Fin q));
                         Sleep 3000] /\ (-20 < q)%Q /\ (q < -19)%Q) /\
  closes (log st') = 2%nat /\
  (exists q, totalPnl (mem st') = JS.Fin q /\ (q == -40)%Q).
Proof.
  vm_compute. split; [eexists; split; [reflexivity|split; reflexivity]|].
  split; [reflexivity|]. eexists; split; reflexivity.
Qed.

(** C6 (amended): when [takeProfitPct > -stopLossPct] (in particular when
    both are positive), no [pnlPct] meets both triggers; checking one
    position then makes at most two requests (the price and one sell) and
    closes the trade at most once; and a whole [monitorPositions] pass
    closes at most one trade per open position. *)
Theorem monitor_at_most_one_close_per_position e st a b
  (Htp : takeProfitPct (settings (mem st)) = JS.Fin a)
  (Hsl : stopLossPct (settings (mem st)) = JS.Fin b)
  (Hab : (- b < a)%Q) :
  (forall x, ~ (JS.nge x (JS.Fin a) = true /\ JS.nle x (JS.neg (JS.Fin b)) = true)) /\
  (forall t, (ncalls (monitor_one e st t) <= S (S (ncalls st)))%nat /\
             (closes (log (monitor_one e st t)) <= S (closes (log st)))%nat) /\
  (closes (log (monitorPositions e st)) <=
     closes (log st) + List.length (getOpenPositions (mem st)))%nat.
Proof.
  split; [intros x [H1 H2]; exact (triggers_exclusive a b x Hab H1 H2)|].
  split; [intros t; destruct (monitor_one_facts e st t a b Htp Hsl Hab) as [_ H]; exact H|].
  unfold monitorPositions.
  destruct (isMonitoring st); [lia|].
  destruct (getOpenPositions (mem st)) as [|t0 ts] eqn:Eo; [cbn; lia|].
  cbn [set_monitoring log mem].
  assert (G : forall l s, settings (mem s) = settings (mem st) ->
    (closes (log (fold_left (fun st t => emit (monitor_one e st t) (Sleep 3000)) l s)) <=
    closes (log s) + List.length l)%nat).
  { induction l as [|x l IH]; intros s Hs; [cbn; lia|]. cbn [fold_left].
    rewrite <- Hs in Htp, Hsl.
    destruct (monitor_one_facts e s x a b Htp Hsl Hab) as [S1 [_ K1]].
    rewrite Hs in Htp, Hsl.
    specialize (IH (emit (monitor_one e s x) (Sleep 3000))).
    cbn [emit mem log] in IH. rewrite S1 in IH. specialize (IH Hs).
    rewrite closes_app in IH. change (closes [Sleep 3000]) with 0%nat in IH.
    cbn [List.length]. lia. }
  exact (G (t0 :: ts) (set_monitoring st true) eq_refl).
Qed.

Lemma monitor_at_most_one_close_per_position_witness :
  let st := Scenarios.state_of (Scenarios.with_settings (logTrade DEFAULT_MEMORY Scenarios.open_x)
                                 (Scenarios.settings_of 100 30 true 5)) in
  takeProfitPct (settings (mem st)) = JS.Fin 100 /\ stopLossPct (settings (mem st)) = JS.Fin 30 /\
  (- 30 < 100)%Q /\
  (closes (log (monitorPositions (Scenarios.answer_all "$0.5") st)) <=
     closes (log st) + List.length (getOpenPositions (mem st)))%nat.
Proof.
  cbv zeta.
  assert (Hq : (- 30 < 100)%Q) by lra.
  match goal with |- context [monitorPositions _ ?s] =>
    pose proof (monitor_at_most_one_close_per_position (Scenarios.answer_all "$0.5") s 100 30
      eq_refl eq_refl Hq) as H end.
  split; [reflexivity|]. split; [reflexivity|]. split; [exact Hq|].
  exact (proj2 (proj2 H)).
Defined.


Lemma insert_desc_perm c l : Permutation (insert_desc c l) (c :: l).
Proof.
  induction l as [|d l IH]; cbn; [reflexivity|].
  destruct (c_score d <? c_score c); [reflexivity|].
  rewrite IH. apply perm_swap.
Qed.

Lemma insert_desc_hd d c l :
  HdRel score_ge d l -> score_ge d c -> HdRel score_ge d (insert_desc c l).
Proof.
  intros H Hdc. destruct l as [|x l]; cbn; [constructor; exact Hdc|].
  destruct (c_score x <? c_score c); constructor; [exact Hdc|]. inversion H; assumption.
Qed.

Lemma insert_desc_sorted c l : Sorted score_ge l -> Sorted score_ge (insert_desc c l).
Proof.
  induction l as [|d l IH]; intros H; cbn; [repeat constructor|].
  destruct (c_score d <? c_score c) eqn:E.
  - constructor; [exact H|]. constructor. unfold score_ge. apply Z.ltb_lt in E. lia.
  - inversion H as [|? ? Hl Hd]; subst. constructor; [apply IH, Hl|].
    apply insert_desc_hd; [exact Hd|]. unfold score_ge. apply Z.ltb_ge in E. lia.
Qed.

Lemma sort_desc_spec l : Permutation (sort_desc l) l /\ Sorted score_ge (sort_desc l).
Proof.
  unfold sort_desc.
  assert (G : forall l acc, Sorted score_ge acc ->
    Permutation (fold_left (fun acc c => insert_desc c acc) l acc) (l ++ acc) /\
    Sorted score_ge (fold_left (fun acc c => insert_desc c acc) l acc)).
  { induction l0 as [|c l0 IH]; intros acc Hs; cbn; [split; [reflexivity|exact Hs]|].
    destruct (IH (insert_desc c acc) (insert_desc_sorted c acc Hs)) as [P1 S1].
    split; [|exact S1]. eapply Permutation_trans; [exact P1|].
    eapply Permutation_trans; [apply Permutation_app_head, insert_desc_perm|].
    cbn. apply Permutation_sym, Permutation_middle. }
  destruct (G l [] (Sorted_nil _)) as [P1 S1]. rewrite app_nil_r in P1. split; assumption.
Qed.

Lemma research_fold_shape e lines st cs :
  snd (fold_left (research_line e) lines (st, cs)) = (cs ++ parsed_of_lines lines)%list /\
  trades (mem (fst (fold_left (research_line e) lines (st, cs)))) = trades (mem st) /\
  settings (mem (fst (fold_left (research_line e) lines (st, cs)))) = settings (mem st) /\
  ncalls (fst (fold_left (research_line e) lines (st, cs))) = ncalls st /\
  log (fst (fold_left (research_line e) lines (st, cs))) = log st /\
  isScanning (fst (fold_left (research_line e) lines (st, cs))) = isScanning st.
Proof.
  revert st cs; induction lines as [|l lines IH]; intros st cs.
  - cbn. rewrite app_nil_r. repeat split.
  - cbn [fold_left]. unfold parsed_of_lines; cbn [flat_map]; fold (parsed_of_lines lines).
    assert (Hr : research_line e (st, cs) l =
      match parse_line l with
      | Some (parts, score) =>
          (set_mem st (updateTokenMemory (mem st) (field parts 1) (patch_of (now e st) parts score)),
           (cs ++ [candidate_of parts score])%list)
      | None => (st, cs)
      end) by reflexivity.
    rewrite Hr.
    destruct (parse_line l) as [[parts score]|].
    + destruct (IH (set_mem st (updateTokenMemory (mem st) (field parts 1) (patch_of (now e st) parts score)))
                   (cs ++ [candidate_of parts score])%list) as [A [B [C [D [E F]]]]].
      rewrite A, B, C, D, E, F. cbn. rewrite <- app_assoc. repeat split.
    + destruct (IH st cs) as [A [B [C [D [E F]]]]]. rewrite A, B, C, D, E, F.
      repeat split.
Qed.

Lemma researchCandidates_result e st s :
  snd (researchCandidates e st s) =
    if success (bankr e (ncalls st) (research_prompt s))
    then sort_desc (parsed_candidates (pick (response (bankr e (ncalls st) (research_prompt s))) EmptyString))
    else [].
Proof.
  unfold researchCandidates, prompt. cbv beta iota zeta.
  destruct (success _); cbn [negb]; [|reflexivity].
  destruct (research_fold_shape e (split_on nl (pick (response (bankr e (ncalls st) (research_prompt s))) EmptyString))
     {| mem := mem st; isScanning := isScanning st; isMonitoring := isMonitoring st;
        ncalls := S (ncalls st); log := (log st ++ [Prompt (research_prompt s)])%list |} [])
     as [A _].
  destruct (fold_left _ _ _) as [st' cs]. cbn in A |- *. rewrite A. reflexivity.
Qed.
Lemma executeBuy_log e st c :
  log (fst (executeBuy e st c)) =
    (log st ++ [Prompt (buy_prompt (maxBuyAmount (settings (mem st))) (c_symbol c))])%list.
Proof. reflexivity. Qed.


Lemma scan_scenario_single_buy e st
  (Hscan : isScanning st = false)
  (H0 : success (bankr e (ncalls st) (scan_prompt (maxMarketCap (settings (mem st))))) = true)
  (H1s : success (bankr e (S (ncalls st)) (research_prompt (pick (response
           (bankr e (ncalls st) (scan_prompt (maxMarketCap (settings (mem st)))))) EmptyString))) = true)
  (H1r : response (bankr e (S (ncalls st)) (research_prompt (pick (response
           (bankr e (ncalls st) (scan_prompt (maxMarketCap (settings (mem st)))))) EmptyString))) =
         Some Scenarios.research_answer)
  (Hauto : autoTradeEnabled (settings (mem st)) = true)
  (Hslots : maxOpenPositions (settings (mem st)) = Z.of_nat (List.length (getOpenPositions (mem st))) + 1) :
  exists b,
    snd (scanMarket e st) = Scanned [Scenarios.pepe2; Scenarios.dead] [Scenarios.pepe2] [b] /\
    log (fst (scanMarket e st)) =
      (log st ++ [Prompt (scan_prompt (maxMarketCap (settings (mem st))));
                  Prompt (research_prompt (pick (response
                    (bankr e (ncalls st) (scan_prompt (maxMarketCap (settings (mem st)))))) EmptyString));
                  Prompt (buy_prompt (maxBuyAmount (settings (mem st))) "PEPE2");
                  Notify (ScanReport 2 1 [b])])%list.
Proof.
  intros.
  cut (exists b st', scanMarket e st = (st', Scanned [Scenarios.pepe2; Scenarios.dead] [Scenarios.pepe2] [b]) /\
    log st' = (log st ++ [Prompt (scan_prompt (maxMarketCap (settings (mem st))));
                  Prompt (research_prompt (pick (response
                    (bankr e (ncalls st) (scan_prompt (maxMarketCap (settings (mem st)))))) EmptyString));
                  Prompt (buy_prompt (maxBuyAmount (settings (mem st))) "PEPE2");
                  Notify (ScanReport 2 1 [b])])%list).
  { intros [b [st' [Hs Hl]]]. exists b. rewrite Hs. split; [reflexivity | exact Hl]. }
  unfold scanMarket. rewrite Hscan.
  unfold prompt at 1. cbn [set_scanning mem ncalls log isScanning isMonitoring].
  rewrite H0. cbn [negb].
  unfold researchCandidates, prompt at 1. cbn [set_mem set_lastScanTime mem ncalls log isScanning isMonitoring].
  rewrite H1s, H1r. cbn [negb].
  change (split_on nl (pick (Some Scenarios.research_answer) EmptyString))
    with [Scenarios.pepe_line; Scenarios.dead_line].
  match goal with |- context [fold_left (research_line e) _ (?S, [])] =>
    destruct (research_fold_shape e [Scenarios.pepe_line; Scenarios.dead_line] S []) as [A [B [C [D [E F]]]]];
    destruct (fold_left (research_line e) [Scenarios.pepe_line; Scenarios.dead_line] (S, [])) as [st1 cs] eqn:Ef
  end.
  cbn [fst snd mem settings trades log set_lastScanTime] in A, B, C, D, E, F.
  assert (Hp : parsed_of_lines [Scenarios.pepe_line; Scenarios.dead_line] = [Scenarios.pepe2; Scenarios.dead])
    by reflexivity.
  rewrite Hp in A. cbn in A. subst cs.
  replace (sort_desc [Scenarios.pepe2; Scenarios.dead]) with [Scenarios.pepe2; Scenarios.dead] by reflexivity.
  cbv beta iota zeta.
  replace (filter is_viable [Scenarios.pepe2; Scenarios.dead]) with [Scenarios.pepe2] by reflexivity.
  rewrite C, Hauto. cbn [andb List.length Nat.eqb negb].
  assert (Hop : getOpenPositions (mem st1) = getOpenPositions (mem st))
    by (unfold getOpenPositions; rewrite B; reflexivity).
  rewrite Hop, Hslots.
  replace (Z.of_nat (List.length (getOpenPositions (mem st))) + 1 -
           Z.of_nat (List.length (getOpenPositions (mem st)))) with 1 by lia.
  change (firstn (Z.to_nat 1) [Scenarios.pepe2]) with [Scenarios.pepe2].
  cbn [Z.ltb Z.compare buy_all].
  pose proof (executeBuy_log e st1 Scenarios.pepe2) as L.
  destruct (executeBuy e st1 Scenarios.pepe2) as [st2 b].
  cbn [fst] in L. eexists b, _. split; [reflexivity|].
  cbn [emit set_scanning log].
  rewrite L, E, C. rewrite <- !app_assoc. reflexivity.
Qed.

Lemma in_parsed_of_lines lines c :
  In c (parsed_of_lines lines) <->
  exists line parts score, In line lines /\ parse_line line = Some (parts, score) /\
    c = candidate_of parts score.
Proof.
  unfold parsed_of_lines. rewrite in_flat_map. split.
  - intros [line [Hl Hc]]. destruct (parse_line line) as [[parts score]|] eqn:Hp.
    + destruct Hc as [Hc|[]]. exists line, parts, score. auto.
    + destruct Hc.
  - intros [line [parts [score [Hl [Hp Hc]]]]]. exists line. rewrite Hp. split; [exact Hl | left; auto].
Qed.

Lemma parse_line_iff line parts score :
  parse_line line = Some (parts, score) <->
  parts = map trim (split_on "|"%char line) /\ (7 <= List.length parts)%nat /\
  parseInt (field parts 0) = Some score.
Proof.
  unfold parse_line. split.
  - destruct (Nat.leb 7 _) eqn:Hl; [|discriminate].
    destruct (parseInt _) eqn:Hi; [|discriminate]. intros [= <- <-].
    apply Nat.leb_le in Hl. auto.
  - intros [-> [Hl Hi]]. apply Nat.leb_le in Hl. rewrite Hl, Hi. reflexivity.
Qed.

(** C5: the parser of [researchCandidates] keeps exactly the lines that
    split on "|" into at least 7 fields whose first field parses as an
    integer, multiplies the market cap by 1000 when its text contains "k",
    and returns the candidates sorted by descending score (a permutation of
    the parsed lines). On the two lines of PEPE2 (score 72, "$35k") and DEAD
    (score 40, "$5k"), with auto-trading on and one free position slot,
    [scanMarket] yields the candidates PEPE2 and DEAD, only PEPE2 is viable,
    and the only buy request it issues is the one for PEPE2,
    "Buy $<maxBuyAmount> of PEPE2 on Base", whatever the configured
    amount. *)
Theorem candidate_parser_and_single_buy e st
  (Hscan : isScanning st = false)
  (H0 : success (bankr e (ncalls st) (scan_prompt (maxMarketCap (settings (mem st))))) = true)
  (H1s : success (bankr e (S (ncalls st)) (research_prompt (pick (response
           (bankr e (ncalls st) (scan_prompt (maxMarketCap (settings (mem st)))))) EmptyString))) = true)
  (H1r : response (bankr e (S (ncalls st)) (research_prompt (pick (response
           (bankr e (ncalls st) (scan_prompt (maxMarketCap (settings (mem st)))))) EmptyString))) =
         Some Scenarios.research_answer)
  (Hauto : autoTradeEnabled (settings (mem st)) = true)
  (Hslots : maxOpenPositions (settings (mem st)) = Z.of_nat (List.length (getOpenPositions (mem st))) + 1) :
  (forall line parts score,
     parse_line line = Some (parts, score) <->
     parts = map trim (split_on "|"%char line) /\ (7 <= List.length parts)%nat /\
     parseInt (field parts 0) = Some score) /\
  (forall lines c,
     In c (parsed_of_lines lines) <->
     exists line parts score, In line lines /\ parse_line line = Some (parts, score) /\
       c = candidate_of parts score) /\
  (forall raw, includes (to_lower raw) "k" = true ->
     market_cap raw = JS.mul (parseFloat (strip_cap_chars raw)) (JS.Fin 1000)) /\
  (forall raw, includes (to_lower raw) "k" = false ->
     market_cap raw = parseFloat (strip_cap_chars raw)) /\
  (forall e' st' s, snd (researchCandidates e' st' s) =
     if success (bankr e' (ncalls st') (research_prompt s))
     then sort_desc (parsed_candidates (pick (response (bankr e' (ncalls st') (research_prompt s))) EmptyString))
     else []) /\
  (forall l, Permutation (sort_desc l) l /\ Sorted score_ge (sort_desc l)) /\
  parsed_candidates Scenarios.research_answer = [Scenarios.pepe2; Scenarios.dead] /\
  (c_symbol Scenarios.pepe2 = "PEPE2" /\ c_score Scenarios.pepe2 = 72 /\
   c_marketCap Scenarios.pepe2 = JS.Fin 35000 /\ is_viable Scenarios.pepe2 = true) /\
  (c_symbol Scenarios.dead = "DEAD" /\ c_score Scenarios.dead = 40 /\
   c_marketCap Scenarios.dead = JS.Fin 5000 /\ is_viable Scenarios.dead = false) /\
  exists b,
    snd (scanMarket e st) = Scanned [Scenarios.pepe2; Scenarios.dead] [Scenarios.pepe2] [b] /\
    log (fst (scanMarket e st)) =
      (log st ++ [Prompt (scan_prompt (maxMarketCap (settings (mem st))));
                  Prompt (research_prompt (pick (response
                    (bankr e (ncalls st) (scan_prompt (maxMarketCap (settings (mem st)))))) EmptyString));
                  Prompt (buy_prompt (maxBuyAmount (settings (mem st))) "PEPE2");
                  Notify (ScanReport 2 1 [b])])%list.
Proof.
  split; [exact parse_line_iff|].
  split; [exact in_parsed_of_lines|].
  split; [intros raw Hk; unfold market_cap; rewrite Hk; reflexivity|].
  split; [intros raw Hk; unfold market_cap; rewrite Hk; reflexivity|].
  split; [exact researchCandidates_result|].
  split; [exact sort_desc_spec|].
  split; [reflexivity|].
  split; [repeat split; reflexivity|].
  split; [repeat split; reflexivity|].
  exact (scan_scenario_single_buy e st Hscan H0 H1s H1r Hauto Hslots).
Qed.

(** Instance: the scan of [Scenarios.scan_env] from an empty memory with
    auto-trading on and one allowed position. *)
Lemma candidate_parser_and_single_buy_witness :
  let st := Scenarios.state_of (Scenarios.with_settings DEFAULT_MEMORY
              (Scenarios.settings_of 100 30 true 1)) in
  isScanning st = false /\
  maxOpenPositions (settings (mem st)) = Z.of_nat (List.length (getOpenPositions (mem st))) + 1 /\
  exists b,
    snd (scanMarket Scenarios.scan_env st) = Scanned [Scenarios.pepe2; Scenarios.dead] [Scenarios.pepe2] [b] /\
    log (fst (scanMarket Scenarios.scan_env st)) =
      [Prompt (scan_prompt 40000);
       Prompt (research_prompt (pick (response
         (bankr Scenarios.scan_env 0 (scan_prompt 40000))) EmptyString));
       Prompt "Buy $5 of PEPE2 on Base";
       Notify (ScanReport 2 1 [b])].
Proof.
  intros st. split; [reflexivity|]. split; [reflexivity|].
  exact (proj2 (proj2 (proj2 (proj2 (proj2 (proj2 (proj2 (proj2 (proj2
    (candidate_parser_and_single_buy Scenarios.scan_env st
       eq_refl eq_refl eq_refl eq_refl eq_refl eq_refl)))))))))).
Defined.

Lemma regex_test_prefix alts pre s :
  regex_test alts s = true -> regex_test alts (pre ++ s) = true.
Proof.
  intros H. induction pre as [|c pre IH]; [exact H|].
  cbn [append regex_test]. rewrite IH. apply orb_true_r.
Qed.

Lemma survival_phrases pre post :
  isSurvivalMode (pre ++ "can't lose" ++ post) = true /\
  isSurvivalMode (pre ++ "last $" ++ post) = true /\
  isSurvivalMode (pre ++ "survive" ++ post) = true.
Proof.
  unfold isSurvivalMode. repeat split; apply regex_test_prefix; vm_compute; reflexivity.
Qed.

Lemma poly_winRate64_spec s :
  0 <= totalBets s -> poly_winRate64 s = spec_winRate64 (wins s) (totalBets s).
Proof.
  intros Hb. unfold poly_winRate64, spec_winRate64.
  destruct (Z.eqb_spec (totalBets s) 0) as [E|E].
  - rewrite E. reflexivity.
  - replace (0 <? totalBets s) with true by (symmetry; apply Z.ltb_lt; lia). reflexivity.
Qed.

(** C4: for a non-negative bet count, the bet size of [scanPolymarket]
    ([perTradeAmount], on doubles) is clamp(floor(balance * edge *
    riskFactor), 1, balance * 0.05) with winRate = wins/totalBets (0.5
    without bets), edge = max(0.1, winRate - 0.5) and riskFactor 0.5 in
    survival mode (e.g. a strategy containing "can't lose", "last $" or
    "survive"), 1.5 when winRate > 0.6 over at least 5 bets, 0.6 when
    winRate < 0.4 over at least 5 bets, 1 otherwise; it is the amount bet
    when fewer than two losses end the history. With 7 wins in 10 bets,
    balance 200 and no survival language, riskFactor is 1.5 and the bet is
    10. (In doubles 0.7 - 0.5 is 0.19999999999999996, so the floored raw
    size is 59, not 60; the cap of 10 applies either way.) *)
Theorem polymarket_bet_size_formula s balance strategy (Hb : 0 <= totalBets s) :
  perTradeAmount64 s balance strategy =
    spec_bet64 (wins s) (totalBets s) (isSurvivalMode strategy) balance /\
  (forall m, (countConsecutiveLosses m < 2)%nat ->
     polymarketBet64 m balance strategy = Some (perTradeAmount64 (polymarketStats m) balance strategy)) /\
  (forall pre post,
     isSurvivalMode (pre ++ "can't lose" ++ post) = true /\
     isSurvivalMode (pre ++ "last $" ++ post) = true /\
     isSurvivalMode (pre ++ "survive" ++ post) = true) /\
  (forall m, totalBets (polymarketStats m) = 10 -> wins (polymarketStats m) = 7 ->
     isSurvivalMode strategy = false -> (countConsecutiveLosses m < 2)%nat ->
     poly_winRate64 (polymarketStats m) = F64.of_Q (7 # 10) /\
     riskFactor64 (isSurvivalMode strategy) (poly_winRate64 (polymarketStats m)) 10 = F64.of_Q (3 # 2) /\
     rawPerTradeAmount64 (polymarketStats m) (F64.of_Z 200) strategy = F64.of_Z 59 /\
     polymarketBet64 m (F64.of_Z 200) strategy = Some (F64.of_Z 10)).
Proof.
  assert (Hbet : forall m b, (countConsecutiveLosses m < 2)%nat ->
     polymarketBet64 m b strategy = Some (perTradeAmount64 (polymarketStats m) b strategy)).
  { intros m b Hc. unfold polymarketBet64.
    replace (Nat.leb 4 (countConsecutiveLosses m)) with false by (symmetry; apply Nat.leb_gt; lia).
    replace (Nat.leb 2 (countConsecutiveLosses m)) with false by (symmetry; apply Nat.leb_gt; lia).
    reflexivity. }
  split.
  { unfold perTradeAmount64, rawPerTradeAmount64, spec_bet64, clamp64, riskFactor64, spec_riskFactor64.
    rewrite (poly_winRate64_spec s Hb). reflexivity. }
  split; [intros m; exact (Hbet m balance)|].
  split; [exact survival_phrases|].
  intros m H10 H7 Hs Hc.
  assert (Hw : poly_winRate64 (polymarketStats m) = F64.of_Q (7 # 10))
    by (unfold poly_winRate64; rewrite H10, H7; vm_compute; reflexivity).
  split; [exact Hw|].
  split; [rewrite Hs, Hw; vm_compute; reflexivity|].
  split; [unfold rawPerTradeAmount64; rewrite Hs, Hw, H10; vm_compute; reflexivity|].
  rewrite (Hbet m _ Hc). unfold perTradeAmount64, rawPerTradeAmount64.
  rewrite Hs, Hw, H10. vm_compute. reflexivity.
Qed.

(** Instance: 7 wins in 10 bets, no loss at the end of the history, a
    balance of 200 and a plain strategy. *)
Lemma polymarket_bet_size_formula_witness :
  let m := {| tokens := []; trades := []; polymarketTrades := [];
              learnings := []; lastScanTime := 0; totalTrades := 0; winRate := 0;
              totalPnl := JS.Fin 0;
              polymarketStats := {| totalBets := 10; wins := 7; losses := 3 |};
              settings := DEFAULT_SETTINGS |} in
  polymarketBet64 m (F64.of_Z 200) "Bet on momentum" = Some (F64.of_Z 10).
Proof.
  intros m.
  assert (Hb : 0 <= totalBets (polymarketStats m)) by (cbn; lia).
  destruct (polymarket_bet_size_formula (polymarketStats m) (F64.of_Z 200) "Bet on momentum" Hb)
    as [_ [_ [_ Hex]]].
  assert (Hc : (countConsecutiveLosses m < 2)%nat) by (vm_compute; lia).
  assert (Hs : isSurvivalMode "Bet on momentum" = false) by (vm_compute; reflexivity).
  exact (proj2 (proj2 (proj2 (Hex m eq_refl eq_refl Hs Hc)))).
Defined.

End TraderFacts.

Module HealthFacts.
Import Health.
Local Open Scope Z_scope.

Ltac split_qlt :=
  repeat match goal with
  | |- context [JS.Qlt_bool ?a ?b] =>
      let E := fresh "E" in
      destruct (JS.Qlt_bool a b) eqn:E;
      [apply RiskGuardFacts.Qlt_bool_iff in E | apply RiskGuardFacts.Qlt_bool_false in E]
  end.

(** X1: the health score lies in [0, 100], and every further critical
    alert lowers it by 15 down to the floor 0. *)
Theorem health_score_bounds_and_alert_penalty {A} (m : Metrics) (al : list A) (a : A)
    (es : ExecStats) :
  0 <= calculateHealthScore m al es <= 100 /\
  calculateHealthScore m (a :: al) es = Z.max 0 (calculateHealthScore m al es - 15).
Proof.
  unfold calculateHealthScore. cbn [List.length]. rewrite Nat2Z.inj_succ.
  split_qlt; lia.
Qed.

(** X2: with the statistics [getStats] returns (success rate 0.95, latency
    1500 ms, both placeholders), the execution part of the health check
    never deducts points nor recommends anything: without alerts the score
    is at least 50, each alert costs 15, and the recommendations never
    mention execution failures or latency. *)
Theorem health_check_execution_placeholders {A} (m : Metrics) (al : list A) (mgr : Safety.Mgr) :
  50 <= calculateHealthScore m ([] : list A) (getStats mgr) /\
  calculateHealthScore m al (getStats mgr) =
    Z.max 0 (calculateHealthScore m ([] : list A) (getStats mgr) - 15 * Z.of_nat (List.length al)) /\
  ~ In INVESTIGATE_FAILURES (recommendations m al (getStats mgr)) /\
  ~ In OPTIMIZE_LATENCY (recommendations m al (getStats mgr)).
Proof.
  unfold calculateHealthScore, recommendations, getStats. cbn [successRate avgLatency List.length].
  replace (JS.Qlt_bool (95 # 100) (8 # 10)) with false by reflexivity.
  replace (JS.Qlt_bool (95 # 100) (9 # 10)) with false by reflexivity.
  replace (JS.Qlt_bool 5000 1500) with false by reflexivity.
  replace (JS.Qlt_bool 2000 1500) with false by reflexivity.
  split_qlt; (split; [lia|]); (split; [lia|]);
  destruct (Nat.ltb 0 (List.length al));
  cbn; split; intro H; repeat (destruct H as [H|H]; [discriminate H|]); exact H.
Qed.

(** X3: the recommendation text is exactly "System is performing well" when
    the win rate is at least 50, the drawdown at most 15, there is no
    critical alert, the success rate is at least 0.9 and the latency at
    most 2000 ms; the score is then 100, or 85 when the drawdown lies in
    (10, 15]. *)
Theorem recommendations_performing_well_iff {A} (m : Metrics) (al : list A) (es : ExecStats) :
  (generateHealthRecommendations m al es = PERFORMING_WELL <->
     (50 <= winRate m)%Q /\ (currentDrawdown m <= 15)%Q /\ al = [] /\
     (9 # 10 <= successRate es)%Q /\ (avgLatency es <= 2000)%Q) /\
  (generateHealthRecommendations m al es = PERFORMING_WELL ->
     calculateHealthScore m al es = 100 \/
     (calculateHealthScore m al es = 85 /\ (10 < currentDrawdown m)%Q)).
Proof.
  unfold generateHealthRecommendations, recommendations, calculateHealthScore.
  destruct al as [|x al]; cbn [List.length Nat.ltb Nat.leb].
  - split_qlt; cbn;
    (split; [split;
      [ intro H; first [discriminate H | exfalso; lra | repeat split; first [reflexivity | lra]]
      | intros [H1 [H2 [_ [H4 H5]]]]; first [reflexivity | exfalso; lra] ]
    | intro H; first [discriminate H | exfalso; lra | left; lia | right; split; [lia | lra]] ]).
  - split_qlt; cbn;
    (split; [split; [intro H; discriminate H | intros [_ [_ [H _]]]; discriminate H]|]);
    intro H; discriminate H.
Qed.

End HealthFacts.

Module RateFacts.
Import JSString Safety RateView.
Local Open Scope Z_scope.

Lemma lookup_map_set_eq {A} k (v : A) l : lookup k (map_set k v l) = Some v.
Proof.
  induction l as [|[k' v'] l IH]; simpl.
  - rewrite String.eqb_refl. reflexivity.
  - destruct (String.eqb k k') eqn:E; simpl.
    + rewrite String.eqb_refl. reflexivity.
    + rewrite E. exact IH.
Qed.

Lemma lookup_map_set_neq {A} k k' (v : A) l :
  k <> k' -> lookup k' (map_set k v l) = lookup k' l.
Proof.
  intros Hne. induction l as [|[k0 v0] l IH]; simpl.
  - destruct (String.eqb k' k) eqn:E; [apply String.eqb_eq in E; congruence|reflexivity].
  - destruct (String.eqb k k0) eqn:E; simpl.
    + apply String.eqb_eq in E. subst k0.
      destruct (String.eqb k' k) eqn:E'; [apply String.eqb_eq in E'; congruence|reflexivity].
    + destruct (String.eqb k' k0); [reflexivity|exact IH].
Qed.

Lemma rate_key_inj t u t' u' : rate_key t u = rate_key t' u' -> t = t' /\ u = u'.
Proof.
  unfold rate_key. intros H.
  destruct t, t'; simpl in H; try discriminate H;
    (split; [reflexivity|]);
    repeat (injection H as H); exact H.
Qed.

Lemma fold_min_spec l acc :
  fold_left Z.min l acc <= acc /\ Forall (fun x => fold_left Z.min l acc <= x) l /\
  (fold_left Z.min l acc = acc \/ In (fold_left Z.min l acc) l).
Proof.
  revert acc. induction l as [|x l IH]; intros acc; simpl.
  - split; [lia|]. split; [constructor|]. left; reflexivity.
  - destruct (IH (Z.min acc x)) as [H1 [H2 H3]].
    split; [lia|]. split; [constructor; [lia|exact H2]|].
    destruct H3 as [H3|H3]; [|right; right; exact H3].
    rewrite H3. destruct (Z.min_spec acc x) as [[_ ->]|[_ ->]]; [left|right;left]; reflexivity.
Qed.

Lemma list_min_spec l :
  l <> [] -> In (list_min l) l /\ Forall (fun x => list_min l <= x) l.
Proof.
  destruct l as [|x l]; [congruence|]. intros _. unfold list_min.
  destruct (fold_min_spec l x) as [H1 [H2 H3]].
  split; [destruct H3 as [->|H3]; [left; reflexivity|right; exact H3]|].
  constructor; [exact H1|exact H2].
Qed.

Lemma rateLimits_checkRateLimit m t u now :
  rateLimits (fst (checkRateLimit m t u now)) =
  map_set (rate_key t u)
    {| requests := filter (fun ts => now - ts <? snd (RATE_LIMITS t)) (reqs_of m t u);
       windowStart := match lookup (rate_key t u) (rateLimits m) with
                      | Some st => windowStart st | None => now end |}
    (rateLimits m).
Proof.
  unfold checkRateLimit, reqs_of.
  destruct (RATE_LIMITS t) as [limit w]. simpl.
  destruct (lookup (rate_key t u) (rateLimits m));
    destruct (Z.leb _ _); reflexivity.
Qed.

Lemma reqs_of_checkRateLimit m t u now :
  reqs_of (fst (checkRateLimit m t u now)) t u =
  filter (fun ts => now - ts <? snd (RATE_LIMITS t)) (reqs_of m t u).
Proof.
  unfold reqs_of at 1. rewrite rateLimits_checkRateLimit, lookup_map_set_eq. reflexivity.
Qed.

Lemma reqs_of_updateRateLimit m t u now :
  reqs_of (updateRateLimit m t u now) t u = (reqs_of m t u ++ [now])%list.
Proof.
  unfold updateRateLimit, reqs_of. simpl. rewrite lookup_map_set_eq. simpl.
  destruct (lookup (rate_key t u) (rateLimits m)); reflexivity.
Qed.

Lemma lookup_other_checkRateLimit m t u now k :
  k <> rate_key t u ->
  lookup k (rateLimits (fst (checkRateLimit m t u now))) = lookup k (rateLimits m).
Proof.
  intros H. rewrite rateLimits_checkRateLimit.
  apply lookup_map_set_neq. congruence.
Qed.

Lemma lookup_other_updateRateLimit m t u now k :
  k <> rate_key t u ->
  lookup k (rateLimits (updateRateLimit m t u now)) = lookup k (rateLimits m).
Proof.
  intros H. unfold updateRateLimit. simpl. apply lookup_map_set_neq. congruence.
Qed.

Lemma ewr_slots fuel m req exec calls now :
  (List.length (reqs_of (r_mgr (executeWithRetry fuel m req exec calls now)) (type req) (userId req))
     + calls =
   List.length (reqs_of m (type req) (userId req)) +
   r_calls (executeWithRetry fuel m req exec calls now))%nat.
Proof.
  revert m req calls now.
  induction fuel as [|fuel IH]; intros m req calls now; [reflexivity|].
  cbn [executeWithRetry].
  set (m2 := updateRateLimit (with_pending m (set_add (id req) (pendingExecutions m)))
               (type req) (userId req) now).
  assert (H2 : reqs_of m2 (type req) (userId req) = (reqs_of m (type req) (userId req) ++ [now])%list).
  { unfold m2. rewrite reqs_of_updateRateLimit. reflexivity. }
  destruct (exec calls) as [dur out]. destruct out as [v|e].
  - cbn [r_mgr r_calls]. unfold reqs_of at 1. cbn [rateLimits with_pending cacheResult with_history].
    fold (reqs_of m2 (type req) (userId req)). rewrite H2, length_app. simpl. lia.
  - destruct (retryable (classifyError e) && Nat.ltb (retryCount req) 3).
    + cbn [r_mgr r_calls]. unfold reqs_of at 1. cbn [rateLimits with_pending].
      fold (reqs_of (r_mgr (executeWithRetry fuel m2 (bump_retry req) exec (S calls)
                              (now + dur + backoffMs (classifyError e)))) (type req) (userId req)).
      pose proof (IH m2 (bump_retry req) (S calls) (now + dur + backoffMs (classifyError e))) as IH'.
      cbn [type userId bump_retry] in IH'. rewrite H2, length_app in IH'. simpl in IH'. lia.
    + cbn [r_mgr r_calls]. unfold reqs_of at 1. cbn [rateLimits with_pending cacheResult with_history].
      fold (reqs_of m2 (type req) (userId req)). rewrite H2, length_app. simpl. lia.
Qed.

Lemma ewr_other_keys fuel m req exec calls now k :
  k <> rate_key (type req) (userId req) ->
  lookup k (rateLimits (r_mgr (executeWithRetry fuel m req exec calls now))) =
  lookup k (rateLimits m).
Proof.
  intros Hk. revert m req calls now Hk.
  induction fuel as [|fuel IH]; intros m req calls now Hk; [reflexivity|].
  cbn [executeWithRetry].
  destruct (exec calls) as [dur out]. destruct out as [v|e].
  - cbn [r_mgr rateLimits with_pending cacheResult with_history].
    rewrite (lookup_other_updateRateLimit _ _ _ _ _ Hk). reflexivity.
  - destruct (retryable (classifyError e) && Nat.ltb (retryCount req) 3).
    + cbn [r_mgr rateLimits with_pending]. rewrite IH by exact Hk.
      rewrite (lookup_other_updateRateLimit _ _ _ _ _ Hk). reflexivity.
    + cbn [r_mgr rateLimits with_pending cacheResult with_history].
      rewrite (lookup_other_updateRateLimit _ _ _ _ _ Hk). reflexivity.
Qed.

Lemma set_has_delete x l : set_has x (set_delete x l) = false.
Proof.
  unfold set_has, set_delete. induction l as [|y l IH]; [reflexivity|]. simpl.
  destruct (String.eqb x y) eqn:E; simpl; [exact IH|]. rewrite E. exact IH.
Qed.

Lemma ewr_caches fuel m req exec calls now :
  (3 - retryCount req < fuel)%nat ->
  let r := executeWithRetry fuel m req exec calls now in
  lookup (id req) (executionHistory (r_mgr r)) = Some (r_result r) /\
  set_has (id req) (pendingExecutions (r_mgr r)) = false /\
  (calls < r_calls r)%nat.
Proof.
  revert m req calls now.
  induction fuel as [|fuel IH]; intros m req calls now Hf; [inversion Hf|].
  cbn [executeWithRetry].
  destruct (exec calls) as [dur out]. destruct out as [v|e].
  - cbn [r_mgr r_result r_calls executionHistory pendingExecutions with_pending cacheResult with_history].
    rewrite lookup_map_set_eq, set_has_delete. split; [reflexivity|]. split; [reflexivity|lia].
  - destruct (retryable (classifyError e) && Nat.ltb (retryCount req) 3) eqn:E.
    + apply andb_true_iff in E as [_ E]. apply Nat.ltb_lt in E.
      edestruct IH as [H1 [H2 H3]]; [|cbn [r_mgr r_result r_calls executionHistory pendingExecutions with_pending];
        split; [exact H1|]; split; [apply set_has_delete|lia]].
      cbn [retryCount bump_retry]. lia.
    + cbn [r_mgr r_result r_calls executionHistory pendingExecutions with_pending cacheResult with_history].
      rewrite lookup_map_set_eq, set_has_delete. split; [reflexivity|]. split; [reflexivity|lia].
Qed.


Lemma checkRateLimit_answer m t u now :
  let window := filter (fun ts => now - ts <? snd (RATE_LIMITS t)) (reqs_of m t u) in
  snd (checkRateLimit m t u now) =
  if fst (RATE_LIMITS t) <=? Z.of_nat (List.length window)
  then (false, Z.max (snd (RATE_LIMITS t) - (now - list_min window)) 0)
  else (true, 0).
Proof.
  unfold checkRateLimit, reqs_of. destruct (RATE_LIMITS t) as [limit w]. simpl.
  destruct (lookup (rate_key t u) (rateLimits m)); destruct (Z.leb _ _); reflexivity.
Qed.

Lemma checkRateLimit_same_state m1 m2 t u now :
  lookup (rate_key t u) (rateLimits m1) = lookup (rate_key t u) (rateLimits m2) ->
  snd (checkRateLimit m1 t u now) = snd (checkRateLimit m2 t u now).
Proof.
  intros H. rewrite !checkRateLimit_answer. unfold reqs_of. rewrite H. reflexivity.
Qed.

Lemma safeExecute_other_keys m rq exec now k :
  k <> rate_key (rq_type rq) (rq_userId rq) ->
  lookup k (rateLimits (r_mgr (safeExecute m rq exec now))) = lookup k (rateLimits m).
Proof.
  intros Hk. unfold safeExecute.
  destruct (set_has (rq_id rq) (pendingExecutions m)); [reflexivity|].
  pose proof (lookup_other_checkRateLimit m (rq_type rq) (rq_userId rq) now k Hk) as H1.
  destruct (checkRateLimit m (rq_type rq) (rq_userId rq) now) as [m1 [ok ra]].
  simpl in H1. destruct (negb ok); [exact H1|].
  destruct (lookup (rq_id rq) (executionHistory m1)); [exact H1|].
  rewrite ewr_other_keys by exact Hk. exact H1.
Qed.

Lemma RATE_LIMITS_pos t : 0 < fst (RATE_LIMITS t) /\ 0 < snd (RATE_LIMITS t).
Proof. destruct t; simpl; lia. Qed.

(** X4: [checkRateLimit] keeps, for its key, only the timestamps less than
    [windowMs] old and stores them back; it refuses exactly when at least
    [requests] of them remain; an accepted check reports a wait of 0, a
    refused one a wait that is positive and, when no stored timestamp lies
    in the future, at most [windowMs]; no other key's state is touched. *)
Theorem rate_limit_window_decision (m : Mgr) (t : RequestType) (u : string) (now : Z) :
  let c := checkRateLimit m t u now in
  let window := filter (fun ts => now - ts <? snd (RATE_LIMITS t)) (reqs_of m t u) in
  reqs_of (fst c) t u = window /\
  (fst (snd c) = false <-> fst (RATE_LIMITS t) <= Z.of_nat (List.length window)) /\
  (fst (snd c) = true -> snd (snd c) = 0) /\
  (fst (snd c) = false ->
     0 < snd (snd c) /\
     (Forall (fun ts => ts <= now) (reqs_of m t u) -> snd (snd c) <= snd (RATE_LIMITS t))) /\
  (forall k, k <> rate_key t u -> lookup k (rateLimits (fst c)) = lookup k (rateLimits m)).
Proof.
  intros c window.
  split; [apply reqs_of_checkRateLimit|].
  split; [|split; [|split]].
  4: { intros k Hk. apply lookup_other_checkRateLimit. exact Hk. }
  all: unfold c; rewrite checkRateLimit_answer; fold window.
  - destruct (fst (RATE_LIMITS t) <=? Z.of_nat (List.length window)) eqn:E; simpl;
      [apply Z.leb_le in E | apply Z.leb_gt in E]; split; intros H; try lia; try reflexivity;
      discriminate H.
  - destruct (fst (RATE_LIMITS t) <=? _); simpl; [discriminate|reflexivity].
  - destruct (fst (RATE_LIMITS t) <=? Z.of_nat (List.length window)) eqn:E; simpl;
      [|discriminate]. intros _. apply Z.leb_le in E.
    destruct (RATE_LIMITS_pos t) as [Hl Hw].
    assert (Hne : window <> []) by (intros Hn; rewrite Hn in E; simpl in E; lia).
    destruct (list_min_spec window Hne) as [Hin _].
    remember (list_min window) as lo eqn:Hlo. clear Hlo.
    pose proof Hin as Hin'. unfold window in Hin'. apply filter_In in Hin' as [Hr Hlt].
    apply Z.ltb_lt in Hlt.
    split; [lia|]. intros Hall. rewrite Forall_forall in Hall. specialize (Hall _ Hr). lia.
Qed.

(** X5: every invocation of the operation takes one slot of the caller's
    rate limit: after a [safeExecute] that passes the duplicate check, the
    key's window holds the timestamps kept by the check plus one per
    invocation (up to 4 with retries), although the check itself only
    asked for one free slot. *)
Theorem safeExecute_slot_per_attempt (m : Mgr) (rq : Request) (exec : Executor) (now : Z) :
  set_has (rq_id rq) (pendingExecutions m) = false ->
  let r := safeExecute m rq exec now in
  List.length (reqs_of (r_mgr r) (rq_type rq) (rq_userId rq)) =
  (List.length (reqs_of (fst (checkRateLimit m (rq_type rq) (rq_userId rq) now))
                        (rq_type rq) (rq_userId rq)) + r_calls r)%nat.
Proof.
  intros Hp r. unfold r, safeExecute. rewrite Hp.
  destruct (checkRateLimit m (rq_type rq) (rq_userId rq) now) as [m1 [ok ra]]. simpl fst.
  destruct (negb ok); [simpl; lia|].
  destruct (lookup (rq_id rq) (executionHistory m1)); [simpl; lia|].
  pose proof (ewr_slots 4 m1 {| id := rq_id rq; type := rq_type rq; userId := rq_userId rq;
                                 timestamp := now; retryCount := 0 |} exec 0 now) as H.
  cbn [type userId] in H. lia.
Qed.

Definition always_reset : Executor := fun _ => (10, Throw SafetyFacts.econnreset).
Definition trade_u : Request := {| rq_id := "trade_9"; rq_type := Trade; rq_userId := "u" |}.

Lemma safeExecute_slot_per_attempt_witness :
  set_has (rq_id trade_u) (pendingExecutions empty_mgr) = false /\
  List.length (reqs_of (r_mgr (safeExecute empty_mgr trade_u always_reset 0)) Trade "u") =
  (List.length (reqs_of (fst (checkRateLimit empty_mgr Trade "u" 0)) Trade "u") +
   r_calls (safeExecute empty_mgr trade_u always_reset 0))%nat /\
  r_calls (safeExecute empty_mgr trade_u always_reset 0) = 4%nat.
Proof.
  split; [reflexivity|]. split; [|vm_compute; reflexivity].
  exact (safeExecute_slot_per_attempt empty_mgr trade_u always_reset 0 eq_refl).
Defined.

(** X6: rate limits are kept per request type and user: a [safeExecute]
    for one (type, user) pair leaves every other pair's stored timestamps
    and its next [checkRateLimit] answer unchanged. *)
Theorem rate_limits_isolated_per_type_and_user (m : Mgr) (rq : Request) (exec : Executor)
    (now : Z) (t' : RequestType) (u' : string) (now' : Z) :
  (t', u') <> (rq_type rq, rq_userId rq) ->
  let m' := r_mgr (safeExecute m rq exec now) in
  reqs_of m' t' u' = reqs_of m t' u' /\
  snd (checkRateLimit m' t' u' now') = snd (checkRateLimit m t' u' now').
Proof.
  intros Hne m'.
  assert (Hk : rate_key t' u' <> rate_key (rq_type rq) (rq_userId rq)).
  { intros Hk. apply rate_key_inj in Hk as [-> ->]. apply Hne. reflexivity. }
  pose proof (safeExecute_other_keys m rq exec now _ Hk) as H.
  split; [unfold reqs_of; fold m' in H; rewrite H; reflexivity|].
  apply checkRateLimit_same_state. exact H.
Qed.

Definition trade_bob : Request := {| rq_id := "trade_b"; rq_type := Trade; rq_userId := "bob" |}.

Lemma rate_limits_isolated_per_type_and_user_witness :
  (Trade, "alice") <> (rq_type trade_bob, rq_userId trade_bob) /\
  reqs_of (r_mgr (safeExecute empty_mgr trade_bob always_reset 0)) Trade "alice" =
    reqs_of empty_mgr Trade "alice" /\
  snd (checkRateLimit (r_mgr (safeExecute empty_mgr trade_bob always_reset 0)) Trade "alice" 5) =
    snd (checkRateLimit empty_mgr Trade "alice" 5).
Proof.
  assert (Hne : (Trade, "alice") <> (rq_type trade_bob, rq_userId trade_bob))
    by (simpl; discriminate).
  split; [exact Hne|].
  exact (rate_limits_isolated_per_type_and_user empty_mgr trade_bob always_reset 0 Trade "alice" 5 Hne).
Defined.

(** X7: a completed execution is replayed: after a [safeExecute] that ran
    the operation, the id is no longer pending and its result is cached,
    so a later [safeExecute] with the same id, once its rate check
    passes, returns that result marked [cached] without invoking its
    operation; a refused rate check still wins over the cache; once the
    cache entry has expired the operation runs again. *)
Theorem cached_result_replayed_until_expiry (m : Mgr) (rq : Request) (exec : Executor)
    (now : Z) (rq2 : Request) (exec2 : Executor) (now2 : Z) :
  set_has (rq_id rq) (pendingExecutions m) = false ->
  fst (snd (checkRateLimit m (rq_type rq) (rq_userId rq) now)) = true ->
  lookup (rq_id rq) (executionHistory m) = None ->
  rq_id rq2 = rq_id rq ->
  let r1 := safeExecute m rq exec now in
  let c2 := checkRateLimit (r_mgr r1) (rq_type rq2) (rq_userId rq2) now2 in
  (fst (snd c2) = true ->
     safeExecute (r_mgr r1) rq2 exec2 now2 =
       {| r_mgr := fst c2; r_result := mark_cached (r_result r1); r_trace := [];
          r_calls := 0; r_now := now2 |}) /\
  (fst (snd c2) = false ->
     option_map etype (error (r_result (safeExecute (r_mgr r1) rq2 exec2 now2))) =
       Some rate_limit /\
     r_calls (safeExecute (r_mgr r1) rq2 exec2 now2) = 0%nat) /\
  (fst (snd c2) = true ->
     (1 <= r_calls (safeExecute (expire (r_mgr r1) (rq_id rq)) rq2 exec2 now2))%nat).
Proof.
  intros Hp Hok Hh Hid r1 c2.
  assert (Hrun : lookup (rq_id rq) (executionHistory (r_mgr r1)) = Some (r_result r1) /\
                 set_has (rq_id rq) (pendingExecutions (r_mgr r1)) = false).
  { unfold r1, safeExecute. rewrite Hp.
    pose proof (SafetyFacts.checkRateLimit_history m (rq_type rq) (rq_userId rq) now) as Hh1.
    destruct (checkRateLimit m (rq_type rq) (rq_userId rq) now) as [m1 [ok ra]].
    simpl in Hok, Hh1. subst ok. simpl negb. cbv iota. rewrite Hh1, Hh.
    edestruct (ewr_caches 4 m1 {| id := rq_id rq; type := rq_type rq; userId := rq_userId rq;
                                   timestamp := now; retryCount := 0 |} exec 0 now)
      as [H1 [H2 _]]; [simpl; lia|].
    split; [exact H1|exact H2]. }
  destruct Hrun as [Hc Hnp]. rewrite <- Hid in Hc, Hnp.
  pose proof (SafetyFacts.checkRateLimit_history (r_mgr r1) (rq_type rq2) (rq_userId rq2) now2) as Hh2.
  fold c2 in Hh2 |- *.
  split; [|split].
  - unfold safeExecute. rewrite Hnp. fold c2.
    destruct c2 as [m2 [ok ra]]. simpl fst in *. simpl snd in *. intros ->.
    simpl negb. cbv iota. rewrite Hh2, Hc. reflexivity.
  - unfold safeExecute. rewrite Hnp. fold c2.
    destruct c2 as [m2 [ok ra]]. simpl fst in *. intros ->. split; reflexivity.
  - intros Hok2. unfold safeExecute.
    assert (Hpe : pendingExecutions (expire (r_mgr r1) (rq_id rq)) = pendingExecutions (r_mgr r1))
      by reflexivity.
    rewrite Hpe, Hnp.
    assert (Hce : checkRateLimit (expire (r_mgr r1) (rq_id rq)) (rq_type rq2) (rq_userId rq2) now2 =
                  (with_history (fst c2) (executionHistory (expire (r_mgr r1) (rq_id rq))), snd c2)).
    { unfold c2, checkRateLimit, expire. destruct (RATE_LIMITS (rq_type rq2)).
      destruct (Z.leb _ _); reflexivity. }
    rewrite Hce. destruct c2 as [m2 [ok ra]]. simpl fst in *. simpl snd in *. subst ok.
    simpl negb. cbv iota. cbn [executionHistory with_history expire].
    assert (Hn : lookup (rq_id rq2)
                   (filter (fun kv => negb (String.eqb (fst kv) (rq_id rq))) (executionHistory (r_mgr r1))) = None).
    { rewrite Hid. generalize (executionHistory (r_mgr r1)) as l.
      induction l as [|[k v] l IH]; [reflexivity|]. simpl.
      destruct (String.eqb k (rq_id rq)) eqn:E; simpl; [exact IH|].
      rewrite String.eqb_sym, E. exact IH. }
    rewrite Hn.
    edestruct (ewr_caches 4) as [_ [_ H3]]; [|exact H3]. simpl. lia.
Qed.

Lemma cached_result_replayed_until_expiry_witness :
  set_has (rq_id SafetyFacts.req1) (pendingExecutions empty_mgr) = false /\
  fst (snd (checkRateLimit empty_mgr Trade "u" 0)) = true /\
  lookup (rq_id SafetyFacts.req1) (executionHistory empty_mgr) = None /\
  safeExecute (r_mgr (safeExecute empty_mgr SafetyFacts.req1 SafetyFacts.flaky_twice 0))
    SafetyFacts.req1 always_reset 9000 =
  {| r_mgr := fst (checkRateLimit (r_mgr (safeExecute empty_mgr SafetyFacts.req1 SafetyFacts.flaky_twice 0))
                                  Trade "u" 9000);
     r_result := mark_cached (r_result (safeExecute empty_mgr SafetyFacts.req1 SafetyFacts.flaky_twice 0));
     r_trace := []; r_calls := 0; r_now := 9000 |}.
Proof.
  assert (H1 : set_has (rq_id SafetyFacts.req1) (pendingExecutions empty_mgr) = false) by reflexivity.
  assert (H2 : fst (snd (checkRateLimit empty_mgr Trade "u" 0)) = true) by reflexivity.
  assert (H3 : lookup (rq_id SafetyFacts.req1) (executionHistory empty_mgr) = None) by reflexivity.
  split; [exact H1|]. split; [exact H2|]. split; [exact H3|].
  destruct (cached_result_replayed_until_expiry empty_mgr SafetyFacts.req1 SafetyFacts.flaky_twice 0
              SafetyFacts.req1 always_reset 9000 H1 H2 H3 eq_refl) as [H _].
  apply H. vm_compute. reflexivity.
Defined.

End RateFacts.

Module RiskFacts.
Import JS RiskGuard RiskView.
Local Open Scope Q_scope.

Ltac split_qlt :=
  repeat match goal with
  | |- context [Qlt_bool ?a ?b] =>
      let E := fresh "E" in
      destruct (Qlt_bool a b) eqn:E;
      [apply RiskGuardFacts.Qlt_bool_iff in E | apply RiskGuardFacts.Qlt_bool_false in E]
  end.

Lemma resetIfNewDay_same s d : lastResetDate s = d -> resetIfNewDay s d = s.
Proof. intros <-. unfold resetIfNewDay. rewrite String.eqb_refl. reflexivity. Qed.



Lemma canTrade_refusal_has_reason s d now p v :
  reason (snd (canTrade s d now p v)) <> None -> allowed (snd (canTrade s d now p v)) = false.
Proof.
  unfold canTrade.
  repeat match goal with |- context [if ?b then _ else _] => destruct b end;
    simpl; intros H; first [reflexivity | contradiction H; reflexivity].
Qed.

Lemma recordTrade_loss_facts s d now p v :
  p < 0 ->
  lastResetDate (recordTrade s d now p v) = d /\
  consecutiveLosses (recordTrade s d now p v) = consecutiveLosses s + 1 /\
  lastLossTime (recordTrade s d now p v) = now /\
  config (recordTrade s d now p v) = config s /\
  dailyTrades (recordTrade s d now p v) = dailyTrades (resetIfNewDay s d) + 1.
Proof.
  intros Hp. unfold recordTrade.
  assert (E : Qlt_bool p 0 = true) by (apply RiskGuardFacts.Qlt_bool_iff; exact Hp).
  rewrite E. unfold resetIfNewDay.
  destruct (negb (String.eqb d (lastResetDate s))) eqn:Ed; simpl.
  - repeat split.
  - apply negb_false_iff, String.eqb_eq in Ed. subst d. repeat split.
Qed.




(** X9: [canTrade] refuses with "Daily trade limit reached" exactly when
    the kill switch is off and the day's count (after the midnight reset)
    has reached [maxTradesPerDay]; on a day other than the last reset the
    day's trade count and loss restart from 0, so with positive limits
    neither the daily trade limit nor [isDailyLossExceeded] holds. *)
Theorem daily_limit_refusal_and_new_day (s : TradingLimits) (d : string) (now p v : Q) :
  (snd (canTrade s d now p v) =
     {| allowed := false; reason := Some (DailyLimitReached (maxTradesPerDay (config s))) |} <->
   autoTradeKilled s = false /\ maxTradesPerDay (config s) <= dailyTrades (resetIfNewDay s d)) /\
  (d <> lastResetDate s ->
     dailyTrades (resetIfNewDay s d) = 0 /\ dailyLoss (resetIfNewDay s d) = 0 /\
     lastResetDate (resetIfNewDay s d) = d /\
     (0 < maxTradesPerDay (config s) ->
        reason (snd (canTrade s d now p v)) <> Some (DailyLimitReached (maxTradesPerDay (config s)))) /\
     (0 < maxDailyLossUsd (config s) -> snd (isDailyLossExceeded s d) = false)).
Proof.
  assert (Hmain : snd (canTrade s d now p v) =
     {| allowed := false; reason := Some (DailyLimitReached (maxTradesPerDay (config s))) |} <->
     autoTradeKilled s = false /\ maxTradesPerDay (config s) <= dailyTrades (resetIfNewDay s d)).
  { unfold canTrade. rewrite RiskGuardFacts.resetIfNewDay_killed, RiskGuardFacts.resetIfNewDay_config.
    destruct (autoTradeKilled s); simpl.
    - split; [intros H; discriminate H | intros [H _]; discriminate H].
    - destruct (Qle_bool (maxTradesPerDay (config s)) (dailyTrades (resetIfNewDay s d))) eqn:E.
      + apply Qle_bool_iff in E. simpl. split; [intros _; split; [reflexivity|exact E]|reflexivity].
      + simpl. split.
        * destruct (gt _ _); simpl; [intros H; injection H as H; discriminate H|].
          destruct (_ && _); simpl; intros H; injection H as H; discriminate H.
        * intros [_ H]. apply Qle_bool_iff in H. congruence. }
  split; [exact Hmain|].
  intros Hne.
  assert (Hr : resetIfNewDay s d = set_daily s 0 0 d).
  { unfold resetIfNewDay. destruct (String.eqb d (lastResetDate s)) eqn:E; [|reflexivity].
    apply String.eqb_eq in E. contradiction. }
  rewrite Hr. simpl. split; [reflexivity|]. split; [reflexivity|]. split; [reflexivity|].
  split.
  - intros Hpos Hreason.
    assert (Hsnd : snd (canTrade s d now p v) =
       {| allowed := false; reason := Some (DailyLimitReached (maxTradesPerDay (config s))) |}).
    { pose proof (canTrade_refusal_has_reason s d now p v) as Ha.
      destruct (snd (canTrade s d now p v)) as [a r]. simpl in Hreason, Ha. subst r.
      rewrite Ha by discriminate. reflexivity. }
    apply Hmain in Hsnd as [_ Hle]. rewrite Hr in Hle. simpl in Hle. lra.
  - intros Hpos. unfold isDailyLossExceeded. rewrite Hr. simpl.
    destruct (Qle_bool (maxDailyLossUsd (config s)) 0) eqn:E; [|reflexivity].
    apply Qle_bool_iff in E. lra.
Qed.

(** X10: [canTrade] never consults the daily loss, [maxDailyLossUsd] or
    [maxOpenPositions]: its answer is the same whatever their values, so
    a day whose losses exceed the daily loss limit does not by itself
    block trading. *)
Theorem canTrade_ignores_loss_limit_and_open_positions (s : TradingLimits) (d : string)
    (now p v loss maxLoss maxOpen : Q) :
  snd (canTrade (with_loss_fields s loss maxLoss maxOpen) d now p v) = snd (canTrade s d now p v).
Proof.
  unfold canTrade, resetIfNewDay, set_daily, with_loss_fields.
  cbn [lastResetDate]. destruct (negb (String.eqb d (lastResetDate s)));
    cbn [config dailyTrades dailyLoss lastResetDate consecutiveLosses lastLossTime
         totalDrawdown autoTradeKilled maxTradesPerDay maxDailyLossUsd maxOpenPositions
         cooldownMinutesAfterLossStreak maxPositionSizePct drawdownKillSwitchPct];
    repeat match goal with |- context [if ?b then _ else _] => destruct b end; reflexivity.
Qed.

(** X11: after three losing trades recorded on the same day, [canTrade] on
    that day refuses every trade until [cooldownMinutesAfterLossStreak]
    minutes have passed since the third loss (whatever the position
    size). *)
Theorem three_losses_block_trading (s : TradingLimits) (d : string)
    (t1 t2 t3 p1 p2 p3 v1 v2 v3 now size value : Q) :
  0 <= consecutiveLosses s -> p1 < 0 -> p2 < 0 -> p3 < 0 ->
  now - t3 < cooldownMinutesAfterLossStreak (config s) * 60 * 1000 ->
  let s3 := recordTrade (recordTrade (recordTrade s d t1 p1 v1) d t2 p2 v2) d t3 p3 v3 in
  allowed (snd (canTrade s3 d now size value)) = false.
Proof.
  intros Hc H1 H2 H3 Hw s3.
  destruct (recordTrade_loss_facts s d t1 p1 v1 H1) as [A1 [B1 [_ [C1 _]]]].
  destruct (recordTrade_loss_facts (recordTrade s d t1 p1 v1) d t2 p2 v2 H2) as [A2 [B2 [_ [C2 _]]]].
  destruct (recordTrade_loss_facts (recordTrade (recordTrade s d t1 p1 v1) d t2 p2 v2) d t3 p3 v3 H3)
    as [A3 [B3 [L3 [C3 _]]]].
  fold s3 in A3, B3, L3, C3.
  unfold canTrade. rewrite (resetIfNewDay_same s3 d A3).
  destruct (autoTradeKilled s3); [reflexivity|].
  destruct (Qle_bool _ _); [reflexivity|]. destruct (gt _ _); [reflexivity|].
  assert (Hb : Qle_bool 3 (consecutiveLosses s3) &&
               Qlt_bool (now - lastLossTime s3)
                 (cooldownMinutesAfterLossStreak (config s3) * 60 * 1000) = true).
  { apply andb_true_iff. split.
    - apply Qle_bool_iff. rewrite B3, B2, B1. lra.
    - apply RiskGuardFacts.Qlt_bool_iff. rewrite L3, C3, C2, C1. exact Hw. }
  rewrite Hb. reflexivity.
Qed.

Lemma three_losses_block_trading_witness :
  0 <= consecutiveLosses (create DEFAULT_SECURITY_CONFIG "Mon") /\
  allowed (snd (canTrade
     (recordTrade (recordTrade (recordTrade (create DEFAULT_SECURITY_CONFIG "Mon")
        "Mon" 1000 (-1) 1000) "Mon" 2000 (-1) 1000) "Mon" 3000 (-1) 1000)
     "Mon" 200000 1 1000)) = false.
Proof.
  assert (H0 : 0 <= consecutiveLosses (create DEFAULT_SECURITY_CONFIG "Mon")) by (simpl; lra).
  split; [exact H0|].
  apply (three_losses_block_trading (create DEFAULT_SECURITY_CONFIG "Mon") "Mon"
           1000 2000 3000 (-1) (-1) (-1) 1000 1000 1000 200000 1 1000 H0);
    [reflexivity | reflexivity | reflexivity | vm_compute; reflexivity].
Defined.

(** X12: a cooldown refusal reports a whole number of remaining minutes
    that is at least 1 and, unless the last loss lies in the future, at
    most the configured cooldown rounded up; it only happens after at
    least 3 consecutive losses within the cooldown window. *)
Theorem cooldown_minutes_bounds (s : TradingLimits) (d : string) (now p v : Q) (k : Z) :
  reason (snd (canTrade s d now p v)) = Some (CooldownActive k) ->
  3 <= consecutiveLosses s /\
  now - lastLossTime s < cooldownMinutesAfterLossStreak (config s) * 60 * 1000 /\
  (1 <= k)%Z /\
  (0 <= now - lastLossTime s -> (k <= Qceiling (cooldownMinutesAfterLossStreak (config s)))%Z).
Proof.
  unfold canTrade.
  assert (Hr : consecutiveLosses (resetIfNewDay s d) = consecutiveLosses s /\
               lastLossTime (resetIfNewDay s d) = lastLossTime s /\
               config (resetIfNewDay s d) = config s)
    by (unfold resetIfNewDay; destruct (negb _); repeat split).
  destruct Hr as [Hr1 [Hr2 Hr3]]. rewrite Hr1, Hr2, Hr3.
  destruct (autoTradeKilled _); [discriminate|].
  destruct (Qle_bool _ _); [discriminate|]. destruct (gt _ _); [discriminate|].
  destruct (Qle_bool 3 (consecutiveLosses s)) eqn:E1; [|discriminate].
  destruct (Qlt_bool (now - lastLossTime s) _) eqn:E2; [|discriminate].
  apply Qle_bool_iff in E1. apply RiskGuardFacts.Qlt_bool_iff in E2.
  simpl. intros H. injection H as <-.
  set (c := cooldownMinutesAfterLossStreak (config s)) in *.
  set (e := now - lastLossTime s) in *.
  split; [exact E1|]. split; [exact E2|]. split.
  - assert (Hpos : 0 < (c * 60 * 1000 - e) / 60000).
    { apply Qlt_shift_div_l; [reflexivity|]. lra. }
    pose proof (Qle_ceiling ((c * 60 * 1000 - e) / 60000)) as Hc.
    assert (Hz : (0 < Qceiling ((c * 60 * 1000 - e) / 60000))%Z).
    { apply Z.nle_gt. intros Hle. apply (Qlt_irrefl 0).
      apply Qlt_le_trans with ((c * 60 * 1000 - e) / 60000); [exact Hpos|].
      apply Qle_trans with (inject_Z (Qceiling ((c * 60 * 1000 - e) / 60000))); [exact Hc|].
      rewrite <- (Qle_bool_iff _ _) in *. apply Qle_bool_iff. unfold Qle. simpl. lia. }
    lia.
  - intros He. apply Qceiling_resp_le.
    apply Qle_shift_div_r; [reflexivity|]. lra.
Qed.

Lemma cooldown_minutes_bounds_witness :
  reason (snd (canTrade
     (recordTrade (recordTrade (recordTrade (create DEFAULT_SECURITY_CONFIG "Mon")
        "Mon" 1000 (-1) 1000) "Mon" 2000 (-1) 1000) "Mon" 3000 (-1) 1000)
     "Mon" 63000 1 1000)) = Some (CooldownActive 4) /\ (1 <= 4)%Z.
Proof.
  assert (H : reason (snd (canTrade
     (recordTrade (recordTrade (recordTrade (create DEFAULT_SECURITY_CONFIG "Mon")
        "Mon" 1000 (-1) 1000) "Mon" 2000 (-1) 1000) "Mon" 3000 (-1) 1000)
     "Mon" 63000 1 1000)) = Some (CooldownActive 4)) by (vm_compute; reflexivity).
  split; [exact H|]. exact (proj1 (proj2 (proj2 (cooldown_minutes_bounds _ _ _ _ _ _ H)))).
Defined.



End RiskFacts.

Module JournalFacts.
Import JSString Journal JournalView.
Local Open Scope Z_scope.

Lemma keep_last_100_le {A} (l : list A) : (List.length (keep_last_100 l) <= 100)%nat \/
  keep_last_100 l = l.
Proof.
  unfold keep_last_100. destruct (Nat.ltb 100 (List.length l)) eqn:E; [left|right; reflexivity].
  rewrite length_skipn. apply Nat.ltb_lt in E. lia.
Qed.

Lemma journal_consistent_close m tid ep p now :
  journal_consistent m -> journal_consistent (closeTrade m tid ep p now).
Proof.
  intros [Ht Hl]. destruct (find_trade tid (trades m)) as [t|] eqn:E;
    [|rewrite TraderFacts.closeTrade_not_found by exact E; split; assumption].
  destruct (TraderFacts.find_trade_split _ _ _ E) as [_ [pre [post [Hsplit Hu]]]].
  unfold closeTrade. rewrite E. unfold journal_consistent. cbn [trades totalTrades learnings].
  rewrite Hu. split.
  - rewrite Ht, Hsplit, !length_app. reflexivity.
  - destruct (keep_last_100_le (learnings m ++ [if JS.gt (parseFloat p) 0
        then LearnedWin (symbol t) p (reason t) else LearnedLoss (symbol t) p (reason t)])%list)
      as [H|H]; [exact H|].
    unfold keep_last_100 in H |- *.
    destruct (Nat.ltb 100 _) eqn:E2; [rewrite length_skipn; apply Nat.ltb_lt in E2; lia|].
    apply Nat.ltb_ge in E2. exact E2.
Qed.

Lemma journal_consistent_log m t :
  journal_consistent m -> journal_consistent (logTrade m t).
Proof.
  intros [Ht Hl]. unfold logTrade, journal_consistent. cbn [trades totalTrades learnings].
  split; [rewrite Ht, length_app; simpl; lia|exact Hl].
Qed.

Lemma journal_consistent_token m s p :
  journal_consistent m -> journal_consistent (updateTokenMemory m s p).
Proof. intros H. exact H. Qed.

(** X14: along any sequence of scans and monitoring passes the journal
    stays consistent: [totalTrades] equals the number of logged trades and
    at most 100 learnings are kept. Neither counter reads the token map. *)
Theorem journal_counters_consistent_along_runs (e : Trader.Env) (st : Trader.TState)
    (ops : list Trader.TOp) :
  journal_consistent (Trader.mem st) ->
  journal_consistent (Trader.mem (Trader.run_trader e st ops)).
Proof.
  apply TraderFacts.run_trader_preserves.
  - apply journal_consistent_close.
  - intros m t _ _ _ _. apply journal_consistent_log.
  - apply journal_consistent_token.
  - intros m t H. exact H.
Qed.

Lemma journal_counters_consistent_along_runs_witness :
  journal_consistent (Trader.mem (Scenarios.state_of DEFAULT_MEMORY)) /\
  journal_consistent (Trader.mem (Trader.run_trader Scenarios.scan_env
     (Scenarios.state_of DEFAULT_MEMORY) [Trader.DoScan; Trader.DoMonitor])).
Proof.
  assert (H : journal_consistent (Trader.mem (Scenarios.state_of DEFAULT_MEMORY))).
  { split; [reflexivity|]. simpl; lia. }
  split; [exact H|]. exact (journal_counters_consistent_along_runs _ _ _ H).
Defined.

Lemma js_slice_neg {A} (l : list A) k :
  (0 < k)%Z ->
  js_slice_from l (- k) = skipn (List.length l - Z.to_nat k) l.
Proof.
  intros Hk. unfold js_slice_from.
  replace (- k <? 0) with true by (symmetry; apply Z.ltb_lt; lia).
  f_equal. lia.
Qed.

(** X15: [getTradeHistory(memory, limit)] returns, for a positive limit, the
    last [min(limit, #trades)] trades in their logged order; a limit of 0
    returns every trade and a negative limit all trades but the first
    [-limit]; the [get_trade_history] skill replaces a missing or zero
    limit by 10. *)
Theorem trade_history_window (m : AgentMemory) (limit : Z) (param : option Z) :
  (0 < limit -> exists pre, trades m = (pre ++ getTradeHistory m limit)%list /\
     List.length (getTradeHistory m limit) = Nat.min (Z.to_nat limit) (List.length (trades m))) /\
  getTradeHistory m 0 = trades m /\
  (limit < 0 -> getTradeHistory m limit = skipn (Z.to_nat (- limit)) (trades m)) /\
  (param = None \/ param = Some 0 -> history_limit param = 10) /\
  (forall x, x <> 0 -> history_limit (Some x) = x).
Proof.
  split; [|split; [|split; [|split]]].
  - intros Hl. unfold getTradeHistory. rewrite js_slice_neg by exact Hl.
    exists (firstn (List.length (trades m) - Z.to_nat limit) (trades m)).
    split; [symmetry; apply firstn_skipn|]. rewrite length_skipn. lia.
  - unfold getTradeHistory, js_slice_from. simpl.
    replace (Z.to_nat (Z.min 0 _)) with 0%nat by lia. reflexivity.
  - intros Hl. unfold getTradeHistory, js_slice_from.
    replace (- limit <? 0) with false by (symmetry; apply Z.ltb_ge; lia).
    destruct (Z.le_ge_cases (- limit) (Z.of_nat (List.length (trades m)))).
    + rewrite Z.min_l by lia. reflexivity.
    + rewrite Z.min_r by lia. rewrite Nat2Z.id, skipn_all.
      symmetry. apply skipn_all2. lia.
  - intros [->| ->]; reflexivity.
  - intros x Hx. simpl. destruct (Z.eqb_spec x 0); [contradiction|reflexivity].
Qed.

Lemma summary_partition l :
  (List.length (winning_trades l) + List.length (losing_trades l) +
   List.length (filter pnl_is_nan (closed_trades l)) = List.length (closed_trades l))%nat.
Proof.
  unfold losing_trades, winning_trades. generalize (closed_trades l) as c.
  induction c as [|t c IH]; [reflexivity|]. cbn [filter].
  unfold pnl_is_nan at 1.
  destruct (parseFloat (pnl_or_zero t)) as [q| | |] eqn:E; cbn [JS.gt JS.nle JS.cmp].
  - destruct (JS.Qlt_bool 0 q) eqn:Eq.
    + apply RiskGuardFacts.Qlt_bool_iff in Eq.
      replace (match Qcompare q 0 with Lt | Eq => true | Gt => false end) with false.
      2:{ symmetry. destruct (Qcompare q 0) eqn:C; [apply Qeq_alt in C | apply Qlt_alt in C|];
            try reflexivity; lra. }
      cbn [List.length]. lia.
    + apply RiskGuardFacts.Qlt_bool_false in Eq.
      replace (match Qcompare q 0 with Lt | Eq => true | Gt => false end) with true.
      2:{ symmetry. destruct (Qcompare q 0) eqn:C; try reflexivity.
          apply Qgt_alt in C. lra. }
      cbn [List.length]. lia.
  - cbn [List.length]. lia.
  - cbn [List.length]. lia.
  - cbn [List.length]. lia.
Qed.

(** X16: in [getPerformanceSummary] the wins (pnl > 0) and losses
    (pnl <= 0) add up to the closed trades except for the closed trades
    whose pnl does not parse to a number, which count as neither; so
    "W / L" covers all closed trades exactly when every closed pnl
    parses; open and closed positions together never exceed the trades. *)
Theorem performance_summary_counts (m : AgentMemory) :
  let c := summary_counts m in
  (sc_wins c + sc_losses c + List.length (filter pnl_is_nan (closed_trades (trades m))) =
     sc_closed c)%nat /\
  ((sc_wins c + sc_losses c = sc_closed c)%nat <->
     Forall (fun t => pnl_is_nan t = false) (closed_trades (trades m))) /\
  (sc_open c + sc_closed c <= List.length (trades m))%nat.
Proof.
  intros c. pose proof (summary_partition (trades m)) as Hp.
  split; [exact Hp|]. split.
  - unfold c, summary_counts. cbn [sc_wins sc_losses sc_closed]. split.
    + intros H. assert (H0 : List.length (filter pnl_is_nan (closed_trades (trades m))) = 0%nat) by lia.
      apply length_zero_iff_nil in H0. apply Forall_forall. intros t Ht.
      destruct (pnl_is_nan t) eqn:En; [|reflexivity].
      assert (Hin : In t (filter pnl_is_nan (closed_trades (trades m)))) by (apply filter_In; auto).
      rewrite H0 in Hin. contradiction.
    + intros H. rewrite Forall_forall in H.
      assert (H0 : filter pnl_is_nan (closed_trades (trades m)) = []).
      { rewrite (filter_ext_in pnl_is_nan (fun _ => false)); [apply filter_false|].
        intros t Ht. apply H, Ht. }
      rewrite H0 in Hp. simpl in Hp. lia.
  - unfold c, summary_counts, getOpenPositions, closed_trades. cbn [sc_open sc_closed].
    clear Hp. induction (trades m) as [|t l IH]; [simpl; lia|]. cbn [filter is_open is_closed].
    unfold is_open, is_closed in *. destruct (status t); cbn [status_eqb List.length]; lia.
Qed.

End JournalFacts.

Module TraderExtraFacts.
Import JSString Journal Trader TraderView.
Local Open Scope Z_scope.

Lemma executeBuy_trade_shape e st c :
  exists t,
    trades (mem (fst (executeBuy e st c))) = (trades (mem st) ++ [t])%list /\
    symbol t = buy_symbol (snd (executeBuy e st c)) /\
    is_open t = buy_ok (snd (executeBuy e st c)) /\
    buy_symbol (snd (executeBuy e st c)) = c_symbol c /\
    settings (mem (fst (executeBuy e st c))) = settings (mem st) /\
    isScanning (fst (executeBuy e st c)) = isScanning st.
Proof.
  unfold executeBuy, prompt. cbv beta iota zeta.
  cbn [set_mem mem isScanning fst snd logTrade trades settings].
  eexists. split; [reflexivity|].
  cbn [symbol status]. destruct (success _); cbn; repeat split.
Qed.

Lemma buy_all_shape e cs : forall st,
  exists new,
    trades (mem (fst (buy_all e st cs))) = (trades (mem st) ++ new)%list /\
    map (fun t => (symbol t, is_open t)) new =
      map (fun b => (buy_symbol b, buy_ok b)) (snd (buy_all e st cs)) /\
    map buy_symbol (snd (buy_all e st cs)) = map c_symbol cs /\
    settings (mem (fst (buy_all e st cs))) = settings (mem st) /\
    isScanning (fst (buy_all e st cs)) = isScanning st.
Proof.
  induction cs as [|c cs IH]; intros st.
  - exists []. cbn. rewrite app_nil_r. repeat split.
  - cbn [buy_all].
    destruct (executeBuy_trade_shape e st c) as [t [T1 [T2 [T3 [T4 [T5 T6]]]]]].
    destruct (executeBuy e st c) as [st1 b] eqn:E1. cbn [fst snd] in *.
    destruct (IH st1) as [new [N1 [N2 [N3 [N4 N5]]]]].
    destruct (buy_all e st1 cs) as [st2 bs] eqn:E2. cbn [fst snd] in *.
    exists (t :: new). rewrite N1, T1, <- app_assoc. cbn [map].
    rewrite N2, N3, T2, T3, T4, N4, T5, N5, T6. repeat split.
Qed.

Lemma researchCandidates_keeps e st s :
  trades (mem (fst (researchCandidates e st s))) = trades (mem st) /\
  settings (mem (fst (researchCandidates e st s))) = settings (mem st) /\
  isScanning (fst (researchCandidates e st s)) = isScanning st.
Proof.
  unfold researchCandidates, prompt. cbv beta iota zeta.
  destruct (success _); cbn [negb]; [|repeat split].
  match goal with |- context [fold_left (research_line e) ?ls (?S, [])] =>
    destruct (TraderFacts.research_fold_shape e ls S []) as [_ [B [C [_ [_ F]]]]];
    destruct (fold_left (research_line e) ls (S, [])) as [st1 cs]
  end.
  cbn [fst mem trades settings isScanning] in *. repeat split; assumption.
Qed.

(** What one scan started while no scan runs does to the trade list: it
    appends one entry per buy attempt, and attempts exactly the first
    [maxOpenPositions - #open] candidates scoring 60 or more, when
    auto-trade is on, and none otherwise. *)
Lemma scanMarket_shape e st :
  isScanning st = false ->
  isScanning (fst (scanMarket e st)) = false /\
  exists new,
    trades (mem (fst (scanMarket e st))) = (trades (mem st) ++ new)%list /\
    match snd (scanMarket e st) with
    | Scanned cands viable buys =>
        viable = filter is_viable cands /\
        map buy_symbol buys =
          map c_symbol (if autoTradeEnabled (settings (mem st))
                        then firstn (Z.to_nat (maxOpenPositions (settings (mem st)) -
                                               Z.of_nat (List.length (getOpenPositions (mem st)))))
                                    viable
                        else []) /\
        map (fun t => (symbol t, is_open t)) new = map (fun b => (buy_symbol b, buy_ok b)) buys
    | _ => new = []
    end.
Proof.
  intros Hs. unfold scanMarket. rewrite Hs.
  unfold prompt. cbn [set_scanning mem ncalls log isScanning isMonitoring settings].
  destruct (success (bankr e (ncalls st) (scan_prompt (maxMarketCap (settings (mem st))))));
    cbn [negb].
  2:{ cbn. split; [reflexivity|]. exists []. rewrite app_nil_r. split; reflexivity. }
  match goal with |- context [researchCandidates e ?S ?R] =>
    destruct (researchCandidates_keeps e S R) as [K1 [K2 K3]];
    destruct (researchCandidates e S R) as [st1 cands]
  end.
  cbn [fst mem trades settings isScanning set_mem set_scanning set_lastScanTime] in K1, K2, K3.
  destruct cands as [|c0 cs0].
  { cbn. split; [reflexivity|]. exists []. rewrite app_nil_r. split; [exact K1|reflexivity]. }
  cbv beta iota zeta.
  assert (Hop : getOpenPositions (mem st1) = getOpenPositions (mem st))
    by (unfold getOpenPositions; rewrite K1; reflexivity).
  rewrite K2, Hop.
  set (viable := filter is_viable (c0 :: cs0)).
  set (slots := maxOpenPositions (settings (mem st)) -
                Z.of_nat (List.length (getOpenPositions (mem st)))).
  assert (Hnil : forall new, (trades (mem st1) ++ new)%list = (trades (mem st) ++ new)%list)
    by (intros; rewrite K1; reflexivity).
  destruct (autoTradeEnabled (settings (mem st))) eqn:Ha;
    [destruct (Nat.eqb (List.length viable) 0) eqn:Hv|]; cbn [andb negb].
  - (* no viable candidate: nothing is bought *)
    cbn [fst snd set_scanning emit isScanning mem].
    split; [reflexivity|]. exists []. rewrite app_nil_r. split; [exact K1|].
    apply Nat.eqb_eq, length_zero_iff_nil in Hv. unfold viable in *. rewrite Hv.
    destruct (Z.to_nat slots); repeat split.
  - destruct (0 <? slots) eqn:Hsl.
    + destruct (buy_all_shape e (firstn (Z.to_nat slots) viable) st1)
        as [new [B1 [B2 [B3 [_ B5]]]]].
      destruct (buy_all e st1 (firstn (Z.to_nat slots) viable)) as [st2 bs].
      cbn [fst snd] in B1, B2, B3, B5. cbn [fst snd set_scanning emit isScanning mem].
      split; [reflexivity|]. exists new. rewrite B1, K1. split; [reflexivity|].
      repeat split; assumption.
    + cbn [fst snd set_scanning emit isScanning mem].
      split; [reflexivity|]. exists []. rewrite app_nil_r. split; [exact K1|].
      replace (Z.to_nat slots) with O by (apply Z.ltb_ge in Hsl; lia).
      repeat split.
  - cbn [fst snd set_scanning emit isScanning mem].
    split; [reflexivity|]. exists []. rewrite app_nil_r. split; [exact K1|].
    repeat split.
Qed.







(** X18: logging a placed bet pushes a pending trade, which ends any loss
    streak: [countConsecutiveLosses] is 0 afterwards, so the next bet is
    neither skipped nor halved, and it counts one more bet. *)
Theorem logged_bet_resets_loss_streak m tid balance strategy :
  countConsecutiveLosses (logPolymarketBet m tid) = O /\
  polymarketBet (logPolymarketBet m tid) balance strategy =
    Some (perTradeAmount (polymarketStats (logPolymarketBet m tid)) balance strategy) /\
  totalBets (polymarketStats (logPolymarketBet m tid)) = totalBets (polymarketStats m) + 1.
Proof.
  assert (H0 : countConsecutiveLosses (logPolymarketBet m tid) = O).
  { unfold countConsecutiveLosses, logPolymarketBet. cbn [polymarketTrades].
    rewrite rev_app_distr. reflexivity. }
  split; [exact H0|]. split; [|reflexivity].
  unfold polymarketBet. rewrite H0. reflexivity.
Qed.

(** X19: a scan started while no scan runs ends with [isScanning] false; it
    appends to the journal exactly one trade per buy attempt, in order,
    with the bought symbol and open exactly when the buy succeeded; the
    viable candidates are those scoring 60 or more, and the buys are
    attempted for the first [maxOpenPositions - #open] of them when
    auto-trade is on and for none when it is off; scans that stop early
    log nothing. *)
Theorem scan_buys_first_viable_candidates e st (Hs : isScanning st = false) :
  isScanning (fst (scanMarket e st)) = false /\
  exists new,
    trades (mem (fst (scanMarket e st))) = (trades (mem st) ++ new)%list /\
    match snd (scanMarket e st) with
    | Scanned cands viable buys =>
        viable = filter is_viable cands /\
        map buy_symbol buys =
          map c_symbol (if autoTradeEnabled (settings (mem st))
                        then firstn (Z.to_nat (maxOpenPositions (settings (mem st)) -
                                               Z.of_nat (List.length (getOpenPositions (mem st)))))
                                    viable
                        else []) /\
        map (fun t => (symbol t, is_open t)) new = map (fun b => (buy_symbol b, buy_ok b)) buys
    | _ => new = []
    end.
Proof. exact (scanMarket_shape e st Hs). Qed.

Lemma scan_buys_first_viable_candidates_witness :
  isScanning (Scenarios.state_of (Scenarios.with_settings DEFAULT_MEMORY
                                    (Scenarios.settings_of 100 30 true 5))) = false /\
  isScanning (fst (scanMarket Scenarios.scan_env
     (Scenarios.state_of (Scenarios.with_settings DEFAULT_MEMORY
                            (Scenarios.settings_of 100 30 true 5))))) = false.
Proof.
  split; [reflexivity|].
  exact (proj1 (scan_buys_first_viable_candidates Scenarios.scan_env
    (Scenarios.state_of (Scenarios.with_settings DEFAULT_MEMORY
                           (Scenarios.settings_of 100 30 true 5))) eq_refl)).
Defined.

(** X20: after [toggleAutoTrade(false)] its message holds: a scan (started
    while none runs) leaves the trade journal unchanged, whatever Bankr
    answers. *)
Theorem auto_trade_off_scans_never_buy e st (Hs : isScanning st = false) :
  snd (toggleAutoTrade (mem st) false) =
    "🔴 Auto-trade DISABLED. I'll still scan and alert you, but won't buy." /\
  trades (mem (fst (scanMarket e (set_mem st (fst (toggleAutoTrade (mem st) false)))))) =
    trades (mem st).
Proof.
  split; [reflexivity|].
  set (st' := set_mem st (fst (toggleAutoTrade (mem st) false))).
  assert (Hs' : isScanning st' = false) by exact Hs.
  destruct (scanMarket_shape e st' Hs') as [_ [new [N1 N2]]].
  rewrite N1. change (trades (mem st')) with (trades (mem st)).
  destruct (snd (scanMarket e st')) as [| | |cands viable buys]; try (rewrite N2, app_nil_r; reflexivity).
  destruct N2 as [_ [N3 N4]].
  change (autoTradeEnabled (settings (mem st'))) with false in N3. cbn in N3.
  destruct buys; [|discriminate N3].
  destruct new; [rewrite app_nil_r; reflexivity|discriminate N4].
Qed.

Lemma auto_trade_off_scans_never_buy_witness :
  isScanning (Scenarios.state_of DEFAULT_MEMORY) = false /\
  trades (mem (fst (scanMarket Scenarios.scan_env
     (set_mem (Scenarios.state_of DEFAULT_MEMORY)
              (fst (toggleAutoTrade (mem (Scenarios.state_of DEFAULT_MEMORY)) false)))))) =
    trades (mem (Scenarios.state_of DEFAULT_MEMORY)).
Proof.
  split; [reflexivity|].
  exact (proj2 (auto_trade_off_scans_never_buy Scenarios.scan_env (Scenarios.state_of DEFAULT_MEMORY) eq_refl)).
Defined.

End TraderExtraFacts.
